(** * Noise reduction (NoiseReduction.cpp): a shallow embedding and its properties

    The development follows src/audacity/NoiseReduction.cpp.  The classes
    [Settings], [Statistics] and [Worker] become modules of the same name;
    member functions become functions that pass the mutated members
    explicitly.  The members of a worker that its constructor fixes are the
    record [Worker.t]; those that change while samples are processed are
    the record [Worker.state].

    Numbers.  [float] and [double] are read as real numbers: arithmetic is
    exact, there is no rounding, no infinity and no NaN.  Integers are [Z];
    conversions between the C++ integer types are written out
    ([to_unsigned], [to_size_t], [to_int]).  Signed overflow and shifts
    beyond the width are undefined in C++; statements that depend on them
    carry the corresponding range hypothesis.

    Vectors are lists, read with [!!!] and written with [<[ i := x ]>].  An
    access out of bounds is undefined in C++; here such a read yields 0 and
    such a write does nothing, and the statements carry the sizes under
    which the accesses they speak of are in bounds.

    The FFT primitive and the host track are outside the file: the FFT is
    a record of arbitrary functions ([HFFT]), the output track is the list
    of the samples appended to it. *)

From Stdlib Require Import Reals Lra Lia ZArith.
From Stdlib Require Import Sorting.Sorted.
From stdpp Require Import base list.

Open Scope R_scope.

(** ** C++ scalars *)

#[global] Instance R_inhabited : Inhabited R := populate 0.

#[global] Instance Rle_decision (x y : R) : Decision (x <= y) := Rle_dec x y.
#[global] Instance Rlt_decision (x y : R) : Decision (x < y) := Rlt_dec x y.
#[global] Instance Rge_decision (x y : R) : Decision (x >= y) := Rge_dec x y.

(** Conversion to [unsigned] (32 bits), to [size_t] (64 bits) and to [int]. *)
Definition to_unsigned (z : Z) : Z := (z mod 2 ^ 32)%Z.
Definition to_size_t (z : Z) : Z := (z mod 2 ^ 64)%Z.
Definition to_int (z : Z) : Z := ((z + 2 ^ 31) mod 2 ^ 32 - 2 ^ 31)%Z.

(** [(int) x] for a double [x]: truncation toward zero. *)
Definition double_to_int (x : R) : Z :=
  if decide (0 <= x) then Zfloor x else (- Zfloor (- x))%Z.

(** [std::max(a, b)] on floats is [(a < b) ? b : a]; on integers it is
    [Z.max], and [std::min] is [Z.min]. *)
Definition std_max (a b : R) : R := if decide (a < b) then b else a.

(** On floats [std::min(a, b)] is [(b < a) ? b : a]. *)
Definition std_min (a b : R) : R := if decide (b < a) then b else a.

#[global] Instance Req_decision : EqDecision R := Req_dec_T.

(** [std::fill(p + first, p + last, x)] where [p] points to the first
    element of [v]. *)
Definition fill (first last : nat) (x : R) (v : list R) : list R :=
  imap (fun i y => if bool_decide (first <= i < last)%nat then x else y) v.

(** A vector after [resize(n)] and [for (ii = 0; ii < n; ++ii) v[ii] = f(ii)]. *)
Definition tabulate (n : nat) (f : nat -> R) : list R := f <$> seq 0 n.

(** ** Enumerations and the window table *)

Definition DM_MEDIAN : Z := 0.
Definition DM_SECOND_GREATEST : Z := 1.
Definition DM_OLD_METHOD : Z := 2.
Definition DM_N_METHODS : Z := 3.
Definition DM_DEFAULT_METHOD : Z := DM_SECOND_GREATEST.

(** The float literal [0.05f], read as a real. *)
Definition minSignalTime : R := 0.05.

Definition WT_RECTANGULAR_HANN : Z := 0.
Definition WT_HANN_RECTANGULAR : Z := 1.
Definition WT_HANN_HANN : Z := 2.
Definition WT_BLACKMAN_HANN : Z := 3.
Definition WT_HAMMING_RECTANGULAR : Z := 4.
Definition WT_HAMMING_HANN : Z := 5.
Definition WT_HAMMING_INV_HAMMING : Z := 6.
Definition WT_N_WINDOW_TYPES : Z := 7.
Definition WT_DEFAULT_WINDOW_TYPES : Z := WT_HANN_HANN.

Record WindowTypesInfo := {
  minSteps : Z;
  inCoefficients : list R;
  outCoefficients : list R;
  productConstantTerm : R
}.

#[global] Instance WindowTypesInfo_inhabited : Inhabited WindowTypesInfo :=
  populate {| minSteps := 0; inCoefficients := []; outCoefficients := [];
              productConstantTerm := 0 |}.

(** The table [windowTypesInfo], without the display names. *)
Definition windowTypesInfo : list WindowTypesInfo := [
  {| minSteps := 2; inCoefficients := [1; 0; 0];
     outCoefficients := [0.5; -0.5; 0]; productConstantTerm := 0.5 |};
  {| minSteps := 2; inCoefficients := [0.5; -0.5; 0];
     outCoefficients := [1; 0; 0]; productConstantTerm := 0.5 |};
  {| minSteps := 4; inCoefficients := [0.5; -0.5; 0];
     outCoefficients := [0.5; -0.5; 0]; productConstantTerm := 0.375 |};
  {| minSteps := 4; inCoefficients := [0.42; -0.5; 0.08];
     outCoefficients := [0.5; -0.5; 0]; productConstantTerm := 0.335 |};
  {| minSteps := 2; inCoefficients := [0.54; -0.46; 0.0];
     outCoefficients := [1; 0; 0]; productConstantTerm := 0.54 |};
  {| minSteps := 4; inCoefficients := [0.54; -0.46; 0.0];
     outCoefficients := [0.5; -0.5; 0]; productConstantTerm := 0.385 |};
  {| minSteps := 2; inCoefficients := [0.54; -0.46; 0.0];
     outCoefficients := [1; 0; 0]; productConstantTerm := 1.0 |}
].

Definition DEFAULT_WINDOW_SIZE_CHOICE : Z := 8.
Definition DEFAULT_STEPS_PER_WINDOW_CHOICE : Z := 1.

Definition NRC_REDUCE_NOISE : Z := 0.
Definition NRC_ISOLATE_NOISE : Z := 1.
Definition NRC_LEAVE_RESIDUE : Z := 2.

(** Modelled from the spec: the macro [DB_TO_LINEAR] is declared in a header
    outside the sources at hand.  The spec reads a gain of 12 dB as the
    factor [10^(-12/20)], and the constructor's comments say "Applies to
    amplitudes, divide by 20": [DB_TO_LINEAR(x) = 10^(x/20)]. *)
Definition DB_TO_LINEAR (x : R) : R := Rpower 10 (x / 20).

(** ** Settings *)

Module Settings.

Record t := {
  mDoProfile : bool;
  mNewSensitivity : R;
  mFreqSmoothingBands : R;
  mNoiseGain : R;
  mAttackTime : R;
  mReleaseTime : R;
  mOldSensitivity : R;
  mNoiseReductionChoice : Z;
  mWindowTypes : Z;
  mWindowSizeChoice : Z;
  mStepsPerWindowChoice : Z;
  mMethod : Z
}.

(** [1u << (3 + mWindowSizeChoice)], an unsigned widened to [size_t]. *)
Definition WindowSize (s : t) : Z :=
  to_unsigned (Z.shiftl 1 (3 + mWindowSizeChoice s)).

(** [1u << (1 + mStepsPerWindowChoice)]. *)
Definition StepsPerWindow (s : t) : Z :=
  to_unsigned (Z.shiftl 1 (1 + mStepsPerWindowChoice s)).

(** The constructor: [mDoProfile(true)], then [PrefsIO(true)], which sets
    every member to its default (the branches under [RESIDUE_CHOICE],
    [ADVANCED_SETTINGS] and [OLD_METHOD_AVAILABLE] as compiled);
    [mNoiseReductionChoice] is the one member [PrefsIO] never assigns, so
    it is an argument here. *)
Definition new (reductionChoice : Z) : t :=
  let mMethod0 := DM_DEFAULT_METHOD in
  {| mDoProfile := true;
     mNewSensitivity := 6.0;
     mFreqSmoothingBands := 3.0;
     mNoiseGain := 12.0;
     mAttackTime := 0.02;
     mReleaseTime := 0.10;
     mOldSensitivity := 0.0;
     mNoiseReductionChoice := reductionChoice;
     mWindowTypes := WT_DEFAULT_WINDOW_TYPES;
     mWindowSizeChoice := DEFAULT_WINDOW_SIZE_CHOICE;
     mStepsPerWindowChoice := DEFAULT_STEPS_PER_WINDOW_CHOICE;
     mMethod := if (mMethod0 =? DM_OLD_METHOD)%Z then DM_DEFAULT_METHOD
                else mMethod0 |}.

(** [Validate]; the messages written to [std::cerr] are left out.  The
    function takes the settings alone. *)
Definition Validate (s : t) : bool :=
  if (StepsPerWindow s <? minSteps (windowTypesInfo !!! Z.to_nat (mWindowTypes s)))%Z
  then false
  else if (StepsPerWindow s >? WindowSize s)%Z then false
  else if (mMethod s =? DM_MEDIAN)%Z && (StepsPerWindow s >? 4)%Z then false
  else true.

(** The assignments at the head of [EffectNoiseReduction::GetProfile]
    ([doProfile = true]) and [EffectNoiseReduction::ReduceNoise]
    ([doProfile = false]). *)
Definition configure (doProfile : bool) (noiseGain sensitivity freqSmoothingBands : R)
    (s : t) : t :=
  {| mDoProfile := doProfile;
     mNewSensitivity := sensitivity;
     mFreqSmoothingBands := freqSmoothingBands;
     mNoiseGain := noiseGain;
     mAttackTime := mAttackTime s;
     mReleaseTime := mReleaseTime s;
     mOldSensitivity := mOldSensitivity s;
     mNoiseReductionChoice := mNoiseReductionChoice s;
     mWindowTypes := mWindowTypes s;
     mWindowSizeChoice := mWindowSizeChoice s;
     mStepsPerWindowChoice := mStepsPerWindowChoice s;
     mMethod := mMethod s |}.

(** The configurations on which the C++ code has a defined meaning at the
    sample rate [rate]: the window type indexes the table, the choice of
    the window size is not negative, the shifts are within the width of
    [unsigned], the method is one of the two compiled in, rate and times are as the configuration surface gives them, and
    the conversions to [int] are in range. *)
Record well_defined (s : t) (rate : R) : Prop := {
  wd_types : (0 <= mWindowTypes s < WT_N_WINDOW_TYPES)%Z;
  wd_size : (0 <= mWindowSizeChoice s < 29)%Z;
  wd_steps : (0 <= 1 + mStepsPerWindowChoice s < 32)%Z;
  wd_method : mMethod s = DM_MEDIAN \/ mMethod s = DM_SECOND_GREATEST;
  wd_rate : 0 < rate;
  wd_attack : 0 <= mAttackTime s;
  wd_release : 0 <= mReleaseTime s;
  wd_bands : 0 <= mFreqSmoothingBands s < 2147483648;
  wd_attack_int :
    mAttackTime s * rate / IZR (WindowSize s / StepsPerWindow s) < 2147483647;
  wd_release_int :
    mReleaseTime s * rate / IZR (WindowSize s / StepsPerWindow s) < 2147483647
}.

End Settings.

(** ** Statistics *)

Module Statistics.

Record t := {
  mRate : R;
  mWindowSize : Z;
  mWindowTypes : Z;
  mTotalWindows : Z;
  mTrackWindows : Z;
  mSums : list R;
  mMeans : list R
}.

Definition new (spectrumSize : Z) (rate : R) (windowTypes : Z) : t :=
  {| mRate := rate;
     mWindowSize := to_size_t ((spectrumSize - 1) * 2);
     mWindowTypes := windowTypes;
     mTotalWindows := 0;
     mTrackWindows := 0;
     mSums := replicate (Z.to_nat spectrumSize) 0;
     mMeans := replicate (Z.to_nat spectrumSize) 0 |}.

Definition set_sums (sums : list R) (trackWindows : Z) (st : t) : t :=
  {| mRate := mRate st; mWindowSize := mWindowSize st;
     mWindowTypes := mWindowTypes st; mTotalWindows := mTotalWindows st;
     mTrackWindows := trackWindows; mSums := sums; mMeans := mMeans st |}.

End Statistics.

(** ** The FFT primitive (RealFFTf.h), taken as given *)

Record HFFT := {
  BitReversed : list Z;
  RealFFTf : list R -> list R;
  InverseRealFFTf : list R -> list R
}.

(** ** The host track (WaveTrack.h), taken as given *)

(** What the file asks of a track: its rate, its start and end times, the
    conversion of a time to a sample index, and its samples.  The samples
    are read block by block in the loop of [ProcessOne]
    ([GetBestBlockSize], [limitSampleBufferSize], [Get]):
    [GetBlocks start len] is the list of the blocks the loop reads for the
    samples [start .. start + len - 1]. *)
Record WaveTrack := {
  GetRate : R;
  GetStartTime : R;
  GetEndTime : R;
  TimeToLongSamples : R -> Z;
  GetBlocks : Z -> Z -> list (list R)
}.

(** ** Worker *)

Module Worker.

(** [struct Record]: one window of the history queue. *)
Record Record_ := {
  mSpectrums : list R;
  mGains : list R;
  mRealFFTs : list R;
  mImagFFTs : list R
}.

Definition Record_new (spectrumSize : Z) : Record_ :=
  {| mSpectrums := replicate (Z.to_nat spectrumSize) 0;
     mGains := replicate (Z.to_nat spectrumSize) 0;
     mRealFFTs := replicate (Z.to_nat (spectrumSize - 1)) 0;
     mImagFFTs := replicate (Z.to_nat (spectrumSize - 1)) 0 |}.

#[global] Instance Record_inhabited : Inhabited Record_ :=
  populate {| mSpectrums := []; mGains := []; mRealFFTs := []; mImagFFTs := [] |}.

Definition set_mGains (g : list R) (r : Record_) : Record_ :=
  {| mSpectrums := mSpectrums r; mGains := g;
     mRealFFTs := mRealFFTs r; mImagFFTs := mImagFFTs r |}.

(** The members fixed by the constructor. *)
Record t := {
  mDoProfile : bool;
  mSampleRate : R;
  mWindowSize : Z;
  hFFT : HFFT;
  mInWindow : list R;
  mOutWindow : list R;
  mSpectrumSize : Z;
  mFreqSmoothingBins : Z;
  mBinLow : Z;
  mBinHigh : Z;
  mNoiseReductionChoice : Z;
  mStepsPerWindow : Z;
  mStepSize : Z;
  mMethod : Z;
  mNewSensitivity : R;
  mOneBlockAttack : R;
  mOneBlockRelease : R;
  mNoiseAttenFactor : R;
  mOldSensitivityFactor : R;
  mNWindowsToExamine : Z;
  mCenter : Z;
  mHistoryLen : Z
}.

(** The members that change while samples are processed. *)
Record state := {
  mFFTBuffer : list R;
  mInWaveBuffer : list R;
  mOutOverlapBuffer : list R;
  mFreqSmoothingScratch : list R;
  mInSampleCount : Z;
  mOutStepCount : Z;
  mInWavePos : Z;
  mQueue : list Record_
}.

Definition set_mQueue (q : list Record_) (st : state) : state :=
  {| mFFTBuffer := mFFTBuffer st; mInWaveBuffer := mInWaveBuffer st;
     mOutOverlapBuffer := mOutOverlapBuffer st;
     mFreqSmoothingScratch := mFreqSmoothingScratch st;
     mInSampleCount := mInSampleCount st; mOutStepCount := mOutStepCount st;
     mInWavePos := mInWavePos st; mQueue := q |}.

Section Constructor.

Variable GetFFT : Z -> HFFT.
Variable settings : Settings.t.
Variable sampleRate : R.

Let W : Z := Settings.WindowSize settings.
Let S : Z := Settings.StepsPerWindow settings.
Let H : Z := (W / S)%Z.
Let ty : Z := Settings.mWindowTypes settings.

(** [1 + (int) (time * sampleRate / mStepSize)], stored in an unsigned. *)
Definition nBlocks (time : R) : Z :=
  to_unsigned (1 + double_to_int (time * sampleRate / IZR H)).

Definition nAttackBlocks : Z := nBlocks (Settings.mAttackTime settings).
Definition nReleaseBlocks : Z := nBlocks (Settings.mReleaseTime settings).

Definition noiseGain : R := - Settings.mNoiseGain settings.

Definition NWindowsToExamine : Z :=
  to_unsigned
    (if (Settings.mMethod settings =? DM_OLD_METHOD)%Z
     then Z.max 2 (double_to_int (minSignalTime * sampleRate / IZR H))
     else 1 + S).

Definition HistoryLen : Z :=
  if Settings.mDoProfile settings then 1%Z
  else Z.max NWindowsToExamine
             (to_unsigned (NWindowsToExamine / 2 + nAttackBlocks)).

(** "One or the other window must by multiplied by this to correct for
    overlap." *)
Definition multiplier : R :=
  1.0 / (productConstantTerm (windowTypesInfo !!! Z.to_nat ty) * IZR S).

Definition window (m : R) (coefficients : list R) : list R :=
  let c0 := coefficients !!! 0%nat in
  let c1 := coefficients !!! 1%nat in
  let c2 := coefficients !!! 2%nat in
  tabulate (Z.to_nat W)
    (fun ii => m * (c0 + c1 * cos ((2.0 * PI * INR ii) / IZR W)
                       + c2 * cos ((4.0 * PI * INR ii) / IZR W))).

(** The analysis window. *)
Definition InWindow : list R :=
  if (ty =? WT_RECTANGULAR_HANN)%Z then []
  else
    let rectangularOut :=
      (ty =? WT_HAMMING_RECTANGULAR)%Z || (ty =? WT_HANN_RECTANGULAR)%Z in
    let m := if rectangularOut then multiplier else 1 in
    window m (inCoefficients (windowTypesInfo !!! Z.to_nat ty)).

(** The synthesis window. *)
Definition OutWindow : list R :=
  if Settings.mDoProfile settings then []
  else if (ty =? WT_HANN_RECTANGULAR)%Z || (ty =? WT_HAMMING_RECTANGULAR)%Z
  then []
  else if (ty =? WT_HAMMING_INV_HAMMING)%Z
  then tabulate (Z.to_nat W) (fun ii => multiplier / (InWindow !!! ii))
  else window multiplier (outCoefficients (windowTypesInfo !!! Z.to_nat ty)).

Definition new : t :=
  {| mDoProfile := Settings.mDoProfile settings;
     mSampleRate := sampleRate;
     mWindowSize := W;
     hFFT := GetFFT W;
     mInWindow := InWindow;
     mOutWindow := OutWindow;
     mSpectrumSize := (1 + W / 2)%Z;
     mFreqSmoothingBins :=
       to_size_t (double_to_int (Settings.mFreqSmoothingBands settings));
     mBinLow := 0;
     mBinHigh := to_int (1 + W / 2);
     mNoiseReductionChoice := Settings.mNoiseReductionChoice settings;
     mStepsPerWindow := S;
     mStepSize := H;
     mMethod := Settings.mMethod settings;
     mNewSensitivity := Settings.mNewSensitivity settings * ln 10.0;
     mOneBlockAttack := DB_TO_LINEAR (noiseGain / IZR nAttackBlocks);
     mOneBlockRelease := DB_TO_LINEAR (noiseGain / IZR nReleaseBlocks);
     mNoiseAttenFactor := DB_TO_LINEAR noiseGain;
     mOldSensitivityFactor :=
       Rpower 10.0 (Settings.mOldSensitivity settings / 10.0);
     mNWindowsToExamine := NWindowsToExamine;
     mCenter := (NWindowsToExamine / 2)%Z;
     mHistoryLen := HistoryLen |}.

(** The buffers and the queue as the constructor leaves them. *)
Definition new_state : state :=
  {| mFFTBuffer := replicate (Z.to_nat W) 0;
     mInWaveBuffer := replicate (Z.to_nat W) 0;
     mOutOverlapBuffer := replicate (Z.to_nat W) 0;
     mFreqSmoothingScratch := replicate (Z.to_nat (1 + W / 2)) 0;
     mInSampleCount := 0;
     mOutStepCount := 0;
     mInWavePos := 0;
     mQueue := replicate (Z.to_nat HistoryLen) (Record_new (1 + W / 2)) |}.

End Constructor.

Section Operations.

Variable w : t.

Let W : nat := Z.to_nat (mWindowSize w).
Let n : nat := Z.to_nat (mSpectrumSize w).
Let H : nat := Z.to_nat (mStepSize w).
Let L : nat := Z.to_nat (mHistoryLen w).
Let center : nat := Z.to_nat (mCenter w).

(** [StartNewTrack] *)
Definition StartNewTrack (st : state) : state :=
  let clear (ii : nat) (record : Record_) :=
    if bool_decide (ii < L)%nat then
      {| mSpectrums := fill 0 n 0 (mSpectrums record);
         mGains := fill 0 n (mNoiseAttenFactor w) (mGains record);
         mRealFFTs := fill 0 (n - 1) 0 (mRealFFTs record);
         mImagFFTs := fill 0 (n - 1) 0 (mImagFFTs record) |}
    else record in
  {| mFFTBuffer := mFFTBuffer st;
     mInWaveBuffer := fill 0 W 0 (mInWaveBuffer st);
     mOutOverlapBuffer := fill 0 W 0 (mOutOverlapBuffer st);
     mFreqSmoothingScratch := mFreqSmoothingScratch st;
     mInSampleCount := 0;
     mOutStepCount :=
       if mDoProfile w
       then (- to_int (to_unsigned (mHistoryLen w - 1)))%Z
       else (- to_int (to_unsigned (mHistoryLen w - 1))
             - to_int (to_unsigned (mStepsPerWindow w - 1)))%Z;
     mInWavePos :=
       if mDoProfile w then 0%Z
       else to_int (to_size_t (mWindowSize w - mStepSize w));
     mQueue := imap clear (mQueue st) |}.

(** One turn of the loop over the bins [1 .. last - 1] in
    [FillFirstHistoryWindow]. *)
Definition fill_bin (buffer : list R) (record : Record_) (ii : nat) : Record_ :=
  let kk := Z.to_nat (BitReversed (hFFT w) !!! ii) in
  let realPart := buffer !!! kk in
  let imagPart := buffer !!! (kk + 1)%nat in
  {| mSpectrums :=
       <[ii := realPart * realPart + imagPart * imagPart]> (mSpectrums record);
     mGains := mGains record;
     mRealFFTs := <[ii := realPart]> (mRealFFTs record);
     mImagFFTs := <[ii := imagPart]> (mImagFFTs record) |}.

(** [FillFirstHistoryWindow] *)
Definition FillFirstHistoryWindow (st : state) : state :=
  let windowed :=
    if bool_decide (0 < length (mInWindow w))%nat
    then tabulate W (fun ii => mInWaveBuffer st !!! ii * mInWindow w !!! ii)
    else tabulate W (fun ii => mInWaveBuffer st !!! ii) in
  let buffer := RealFFTf (hFFT w) windowed in
  let record := mQueue st !!! 0%nat in
  let last := (n - 1)%nat in
  let record1 := foldl (fill_bin buffer) record (seq 1 (last - 1)) in
  let dc := buffer !!! 0%nat in
  let nyquist := buffer !!! 1%nat in
  let record2 :=
    {| mSpectrums := <[last := nyquist * nyquist]> (<[0%nat := dc * dc]> (mSpectrums record1));
       mGains := mGains record1;
       mRealFFTs := <[0%nat := dc]> (mRealFFTs record1);
       mImagFFTs := <[0%nat := nyquist]> (mImagFFTs record1) |} in
  let record3 :=
    if (mNoiseReductionChoice w =? NRC_ISOLATE_NOISE)%Z then record2
    else set_mGains (fill 0 n (mNoiseAttenFactor w) (mGains record2)) record2 in
  {| mFFTBuffer := buffer;
     mInWaveBuffer := mInWaveBuffer st;
     mOutOverlapBuffer := mOutOverlapBuffer st;
     mFreqSmoothingScratch := mFreqSmoothingScratch st;
     mInSampleCount := mInSampleCount st;
     mOutStepCount := mOutStepCount st;
     mInWavePos := mInWavePos st;
     mQueue := <[0%nat := record3]> (mQueue st) |}.

(** [RotateHistoryWindows]: [std::rotate(begin, end - 1, end)] brings the
    last record to the front. *)
Definition RotateHistoryWindows (st : state) : state :=
  let q := mQueue st in
  set_mQueue (drop (length q - 1) q ++ take (length q - 1) q) st.

(** [GatherStatistics] (the new statistics). *)
Definition GatherStatistics (statistics : Statistics.t) (st : state) : Statistics.t :=
  let power := mSpectrums (mQueue st !!! 0%nat) in
  Statistics.set_sums
    (foldl (fun sums jj => <[jj := sums !!! jj + power !!! jj]> sums)
           (Statistics.mSums statistics) (seq 0 n))
    (Statistics.mTrackWindows statistics + 1)%Z
    statistics.

(** [FinishTrackStatistics] *)
Definition FinishTrackStatistics (statistics : Statistics.t) : Statistics.t :=
  let windows := Statistics.mTrackWindows statistics in
  let multiplier := Statistics.mTotalWindows statistics in
  let denom := (windows + multiplier)%Z in
  let nn := length (Statistics.mMeans statistics) in
  let '(means, sums) :=
    if (windows =? 0)%Z
    then (Statistics.mMeans statistics, Statistics.mSums statistics)
    else
      foldl (fun '(means, sums) ii =>
               (<[ii := (means !!! ii * IZR multiplier + sums !!! ii) / IZR denom]> means,
                <[ii := 0]> sums))
            (Statistics.mMeans statistics, Statistics.mSums statistics)
            (seq 0 nn) in
  {| Statistics.mRate := Statistics.mRate statistics;
     Statistics.mWindowSize := Statistics.mWindowSize statistics;
     Statistics.mWindowTypes := Statistics.mWindowTypes statistics;
     Statistics.mTotalWindows := denom;
     Statistics.mTrackWindows := 0;
     Statistics.mSums := sums;
     Statistics.mMeans := means |}.

(** The loop bodies of [Classify]: the two, or three, greatest powers
    seen so far. *)
Definition second_step (acc : R * R) (power : R) : R * R :=
  let '(greatest, second) := acc in
  if decide (power >= greatest) then (power, greatest)
  else if decide (power >= second) then (greatest, power)
  else (greatest, second).

Definition third_step (acc : R * R * R) (power : R) : R * R * R :=
  let '(greatest, second, third) := acc in
  if decide (power >= greatest) then (power, greatest, second)
  else if decide (power >= second) then (greatest, power, second)
  else if decide (power >= third) then (greatest, second, power)
  else (greatest, second, third).

(** [Classify]: does the band of the center window look like noise? *)
Definition Classify (statistics : Statistics.t) (q : list Record_) (band : nat) : bool :=
  let N := Z.to_nat (mNWindowsToExamine w) in
  let powers := (fun ii => mSpectrums (q !!! ii) !!! band) <$> seq 0 N in
  let threshold := mNewSensitivity w * Statistics.mMeans statistics !!! band in
  let secondGreatest :=
    bool_decide (snd (foldl second_step (0, 0) powers) <= threshold) in
  if (mMethod w =? DM_MEDIAN)%Z then
    if (mNWindowsToExamine w =? 3)%Z then secondGreatest
    else if (mNWindowsToExamine w =? 5)%Z
    then bool_decide (snd (foldl third_step (0, 0, 0) powers) <= threshold)
    else true
  else if (mMethod w =? DM_SECOND_GREATEST)%Z then secondGreatest
  else true.

(** [ApplyFreqSmoothing], on the scratch vector and the gains. *)
Definition ApplyFreqSmoothing (scratch gains : list R) : list R * list R :=
  if (mFreqSmoothingBins w =? 0)%Z then (scratch, gains)
  else
    let scratch0 := fill 0 n 0 scratch in
    let logs := foldl (fun g ii => <[ii := ln (g !!! ii)]> g) gains (seq 0 n) in
    let scratch1 :=
      foldl (fun sc ii =>
               let j0 := Z.max 0 (Z.of_nat ii - to_int (mFreqSmoothingBins w)) in
               let j1 := to_int (Z.min (to_size_t (mSpectrumSize w - 1))
                                       (to_size_t (Z.of_nat ii + mFreqSmoothingBins w))) in
               let sc1 :=
                 foldl (fun sc jj => <[ii := sc !!! ii + logs !!! Z.to_nat jj]> sc)
                       sc (seqZ j0 (j1 - j0 + 1)) in
               <[ii := sc1 !!! ii / IZR (j1 - j0 + 1)]> sc1)
            scratch0 (seq 0 n) in
    let gains1 := foldl (fun g ii => <[ii := exp (scratch1 !!! ii)]> g) logs (seq 0 n) in
    (scratch1, gains1).

(** [mQueue[ii]->mGains[jj]], read and written. *)
Definition gain (q : list Record_) (ii jj : nat) : R :=
  mGains (q !!! ii) !!! jj.

Definition set_gains (q : list Record_) (ii : nat) (g : list R) : list Record_ :=
  <[ii := set_mGains g (q !!! ii)]> q.

Definition set_gain (q : list Record_) (ii jj : nat) (x : R) : list Record_ :=
  set_gains q ii (<[jj := x]> (mGains (q !!! ii))).

(** [ReduceNoise], first block: raise the gains of the center window, or,
    when isolating noise, zero out the non-noise. *)
Definition ReduceNoise_raise (statistics : Statistics.t) (q : list Record_) : list Record_ :=
  let low := Z.to_nat (mBinLow w) in
  let high := Z.to_nat (mBinHigh w) in
  if (mNoiseReductionChoice w =? NRC_ISOLATE_NOISE)%Z then
    let q1 := set_gains q center (fill 0 low 0 (mGains (q !!! center))) in
    let q2 := set_gains q1 center (fill high n 0 (mGains (q1 !!! center))) in
    foldl (fun q jj =>
             let isNoise := Classify statistics q jj in
             set_gain q center jj (if isNoise then 1.0 else 0.0))
          q2 (seq low (high - low))
  else
    let q1 := set_gains q center (fill 0 low 1.0 (mGains (q !!! center))) in
    let q2 := set_gains q1 center (fill high n 1.0 (mGains (q1 !!! center))) in
    foldl (fun q jj =>
             let isNoise := Classify statistics q jj in
             if negb isNoise then set_gain q center jj 1.0 else q)
          q2 (seq low (high - low)).

(** The attack: the inner loop over [ii], from [ii] up to the end of the
    queue, for the band [jj]; [count] is the number of indices left. *)
Fixpoint attack_walk (count ii jj : nat) (q : list Record_) : list Record_ :=
  match count with
  | O => q
  | Datatypes.S count' =>
      let minimum :=
        std_max (mNoiseAttenFactor w) (gain q (ii - 1) jj * mOneBlockAttack w) in
      if decide (gain q ii jj < minimum)
      then attack_walk count' (Datatypes.S ii) jj (set_gain q ii jj minimum)
      else q
  end.

Definition ReduceNoise_attack (q : list Record_) : list Record_ :=
  foldl (fun q jj => attack_walk (L - (center + 1)) (center + 1) jj q) q (seq 0 n).

(** The release: one window ahead of the center. *)
Definition ReduceNoise_release (q : list Record_) : list Record_ :=
  foldl (fun q jj =>
           set_gain q (center - 1) jj
             (std_max (gain q (center - 1) jj)
                      (std_max (mNoiseAttenFactor w)
                               (gain q center jj * mOneBlockRelease w))))
        q (seq 0 n).

(** [ReduceNoise], last block: smooth the gains of the last window of the
    queue, apply them, invert the FFT, overlap-add and append.  The
    output track is the list of the samples appended so far. *)
Definition ReduceNoise_output (st : state) (outputTrack : list R) : state * list R :=
  let record := mQueue st !!! (L - 1)%nat in
  let last := (n - 1)%nat in
  let '(scratch, gains) :=
    if (mNoiseReductionChoice w =? NRC_ISOLATE_NOISE)%Z
    then (mFreqSmoothingScratch st, mGains record)
    else ApplyFreqSmoothing (mFreqSmoothingScratch st) (mGains record) in
  let factor (g : R) : R :=
    if (mNoiseReductionChoice w =? NRC_LEAVE_RESIDUE)%Z then g - 1.0 else g in
  let buffer1 :=
    foldl (fun b k =>
             <[(2 * k + 1)%nat := mImagFFTs record !!! k * factor (gains !!! k)]>
               (<[(2 * k)%nat := mRealFFTs record !!! k * factor (gains !!! k)]> b))
          (mFFTBuffer st) (seq 1 (n - 2)) in
  let buffer2 :=
    <[1%nat := mImagFFTs record !!! 0%nat * factor (gains !!! last)]>
      (<[0%nat := mRealFFTs record !!! 0%nat * factor (gains !!! 0%nat)]> buffer1) in
  let buffer3 := InverseRealFFTf (hFFT w) buffer2 in
  let window (i : nat) : R :=
    if bool_decide (0 < length (mOutWindow w))%nat then mOutWindow w !!! i else 1 in
  let overlap :=
    foldl (fun o jj =>
             let kk := Z.to_nat (BitReversed (hFFT w) !!! jj) in
             let o1 := <[(2 * jj)%nat :=
                          o !!! (2 * jj)%nat + buffer3 !!! kk * window (2 * jj)%nat]> o in
             <[(2 * jj + 1)%nat :=
                 o1 !!! (2 * jj + 1)%nat
                 + buffer3 !!! (kk + 1)%nat * window (2 * jj + 1)%nat]> o1)
          (mOutOverlapBuffer st) (seq 0 last) in
  let outputTrack' :=
    if (mOutStepCount st >=? 0)%Z then outputTrack ++ take H overlap
    else outputTrack in
  let shifted :=
    fill (W - H) W 0 (take (W - H) (drop H overlap) ++ drop (W - H) overlap) in
  ({| mFFTBuffer := buffer3;
      mInWaveBuffer := mInWaveBuffer st;
      mOutOverlapBuffer := shifted;
      mFreqSmoothingScratch := scratch;
      mInSampleCount := mInSampleCount st;
      mOutStepCount := mOutStepCount st;
      mInWavePos := mInWavePos st;
      mQueue := set_gains (mQueue st) (L - 1) gains |},
   outputTrack').

(** [ReduceNoise] *)
Definition ReduceNoise (statistics : Statistics.t) (st : state) (outputTrack : list R)
  : state * list R :=
  let q1 := ReduceNoise_raise statistics (mQueue st) in
  let q2 :=
    if (mNoiseReductionChoice w =? NRC_ISOLATE_NOISE)%Z then q1
    else ReduceNoise_release (ReduceNoise_attack q1) in
  let st2 := set_mQueue q2 st in
  if (mOutStepCount st2 >=? - to_int (to_unsigned (mStepsPerWindow w - 1)))%Z
  then ReduceNoise_output st2 outputTrack
  else (st2, outputTrack).

(** What [ProcessSamples] works on: the statistics, the worker's
    members, the output track and the samples still to be read
    ([buffer], of length [len]). *)
Definition config : Type := Statistics.t * state * list R * list R.

(** The test of the loop of [ProcessSamples]; [sampleCount] is a signed
    64-bit count. *)
Definition ProcessSamples_test (c : config) : bool :=
  let '(_, st, _, buffer) := c in
  bool_decide (0 < length buffer)%nat
  && (mOutStepCount st * mStepSize w <? mInSampleCount st)%Z.

(** The body of the loop of [ProcessSamples]. *)
Definition ProcessSamples_body (c : config) : config :=
  let '(statistics, st, outputTrack, buffer) := c in
  let pos := Z.to_nat (mInWavePos st) in
  let avail :=
    Z.to_nat (Z.min (Z.of_nat (length buffer))
                    (to_size_t (mWindowSize w - mInWavePos st))) in
  let wave :=
    take pos (mInWaveBuffer st) ++ take avail buffer
      ++ drop (pos + avail) (mInWaveBuffer st) in
  let st1 :=
    {| mFFTBuffer := mFFTBuffer st;
       mInWaveBuffer := wave;
       mOutOverlapBuffer := mOutOverlapBuffer st;
       mFreqSmoothingScratch := mFreqSmoothingScratch st;
       mInSampleCount := mInSampleCount st;
       mOutStepCount := mOutStepCount st;
       mInWavePos := (mInWavePos st + Z.of_nat avail)%Z;
       mQueue := mQueue st |} in
  if (mInWavePos st1 =? to_int (mWindowSize w))%Z then
    let st2 := FillFirstHistoryWindow st1 in
    let '(statistics', (st3, outputTrack')) :=
      if mDoProfile w
      then (GatherStatistics statistics st2, (st2, outputTrack))
      else (statistics, ReduceNoise statistics st2 outputTrack) in
    let st4 := RotateHistoryWindows st3 in
    (statistics',
     {| mFFTBuffer := mFFTBuffer st4;
        mInWaveBuffer :=
          take (W - H) (drop H (mInWaveBuffer st4)) ++ drop (W - H) (mInWaveBuffer st4);
        mOutOverlapBuffer := mOutOverlapBuffer st4;
        mFreqSmoothingScratch := mFreqSmoothingScratch st4;
        mInSampleCount := mInSampleCount st4;
        mOutStepCount := (mOutStepCount st4 + 1)%Z;
        mInWavePos := (mInWavePos st4 - mStepSize w)%Z;
        mQueue := mQueue st4 |},
     outputTrack', drop avail buffer)
  else (statistics, st1, outputTrack, drop avail buffer).

(** [ProcessSamples]: the loop, run for at most [fuel] turns; [None] when
    the turns do not suffice. *)
Fixpoint ProcessSamples (fuel : nat) (c : config) : option config :=
  if ProcessSamples_test c then
    match fuel with
    | O => None
    | Datatypes.S fuel' => ProcessSamples fuel' (ProcessSamples_body c)
    end
  else Some c.

(** [mInSampleCount += blockSize], in [ProcessOne] before each call of
    [ProcessSamples]. *)
Definition add_samples (blockSize : Z) (st : state) : state :=
  {| mFFTBuffer := mFFTBuffer st;
     mInWaveBuffer := mInWaveBuffer st;
     mOutOverlapBuffer := mOutOverlapBuffer st;
     mFreqSmoothingScratch := mFreqSmoothingScratch st;
     mInSampleCount := (mInSampleCount st + blockSize)%Z;
     mOutStepCount := mOutStepCount st;
     mInWavePos := mInWavePos st;
     mQueue := mQueue st |}.

(** The states a worker can be in, from the state [st0] on: after any
    of its member functions, whatever the statistics, the output track
    and the samples at hand are; a turn of the loop of [ProcessSamples]
    is one step as well. *)
Inductive reachable (st0 : state) : state -> Prop :=
| reach_start : reachable st0 st0
| reach_StartNewTrack st :
    reachable st0 st -> reachable st0 (StartNewTrack st)
| reach_add_samples st blockSize :
    reachable st0 st -> reachable st0 (add_samples blockSize st)
| reach_FillFirstHistoryWindow st :
    reachable st0 st -> reachable st0 (FillFirstHistoryWindow st)
| reach_ReduceNoise st statistics outputTrack :
    reachable st0 st ->
    reachable st0 (fst (ReduceNoise statistics st outputTrack))
| reach_RotateHistoryWindows st :
    reachable st0 st -> reachable st0 (RotateHistoryWindows st)
| reach_ProcessSamples_body st statistics outputTrack buffer :
    reachable st0 st ->
    reachable st0
      (snd (fst (fst (ProcessSamples_body (statistics, st, outputTrack, buffer))))).

(** [FinishTrack]: "Keep flushing empty input buffers through the history
    windows until we've output exactly as many samples as were input";
    [turns] bounds the loop of each call of [ProcessSamples], [fuel] the
    loop of [FinishTrack] itself. *)
Definition FinishTrack_test (st : state) : bool :=
  (mOutStepCount st * mStepSize w <? mInSampleCount st)%Z.

Fixpoint FinishTrack_loop (turns fuel : nat) (c : Statistics.t * state * list R)
  : option (Statistics.t * state * list R) :=
  let '(statistics, st, outputTrack) := c in
  if FinishTrack_test st then
    match fuel with
    | O => None
    | Datatypes.S fuel' =>
        match ProcessSamples turns (statistics, st, outputTrack, replicate H 0) with
        | Some (statistics', st', outputTrack', _) =>
            FinishTrack_loop turns fuel' (statistics', st', outputTrack')
        | None => None
        end
    end
  else Some c.

Definition FinishTrack (fuel : nat) (c : Statistics.t * state * list R)
  : option (Statistics.t * state * list R) :=
  FinishTrack_loop fuel fuel c.

(** One turn of the loop of [ProcessOne] for the block [block] read from
    the track: [mInSampleCount += blockSize], then [ProcessSamples]. *)
Definition ProcessOne_block (fuel : nat) (c : option (Statistics.t * state * list R))
    (block : list R) : option (Statistics.t * state * list R) :=
  match c with
  | Some (statistics, st, outputTrack) =>
      match ProcessSamples fuel
              (statistics, add_samples (Z.of_nat (length block)) st, outputTrack, block) with
      | Some (statistics', st', outputTrack', _) => Some (statistics', st', outputTrack')
      | None => None
      end
  | None => None
  end.

(** [ProcessOne] for a track that exists, up to the end of [FinishTrack]:
    the result is the statistics, the worker and the output track as they
    are before the output track is flushed, trimmed and pasted into the
    host track.  Every loop runs for at most [fuel] turns; [None] when
    they do not suffice. *)
Definition ProcessOne (fuel : nat) (statistics : Statistics.t) (st : state)
    (blocks : list (list R)) : option (Statistics.t * state * list R) :=
  match foldl (ProcessOne_block fuel) (Some (statistics, StartNewTrack st, [])) blocks with
  | Some (statistics1, st1, outputTrack1) =>
      if mDoProfile w
      then Some (FinishTrackStatistics statistics1, st1, outputTrack1)
      else FinishTrack fuel (statistics1, st1, outputTrack1)
  | None => None
  end.

(** [Worker::Process]; the messages written to [std::cerr] are left
    out.  The last component of the result is the output track of
    [ProcessOne], empty where [ProcessOne] is not called. *)
Definition Process (fuel : nat) (track : WaveTrack) (statistics : Statistics.t)
    (st : state) (inT0 inT1 : R) : option (bool * Statistics.t * state * list R) :=
  if decide (GetRate track <> mSampleRate w) then Some (false, statistics, st, [])
  else
    let trackStart := GetStartTime track in
    let trackEnd := GetEndTime track in
    let t0 := std_max trackStart inT0 in
    let t1 := std_min trackEnd inT1 in
    let processed :=
      if decide (t1 > t0) then
        let start := TimeToLongSamples track t0 in
        let end_ := TimeToLongSamples track t1 in
        let len := (end_ - start)%Z in
        ProcessOne fuel statistics st (GetBlocks track start len)
      else Some (statistics, st, []) in
    match processed with
    | Some (statistics', st', outputTrack) =>
        if mDoProfile w && (Statistics.mTotalWindows statistics' =? 0)%Z
        then Some (false, statistics', st', outputTrack)
        else Some (true, statistics', st', outputTrack)
    | None => None
    end.

End Operations.

End Worker.

(** ** EffectNoiseReduction *)

Module EffectNoiseReduction.

(** The members of the effect that [Process] reads and writes;
    [mStatistics] is a pointer that may be null. *)
Record t := {
  mSettings : Settings.t;
  mStatistics : option Statistics.t;
  mT0 : R;
  mT1 : R
}.

Definition set_mDoProfile (doProfile : bool) (s : Settings.t) : Settings.t :=
  {| Settings.mDoProfile := doProfile;
     Settings.mNewSensitivity := Settings.mNewSensitivity s;
     Settings.mFreqSmoothingBands := Settings.mFreqSmoothingBands s;
     Settings.mNoiseGain := Settings.mNoiseGain s;
     Settings.mAttackTime := Settings.mAttackTime s;
     Settings.mReleaseTime := Settings.mReleaseTime s;
     Settings.mOldSensitivity := Settings.mOldSensitivity s;
     Settings.mNoiseReductionChoice := Settings.mNoiseReductionChoice s;
     Settings.mWindowTypes := Settings.mWindowTypes s;
     Settings.mWindowSizeChoice := Settings.mWindowSizeChoice s;
     Settings.mStepsPerWindowChoice := Settings.mStepsPerWindowChoice s;
     Settings.mMethod := Settings.mMethod s |}.

(** [EffectNoiseReduction::Process]: the result, the effect afterwards
    and the output track of the worker.  [None] when a loop runs out of
    its [fuel] turns, or when noise is to be reduced and [mStatistics] is
    null (the code then dereferences a null pointer). *)
Definition Process (GetFFT : Z -> HFFT) (fuel : nat) (track : WaveTrack) (e : t)
  : option (bool * t * list R) :=
  let settings := mSettings e in
  let entry :=
    if Settings.mDoProfile settings
    then Some (Statistics.new (1 + Settings.WindowSize settings / 2) (GetRate track)
                 (Settings.mWindowTypes settings))
    else mStatistics e in
  match entry with
  | None => None
  | Some statistics =>
      if negb (Settings.mDoProfile settings)
         && negb (Statistics.mWindowSize statistics =? Settings.WindowSize settings)%Z
      then Some (false, e, [])
      else
        let rate := Statistics.mRate statistics in
        let worker := Worker.new GetFFT settings rate in
        match Worker.Process worker fuel track statistics
                (Worker.new_state settings rate) (mT0 e) (mT1 e) with
        | None => None
        | Some (bGoodResult, statistics', _, outputTrack) =>
            let e' :=
              if Settings.mDoProfile settings then
                if bGoodResult then
                  {| mSettings := set_mDoProfile false settings;
                     mStatistics := Some statistics';
                     mT0 := mT0 e; mT1 := mT1 e |}
                else
                  {| mSettings := settings; mStatistics := None;
                     mT0 := mT0 e; mT1 := mT1 e |}
              else
                {| mSettings := settings; mStatistics := Some statistics';
                   mT0 := mT0 e; mT1 := mT1 e |} in
            Some (bGoodResult, e', outputTrack)
        end
  end.

End EffectNoiseReduction.

(** ** The vocabulary of the statements *)

(** The polynomial in the cosines that both windows are made of. *)
Definition window_polynomial (coefficients : list R) (W : Z) (i : nat) : R :=
  coefficients !!! 0%nat
  + coefficients !!! 1%nat * cos ((2.0 * PI * INR i) / IZR W)
  + coefficients !!! 2%nat * cos ((4.0 * PI * INR i) / IZR W).

(** The sum of a list of reals. *)
Definition Rsum (l : list R) : R := foldr Rplus 0 l.

(** The power of band [b] in the window at the head of the queue. *)
Definition head_power (st : Worker.state) (b : nat) : R :=
  Worker.mSpectrums (Worker.mQueue st !!! 0%nat) !!! b.

(** One profile source: [GatherStatistics] once per window, the queue being
    in the states [windows] in turn, then [FinishTrackStatistics]. *)
Definition gather_track (w : Worker.t) (statistics : Statistics.t)
    (windows : list Worker.state) : Statistics.t :=
  foldl (Worker.GatherStatistics w) statistics windows.

Definition profile_track (w : Worker.t) (statistics : Statistics.t)
    (windows : list Worker.state) : Statistics.t :=
  Worker.FinishTrackStatistics (gather_track w statistics windows).

Definition profile_tracks (w : Worker.t) (statistics : Statistics.t)
    (tracks : list (list Worker.state)) : Statistics.t :=
  foldl (profile_track w) statistics tracks.

(** The sum of the powers of band [b] over one source and over all of
    them, and the number of windows. *)
Definition track_sum (windows : list Worker.state) (b : nat) : R :=
  Rsum ((fun st => head_power st b) <$> windows).

Definition grand_sum (tracks : list (list Worker.state)) (b : nat) : R :=
  Rsum ((fun windows => track_sum windows b) <$> tracks).

Definition grand_count (tracks : list (list Worker.state)) : Z :=
  foldr (fun windows c => (Z.of_nat (length windows) + c)%Z) 0%Z tracks.

(** What holds of the statistics between two profile sources, [tracks]
    being the sources finished so far. *)
Record profile_inv (w : Worker.t) (tracks : list (list Worker.state))
    (statistics : Statistics.t) : Prop := {
  pi_sums_length :
    length (Statistics.mSums statistics) = Z.to_nat (Worker.mSpectrumSize w);
  pi_means_length :
    length (Statistics.mMeans statistics) = Z.to_nat (Worker.mSpectrumSize w);
  pi_track : Statistics.mTrackWindows statistics = 0%Z;
  pi_total : Statistics.mTotalWindows statistics = grand_count tracks;
  pi_sums : forall b, (b < Z.to_nat (Worker.mSpectrumSize w))%nat ->
            Statistics.mSums statistics !!! b = 0;
  pi_means : forall b, (b < Z.to_nat (Worker.mSpectrumSize w))%nat ->
             Statistics.mMeans statistics !!! b * IZR (grand_count tracks)
             = grand_sum tracks b
}.

(** The number of entries of [l] above [t]. *)
Definition count_gt (t : R) (l : list R) : nat := length (filter (fun x => t < x) l).

(** The window of bins averaged for bin [i]: from [max(0, i - B)] to
    [min(n - 1, i + B)]. *)
Definition smoothing_lo (B : Z) (i : nat) : nat := (i - Z.to_nat B)%nat.
Definition smoothing_hi (n : nat) (B : Z) (i : nat) : nat :=
  Nat.min (n - 1) (i + Z.to_nat B).

(** The arithmetic mean of the logarithms of [gains] over the bins
    [lo .. hi]. *)
Definition mean_log (gains : list R) (lo hi : nat) : R :=
  Rsum ((fun j => ln (gains !!! j)) <$> seq lo (hi - lo + 1)) / INR (hi - lo + 1).

(** A record without its gains. *)
Definition strip (r : Worker.Record_) : Worker.Record_ := Worker.set_mGains [] r.

(** [q'] is [q] with other gains: the same number of records, with the
    same spectrums and FFT coefficients. *)
Definition same_but_gains (q q' : list Worker.Record_) : Prop :=
  strip <$> q' = strip <$> q.

(** A record whose vectors have the sizes the constructor gives them for a
    spectrum of [n] bins, and whose powers are not negative. *)
Record spectrum_wf (n : nat) (r : Worker.Record_) : Prop := {
  sw_spectrums : length (Worker.mSpectrums r) = n;
  sw_real : length (Worker.mRealFFTs r) = (n - 1)%nat;
  sw_imag : length (Worker.mImagFFTs r) = (n - 1)%nat;
  sw_nonneg : Forall (fun power => 0 <= power) (Worker.mSpectrums r)
}.

Definition spectrums_inv (w : Worker.t) (st : Worker.state) : Prop :=
  (1 <= length (Worker.mQueue st))%nat
  /\ Forall (spectrum_wf (Z.to_nat (Worker.mSpectrumSize w))) (Worker.mQueue st).


(** Every record of the queue has [n] gains. *)
Definition gains_wf (n : nat) (q : list Worker.Record_) : Prop :=
  Forall (fun record => length (Worker.mGains record) = n) q.





(** What the gains invariant asks of a worker. *)
Record worker_ok (w : Worker.t) : Prop := {
  wk_atten : 0 < Worker.mNoiseAttenFactor w <= 1;
  wk_attack : 0 <= Worker.mOneBlockAttack w <= 1;
  wk_release : 0 <= Worker.mOneBlockRelease w <= 1;
  wk_size : (1 <= Worker.mSpectrumSize w < 2 ^ 31)%Z;
  wk_bins : (0 <= Worker.mFreqSmoothingBins w < 2 ^ 31)%Z;
  wk_history : (1 <= Worker.mHistoryLen w)%Z;
  wk_mode : Worker.mNoiseReductionChoice w <> NRC_ISOLATE_NOISE
}.

(** A gain vector of the right size with every gain between the
    attenuation factor and 1. *)
Definition gains_ok (w : Worker.t) (g : list R) : Prop :=
  length g = Z.to_nat (Worker.mSpectrumSize w)
  /\ Forall (fun x => Worker.mNoiseAttenFactor w <= x <= 1) g.

Definition records_ok (w : Worker.t) (q : list Worker.Record_) : Prop :=
  Forall (fun record => gains_ok w (Worker.mGains record)) q.

Definition gains_inv (w : Worker.t) (st : Worker.state) : Prop :=
  length (Worker.mQueue st) = Z.to_nat (Worker.mHistoryLen w)
  /\ length (Worker.mFreqSmoothingScratch st) = Z.to_nat (Worker.mSpectrumSize w)
  /\ records_ok w (Worker.mQueue st).

(** What the constructor guarantees of the sizes, before any gain is set. *)
Definition shape_inv (w : Worker.t) (st : Worker.state) : Prop :=
  length (Worker.mQueue st) = Z.to_nat (Worker.mHistoryLen w)
  /\ length (Worker.mFreqSmoothingScratch st) = Z.to_nat (Worker.mSpectrumSize w)
  /\ gains_wf (Z.to_nat (Worker.mSpectrumSize w)) (Worker.mQueue st).

(** The number of samples in a list of blocks. *)
Definition total_length (blocks : list (list R)) : nat := length (concat blocks).

(** What the analysis window and the synthesis window multiply sample [i]
    of a window by: the entry of the window array, or 1 where the array
    is left empty ([FillFirstHistoryWindow] and the overlap-add of
    [ReduceNoise] test [size() > 0]). *)
Definition analysis_factor (w : Worker.t) (i : nat) : R :=
  if bool_decide (0 < length (Worker.mInWindow w))%nat then Worker.mInWindow w !!! i else 1.

Definition synthesis_factor (w : Worker.t) (i : nat) : R :=
  if bool_decide (0 < length (Worker.mOutWindow w))%nat then Worker.mOutWindow w !!! i else 1.

(** The sizes of a worker that a validated configuration guarantees: the
    steps divide the window, and the sizes fit an [int]. *)
Record sizes_ok (w : Worker.t) : Prop := {
  so_window : (Worker.mStepSize w * Worker.mStepsPerWindow w = Worker.mWindowSize w)%Z;
  so_step : (1 <= Worker.mStepSize w)%Z;
  so_steps : (2 <= Worker.mStepsPerWindow w)%Z;
  so_small : (Worker.mWindowSize w < 2 ^ 31)%Z;
  so_spectrum : Worker.mSpectrumSize w = (1 + Worker.mWindowSize w / 2)%Z
}.

(** The two cosines of the window polynomial at sample [i] of step [k],
    in a window of [W] samples with steps of [H] samples. *)
Definition step_cos1 (W H i k : nat) : R :=
  cos ((2.0 * PI * INR (i + k * H)) / IZR (Z.of_nat W)).
Definition step_cos2 (W H i k : nat) : R :=
  cos ((4.0 * PI * INR (i + k * H)) / IZR (Z.of_nat W)).

(** The number of windows that a profile takes from [N] samples: none
    when they do not fill a window, and then one more with every further
    step. *)
Definition profile_windows (W H N : Z) : Z :=
  if (N <? W)%Z then 0%Z else (1 + (N - W) / H)%Z.

(** What holds while a profile is taken from a track: the samples that
    came in are those of the windows gathered, one step each, those
    waiting in the window buffer and those still in the block at hand;
    the statistics are the [initial] ones with the windows gathered so
    far. *)
Definition profile_progress (w : Worker.t) (initial : Statistics.t) (samples : Z)
    (c : Worker.config) : Prop :=
  let '(statistics, st, outputTrack, buffer) := c in
  let W := Worker.mWindowSize w in
  let H := Worker.mStepSize w in
  (0 <= Worker.mInWavePos st < W)%Z
  /\ Worker.mInSampleCount st = samples
  /\ (Worker.mInWavePos st + Worker.mOutStepCount st * H + Z.of_nat (length buffer)
      = samples)%Z
  /\ (1 <= Worker.mOutStepCount st -> W - H <= Worker.mInWavePos st)%Z
  /\ (exists windows,
        statistics = gather_track w initial windows
        /\ Z.of_nat (length windows) = Worker.mOutStepCount st)
  /\ outputTrack = [].

(** What holds while noise is reduced on a track: the write position
    stays in the last step of the window buffer; the output track holds
    one step of samples for every step counted from 0 on; and the
    samples fed so far ([fed], with those still in the block at hand)
    are those of the steps counted, the steps by which the count starts
    below 0 included, and those waiting in the window buffer. *)
Definition reduce_progress (w : Worker.t) (initial : Statistics.t) (samples fed : Z)
    (c : Worker.config) : Prop :=
  let '(statistics, st, outputTrack, buffer) := c in
  let W := Worker.mWindowSize w in
  let H := Worker.mStepSize w in
  let lead := (Worker.mHistoryLen w - 1 + (Worker.mStepsPerWindow w - 1))%Z in
  (W - H <= Worker.mInWavePos st < W)%Z
  /\ Worker.mInSampleCount st = samples
  /\ length (Worker.mOutOverlapBuffer st) = Z.to_nat W
  /\ Z.of_nat (length outputTrack) = (H * Z.max 0 (Worker.mOutStepCount st))%Z
  /\ ((Worker.mOutStepCount st + lead) * H + (Worker.mInWavePos st - (W - H))
      + Z.of_nat (length buffer) = fed)%Z
  /\ statistics = initial.

(** The blocks that [Worker::Process] has [ProcessOne] read from a track
    for the selection from [inT0] to [inT1], clipped to the track. *)
Definition selected_blocks (track : WaveTrack) (inT0 inT1 : R) : list (list R) :=
  let t0 := std_max (GetStartTime track) inT0 in
  let t1 := std_min (GetEndTime track) inT1 in
  GetBlocks track (TimeToLongSamples track t0)
    (TimeToLongSamples track t1 - TimeToLongSamples track t0).

(** The selection, clipped to the track, is not empty. *)
Definition selection_nonempty (track : WaveTrack) (inT0 inT1 : R) : Prop :=
  std_max (GetStartTime track) inT0 < std_min (GetEndTime track) inT1.

(** The two halves of a turn of the loop of [ProcessSamples]: the samples
    copied into the window buffer ([avail] of them), and the window
    processed when the buffer is full. *)
Definition ProcessSamples_avail (w : Worker.t) (st : Worker.state) (buffer : list R)
  : nat :=
  Z.to_nat (Z.min (Z.of_nat (length buffer))
                  (to_size_t (Worker.mWindowSize w - Worker.mInWavePos st))).

Definition ProcessSamples_copy (w : Worker.t) (st : Worker.state) (buffer : list R)
  : Worker.state :=
  let pos := Z.to_nat (Worker.mInWavePos st) in
  let avail := ProcessSamples_avail w st buffer in
  {| Worker.mFFTBuffer := Worker.mFFTBuffer st;
     Worker.mInWaveBuffer :=
       take pos (Worker.mInWaveBuffer st) ++ take avail buffer
         ++ drop (pos + avail) (Worker.mInWaveBuffer st);
     Worker.mOutOverlapBuffer := Worker.mOutOverlapBuffer st;
     Worker.mFreqSmoothingScratch := Worker.mFreqSmoothingScratch st;
     Worker.mInSampleCount := Worker.mInSampleCount st;
     Worker.mOutStepCount := Worker.mOutStepCount st;
     Worker.mInWavePos := (Worker.mInWavePos st + Z.of_nat avail)%Z;
     Worker.mQueue := Worker.mQueue st |}.

Definition ProcessSamples_window (w : Worker.t) (c : Worker.config) : Worker.config :=
  let '(statistics, st1, outputTrack, buffer) := c in
  let W := Z.to_nat (Worker.mWindowSize w) in
  let H := Z.to_nat (Worker.mStepSize w) in
  if (Worker.mInWavePos st1 =? to_int (Worker.mWindowSize w))%Z then
    let st2 := Worker.FillFirstHistoryWindow w st1 in
    let '(statistics', (st3, outputTrack')) :=
      if Worker.mDoProfile w
      then (Worker.GatherStatistics w statistics st2, (st2, outputTrack))
      else (statistics, Worker.ReduceNoise w statistics st2 outputTrack) in
    let st4 := Worker.RotateHistoryWindows st3 in
    (statistics',
     {| Worker.mFFTBuffer := Worker.mFFTBuffer st4;
        Worker.mInWaveBuffer :=
          take (W - H) (drop H (Worker.mInWaveBuffer st4))
            ++ drop (W - H) (Worker.mInWaveBuffer st4);
        Worker.mOutOverlapBuffer := Worker.mOutOverlapBuffer st4;
        Worker.mFreqSmoothingScratch := Worker.mFreqSmoothingScratch st4;
        Worker.mInSampleCount := Worker.mInSampleCount st4;
        Worker.mOutStepCount := (Worker.mOutStepCount st4 + 1)%Z;
        Worker.mInWavePos := (Worker.mInWavePos st4 - Worker.mStepSize w)%Z;
        Worker.mQueue := Worker.mQueue st4 |},
     outputTrack', buffer)
  else (statistics, st1, outputTrack, buffer).

(** The loop of [ProcessSamples] for as long as samples are left in the
    buffer, whatever the counters say: what the loop does while the
    output has not caught up with the input. *)
Fixpoint feed (w : Worker.t) (fuel : nat) (c : Worker.config) : Worker.config :=
  match snd c, fuel with
  | _ :: _, Datatypes.S fuel' => feed w fuel' (Worker.ProcessSamples_body w c)
  | _, _ => c
  end.

(** The state of a configuration with [blockSize] more samples counted
    in, and a configuration with another buffer. *)
Definition add_samples_config (blockSize : Z) (c : Worker.config) : Worker.config :=
  let '(statistics, st, outputTrack, buffer) := c in
  (statistics, Worker.add_samples blockSize st, outputTrack, buffer).

Definition set_buffer (buffer : list R) (c : Worker.config) : Worker.config :=
  let '(statistics, st, outputTrack, _) := c in (statistics, st, outputTrack, buffer).

(** The write position is inside the window buffer, which has the size
    the constructor gives it. *)
Definition wave_inv (w : Worker.t) (c : Worker.config) : Prop :=
  (0 <= Worker.mInWavePos (snd (fst (fst c))) < Worker.mWindowSize w)%Z
  /\ length (Worker.mInWaveBuffer (snd (fst (fst c)))) = Z.to_nat (Worker.mWindowSize w).

(** The output has not caught up with the input, and will not while the
    samples of the buffer are taken in. *)
Definition feeding (w : Worker.t) (c : Worker.config) : Prop :=
  let st := snd (fst (fst c)) in
  (Worker.mOutStepCount st * Worker.mStepSize w
   + Z.max 0 (Worker.mInWavePos st - (Worker.mWindowSize w - Worker.mStepSize w))
   + Z.of_nat (length (snd c)) <= Worker.mInSampleCount st)%Z.

(** ** Example configurations *)

(** Eight steps per window with the median method. *)
Definition settings_median_8 : Settings.t :=
  {| Settings.mDoProfile := false;
     Settings.mNewSensitivity := 6.0;
     Settings.mFreqSmoothingBands := 3.0;
     Settings.mNoiseGain := 12.0;
     Settings.mAttackTime := 0.02;
     Settings.mReleaseTime := 0.10;
     Settings.mOldSensitivity := 0.0;
     Settings.mNoiseReductionChoice := NRC_REDUCE_NOISE;
     Settings.mWindowTypes := WT_HANN_HANN;
     Settings.mWindowSizeChoice := 8;
     Settings.mStepsPerWindowChoice := 2;
     Settings.mMethod := DM_MEDIAN |}.

(** A stand-in for the FFT primitive: any handle serves where only the
    worker's own arithmetic is examined. *)
Definition GetFFT_example (W : Z) : HFFT :=
  {| BitReversed := (fun k => 2 * Z.of_nat k)%Z <$> seq 0 (Z.to_nat (W / 2));
     RealFFTf := fun buffer => buffer;
     InverseRealFFTf := fun buffer => buffer |}.

(** The defaults, as [GetProfile] and [ReduceNoise] set them up for a gain
    of 12 dB, a sensitivity of 6 and 3 smoothing bands. *)
Definition settings_profile : Settings.t :=
  Settings.configure true 12 6 3 (Settings.new NRC_REDUCE_NOISE).

Definition settings_reduce : Settings.t :=
  Settings.configure false 12 6 3 (Settings.new NRC_REDUCE_NOISE).

(** Hann analysis window, rectangular synthesis window, 8 samples per
    window and 4 steps. *)
Definition settings_hann_rectangular : Settings.t :=
  {| Settings.mDoProfile := false;
     Settings.mNewSensitivity := 6;
     Settings.mFreqSmoothingBands := 3;
     Settings.mNoiseGain := 12;
     Settings.mAttackTime := 0.02;
     Settings.mReleaseTime := 0.10;
     Settings.mOldSensitivity := 0;
     Settings.mNoiseReductionChoice := NRC_REDUCE_NOISE;
     Settings.mWindowTypes := WT_HANN_RECTANGULAR;
     Settings.mWindowSizeChoice := 0;
     Settings.mStepsPerWindowChoice := 1;
     Settings.mMethod := DM_SECOND_GREATEST |}.

(** The median method with the default window: four steps, five windows
    examined. *)
Definition settings_median : Settings.t :=
  {| Settings.mDoProfile := false;
     Settings.mNewSensitivity := 6.0;
     Settings.mFreqSmoothingBands := 3.0;
     Settings.mNoiseGain := 12.0;
     Settings.mAttackTime := 0.02;
     Settings.mReleaseTime := 0.10;
     Settings.mOldSensitivity := 0.0;
     Settings.mNoiseReductionChoice := NRC_REDUCE_NOISE;
     Settings.mWindowTypes := WT_HANN_HANN;
     Settings.mWindowSizeChoice := 8;
     Settings.mStepsPerWindowChoice := 1;
     Settings.mMethod := DM_MEDIAN |}.

(** A profile taken with the smallest window: 8 samples per window, 4
    steps of 2 samples, a rectangular analysis window. *)
Definition settings_profile_8 : Settings.t :=
  {| Settings.mDoProfile := true;
     Settings.mNewSensitivity := 6;
     Settings.mFreqSmoothingBands := 3;
     Settings.mNoiseGain := 12;
     Settings.mAttackTime := 0.02;
     Settings.mReleaseTime := 0.10;
     Settings.mOldSensitivity := 0;
     Settings.mNoiseReductionChoice := NRC_REDUCE_NOISE;
     Settings.mWindowTypes := WT_RECTANGULAR_HANN;
     Settings.mWindowSizeChoice := 0;
     Settings.mStepsPerWindowChoice := 1;
     Settings.mMethod := DM_SECOND_GREATEST |}.

(** A queue of five windows with one band, whose powers are all
    different, and statistics with the mean 1 for that band. *)
Definition record_example (power : R) : Worker.Record_ :=
  {| Worker.mSpectrums := [power];
     Worker.mGains := [1];
     Worker.mRealFFTs := [];
     Worker.mImagFFTs := [] |}.

Definition queue_example : list Worker.Record_ :=
  [record_example 3; record_example 20; record_example 4; record_example 2;
   record_example 5].

Definition statistics_example : Statistics.t :=
  {| Statistics.mRate := 44100;
     Statistics.mWindowSize := 2048;
     Statistics.mWindowTypes := WT_HANN_HANN;
     Statistics.mTotalWindows := 1;
     Statistics.mTrackWindows := 0;
     Statistics.mSums := [0];
     Statistics.mMeans := [1] |}.

(** A worker of [settings_profile_8] with a full window of samples at
    hand, and a head record left over from an earlier window: its powers
    are not those of its coefficients. *)
Definition state_example_8 : Worker.state :=
  {| Worker.mFFTBuffer := replicate 8 0;
     Worker.mInWaveBuffer := [1; 2; 3; 4; 5; 6; 7; 8];
     Worker.mOutOverlapBuffer := replicate 8 0;
     Worker.mFreqSmoothingScratch := replicate 5 0;
     Worker.mInSampleCount := 8;
     Worker.mOutStepCount := 0;
     Worker.mInWavePos := 8;
     Worker.mQueue :=
       [{| Worker.mSpectrums := [9; 9; 9; 9; 9];
           Worker.mGains := [1; 1; 1; 1; 1];
           Worker.mRealFFTs := [7; 7; 7; 7];
           Worker.mImagFFTs := [7; 7; 7; 7] |}] |}.

(** A track of 11 samples at 44100 Hz, read in two blocks. *)
Definition track_example : WaveTrack :=
  {| GetRate := 44100;
     GetStartTime := 0;
     GetEndTime := 11 / 44100;
     TimeToLongSamples := fun t => Zfloor (t * 44100 + 0.5);
     GetBlocks := fun _ _ => [[1; 2; 3; 4; 5]; [6; 7; 8; 9; 10; 11]] |}.

(** ** Validation *)

Lemma shiftl_1_pow2 (n : Z) :
  (0 <= n < 32)%Z -> to_unsigned (Z.shiftl 1 n) = (2 ^ n)%Z.
Proof.
  intros Hn. unfold to_unsigned.
  rewrite Z.shiftl_1_l. apply Z.mod_small. split.
  - apply Z.pow_nonneg. lia.
  - apply Z.pow_lt_mono_r; lia.
Qed.

(** A power of two is above 4 exactly when one more than it is neither 3
    nor 5, except for [2^0]. *)
Lemma pow2_gt4_iff (n : Z) :
  (1 <= n)%Z -> (2 ^ n > 4 <-> ~ (1 + 2 ^ n = 3 \/ 1 + 2 ^ n = 5))%Z.
Proof.
  intros Hn.
  destruct (Z.eq_dec n 1%Z) as [->|H1]; [simpl; lia|].
  destruct (Z.eq_dec n 2%Z) as [->|H2]; [simpl; lia|].
  assert (2 ^ 3 <= 2 ^ n)%Z by (apply Z.pow_le_mono_r; lia).
  change (2 ^ 3)%Z with 8%Z in *. lia.
Qed.

Lemma windowTypesInfo_minSteps (ty : Z) :
  (0 <= ty < WT_N_WINDOW_TYPES)%Z ->
  (2 <= minSteps (windowTypesInfo !!! Z.to_nat ty))%Z.
Proof.
  unfold WT_N_WINDOW_TYPES. intros Hty.
  assert (Hc : (ty = 0 \/ ty = 1 \/ ty = 2 \/ ty = 3 \/ ty = 4 \/ ty = 5 \/ ty = 6)%Z)
    by lia.
  repeat (destruct Hc as [Hc | Hc]); subst ty; simpl; lia.
Qed.

(** C6. [Validate] rejects a configuration exactly when the steps per
    window are below the minimum of the window types, or above the window
    size, or the method is the median with more than four steps per window;
    for a window type of the table and a defined shift, the last condition
    is the same as: the method is the median and the number of examined
    windows [1 + StepsPerWindow] is neither 3 nor 5.  Eight steps with the
    median method are rejected.  [Validate] is a function of the settings
    alone: no sample is among its arguments. *)
Theorem Validate_rejects_iff (s : Settings.t) :
  (0 <= Settings.mWindowTypes s < WT_N_WINDOW_TYPES)%Z ->
  (0 <= 1 + Settings.mStepsPerWindowChoice s < 32)%Z ->
  let S := Settings.StepsPerWindow s in
  let low := (S < minSteps (windowTypesInfo !!! Z.to_nat (Settings.mWindowTypes s)))%Z in
  let high := (S > Settings.WindowSize s)%Z in
  let median := Settings.mMethod s = DM_MEDIAN in
  (Settings.Validate s = false <-> low \/ high \/ (median /\ (S > 4)%Z))
  /\ (Settings.Validate s = false <->
      low \/ high \/ (median /\ ~ (1 + S = 3 \/ 1 + S = 5)%Z))
  /\ (median -> S = 8%Z -> Settings.Validate s = false).
Proof.
  intros Hty Hsh S low high median.
  assert (Hmin := windowTypesInfo_minSteps _ Hty).
  assert (HS : S = (2 ^ (1 + Settings.mStepsPerWindowChoice s))%Z)
    by (apply shiftl_1_pow2; exact Hsh).
  assert (Hcode : Settings.Validate s = false <-> low \/ high \/ (median /\ (S > 4)%Z)).
  { unfold Settings.Validate. fold S. subst low high median.
    destruct (Z.ltb_spec S (minSteps (windowTypesInfo !!! Z.to_nat (Settings.mWindowTypes s))));
      [tauto|].
    destruct (Z.gtb_spec S (Settings.WindowSize s)); [split; auto; lia|].
    destruct (Z.eqb_spec (Settings.mMethod s) DM_MEDIAN);
      destruct (Z.gtb_spec S 4%Z); simpl; split; try tauto; try lia;
      intros [?|[?|[? ?]]]; try lia; try tauto; try discriminate. }
  split; [exact Hcode|]. split.
  - rewrite Hcode. subst low high median.
    destruct (Z.eq_dec (1 + Settings.mStepsPerWindowChoice s)%Z 0%Z) as [H0|H0].
    + rewrite H0 in HS. change (2 ^ 0)%Z with 1%Z in HS. split; intros _; left; lia.
    + assert (Hp := pow2_gt4_iff (1 + Settings.mStepsPerWindowChoice s)%Z ltac:(lia)).
      rewrite <- HS in Hp. tauto.
  - intros Hm H8. apply Hcode. right. right. split; [exact Hm | lia].
Qed.

Lemma Validate_rejects_iff_witness :
  (0 <= Settings.mWindowTypes settings_median_8 < WT_N_WINDOW_TYPES)%Z
  /\ (0 <= 1 + Settings.mStepsPerWindowChoice settings_median_8 < 32)%Z
  /\ Settings.Validate settings_median_8 = false.
Proof.
  assert (Hty : (0 <= Settings.mWindowTypes settings_median_8 < WT_N_WINDOW_TYPES)%Z)
    by (simpl; unfold WT_N_WINDOW_TYPES, WT_HANN_HANN; lia).
  assert (Hsh : (0 <= 1 + Settings.mStepsPerWindowChoice settings_median_8 < 32)%Z)
    by (simpl; lia).
  split; [exact Hty|]. split; [exact Hsh|].
  destruct (Validate_rejects_iff settings_median_8 Hty Hsh) as (_ & _ & H).
  apply H; reflexivity.
Defined.

(** ** Vectors *)

Lemma lookup_total_tabulate (n : nat) (f : nat -> R) (i : nat) :
  (i < n)%nat -> tabulate n f !!! i = f i.
Proof.
  intros Hi. unfold tabulate. apply list_lookup_total_correct.
  rewrite list_lookup_fmap, lookup_seq_lt by exact Hi. reflexivity.
Qed.

Lemma length_tabulate (n : nat) (f : nat -> R) : length (tabulate n f) = n.
Proof. unfold tabulate. rewrite length_fmap. apply length_seq. Qed.

Lemma length_fill (first last : nat) (x : R) (v : list R) :
  length (fill first last x v) = length v.
Proof. unfold fill. apply length_imap. Qed.

Lemma lookup_total_fill (first last : nat) (x : R) (v : list R) (i : nat) :
  fill first last x v !!! i
  = if bool_decide (first <= i < last /\ i < length v)%nat then x else v !!! i.
Proof.
  unfold fill. rewrite !list_lookup_total_alt, list_lookup_imap.
  destruct (v !! i) as [y|] eqn:Hv; simpl.
  - apply lookup_lt_Some in Hv.
    repeat case_bool_decide; try reflexivity; lia.
  - apply lookup_ge_None in Hv. case_bool_decide; [lia | reflexivity].
Qed.

(** ** Decibels *)

Lemma ln_10_pos : 0 < ln 10.
Proof. rewrite <- ln_1. apply ln_increasing; lra. Qed.

Lemma DB_TO_LINEAR_pos (x : R) : 0 < DB_TO_LINEAR x.
Proof. unfold DB_TO_LINEAR, Rpower. apply exp_pos. Qed.

Lemma DB_TO_LINEAR_0 : DB_TO_LINEAR 0 = 1.
Proof.
  unfold DB_TO_LINEAR, Rpower.
  replace (0 / 20 * ln 10) with 0 by lra. apply exp_0.
Qed.

Lemma DB_TO_LINEAR_lt_1 (x : R) : x < 0 -> DB_TO_LINEAR x < 1.
Proof.
  intros Hx. unfold DB_TO_LINEAR, Rpower. rewrite <- exp_0.
  apply exp_increasing. assert (Hl := ln_10_pos). nra.
Qed.

Lemma DB_TO_LINEAR_le_1 (x : R) : x <= 0 -> DB_TO_LINEAR x <= 1.
Proof.
  intros [Hx | ->].
  - left. apply DB_TO_LINEAR_lt_1, Hx.
  - right. apply DB_TO_LINEAR_0.
Qed.

Lemma DB_TO_LINEAR_le_1_inv (x : R) : DB_TO_LINEAR x <= 1 -> x <= 0.
Proof.
  intros Hx. destruct (Rle_lt_dec x 0) as [|Hpos]; [assumption|].
  exfalso. unfold DB_TO_LINEAR, Rpower in Hx. rewrite <- exp_0 in Hx.
  assert (Hl := ln_10_pos).
  assert (exp 0 < exp (x / 20 * ln 10)) by (apply exp_increasing; nra).
  lra.
Qed.

(** ** The constructor *)

Lemma to_unsigned_small (z : Z) : (0 <= z < 2 ^ 32)%Z -> to_unsigned z = z.
Proof. intros Hz. unfold to_unsigned. apply Z.mod_small, Hz. Qed.

Lemma double_to_int_floor (x : R) : 0 <= x -> double_to_int x = Zfloor x.
Proof. intros Hx. unfold double_to_int. destruct (decide (0 <= x)); [reflexivity | lra]. Qed.

Lemma Zfloor_range (x : R) (b : Z) :
  0 <= x < IZR b -> (0 <= Zfloor x < b)%Z.
Proof.
  intros [H0 Hb]. destruct (Zfloor_bound x) as [Hl Hu]. split.
  - apply (Zfloor_lub 0 x). exact H0.
  - apply lt_IZR. lra.
Qed.

Lemma nBlocks_floor (s : Settings.t) (rate time : R) :
  let x := time * rate / IZR (Settings.WindowSize s / Settings.StepsPerWindow s) in
  0 <= x < 2147483647 ->
  Worker.nBlocks s rate time = (1 + Zfloor x)%Z /\ (1 <= Worker.nBlocks s rate time)%Z.
Proof.
  intros x Hx. unfold Worker.nBlocks. fold x.
  rewrite double_to_int_floor by lra.
  assert (Hf := Zfloor_range x 2147483647 Hx).
  rewrite to_unsigned_small by lia. lia.
Qed.

Lemma StepsPerWindow_pow2 (s : Settings.t) :
  (0 <= 1 + Settings.mStepsPerWindowChoice s < 32)%Z ->
  Settings.StepsPerWindow s = (2 ^ (1 + Settings.mStepsPerWindowChoice s))%Z
  /\ (1 <= Settings.StepsPerWindow s <= 2 ^ 31)%Z.
Proof.
  intros Hs. unfold Settings.StepsPerWindow. rewrite shiftl_1_pow2 by exact Hs.
  split; [reflexivity|]. split.
  - assert (0 < 2 ^ (1 + Settings.mStepsPerWindowChoice s))%Z
      by (apply Z.pow_pos_nonneg; lia). lia.
  - apply Z.pow_le_mono_r; lia.
Qed.

Lemma WindowSize_pow2 (s : Settings.t) :
  (0 <= 3 + Settings.mWindowSizeChoice s < 32)%Z ->
  Settings.WindowSize s = (2 ^ (3 + Settings.mWindowSizeChoice s))%Z
  /\ (1 <= Settings.WindowSize s <= 2 ^ 31)%Z.
Proof.
  intros Hs. unfold Settings.WindowSize. rewrite shiftl_1_pow2 by exact Hs.
  split; [reflexivity|]. split.
  - assert (0 < 2 ^ (3 + Settings.mWindowSizeChoice s))%Z
      by (apply Z.pow_pos_nonneg; lia). lia.
  - apply Z.pow_le_mono_r; lia.
Qed.

Lemma Validate_steps_le (s : Settings.t) :
  Settings.Validate s = true ->
  (minSteps (windowTypesInfo !!! Z.to_nat (Settings.mWindowTypes s))
   <= Settings.StepsPerWindow s <= Settings.WindowSize s)%Z.
Proof.
  unfold Settings.Validate.
  destruct (Z.ltb_spec (Settings.StepsPerWindow s)
              (minSteps (windowTypesInfo !!! Z.to_nat (Settings.mWindowTypes s))));
    [discriminate|].
  destruct (Z.gtb_spec (Settings.StepsPerWindow s) (Settings.WindowSize s));
    [discriminate|]. lia.
Qed.

(** The step size of a validated configuration is at least one sample. *)
Lemma StepSize_pos (s : Settings.t) (rate : R) :
  Settings.well_defined s rate -> Settings.Validate s = true ->
  (1 <= Settings.WindowSize s / Settings.StepsPerWindow s)%Z.
Proof.
  intros Hwd Hv. destruct (StepsPerWindow_pow2 s (Settings.wd_steps _ _ Hwd)) as [_ HS].
  assert (Hle := Validate_steps_le s Hv).
  apply Z.div_le_lower_bound; lia.
Qed.

Lemma NWindowsToExamine_new (s : Settings.t) (rate : R) :
  Settings.well_defined s rate ->
  Worker.NWindowsToExamine s rate = (1 + Settings.StepsPerWindow s)%Z.
Proof.
  intros Hwd. unfold Worker.NWindowsToExamine.
  destruct (StepsPerWindow_pow2 s (Settings.wd_steps _ _ Hwd)) as [_ HS].
  destruct (Settings.wd_method _ _ Hwd) as [Hm | Hm]; rewrite Hm; simpl;
    apply to_unsigned_small; lia.
Qed.

Lemma time_blocks_nonneg (time rate : R) (H : Z) :
  0 <= time -> 0 < rate -> (1 <= H)%Z -> 0 <= time * rate / IZR H.
Proof.
  intros Ht Hr HH. apply IZR_le in HH.
  apply Rmult_le_pos; [nra|]. left. apply Rinv_0_lt_compat. lra.
Qed.

Lemma nAttackBlocks_floor (s : Settings.t) (rate : R) :
  Settings.well_defined s rate -> Settings.Validate s = true ->
  Worker.nAttackBlocks s rate
  = (1 + Zfloor (Settings.mAttackTime s * rate
                 / IZR (Settings.WindowSize s / Settings.StepsPerWindow s)))%Z
  /\ (1 <= Worker.nAttackBlocks s rate <= 2147483647)%Z.
Proof.
  intros Hwd Hv. assert (HH := StepSize_pos s rate Hwd Hv).
  assert (H0 := time_blocks_nonneg _ rate _ (Settings.wd_attack _ _ Hwd)
                  (Settings.wd_rate _ _ Hwd) HH).
  assert (Hu := Settings.wd_attack_int _ _ Hwd).
  unfold Worker.nAttackBlocks.
  destruct (nBlocks_floor s rate (Settings.mAttackTime s) (conj H0 Hu)) as [-> _].
  assert (Hf := Zfloor_range _ 2147483647 (conj H0 Hu)). lia.
Qed.

Lemma nReleaseBlocks_ge_1 (s : Settings.t) (rate : R) :
  Settings.well_defined s rate -> Settings.Validate s = true ->
  (1 <= Worker.nReleaseBlocks s rate)%Z.
Proof.
  intros Hwd Hv. assert (HH := StepSize_pos s rate Hwd Hv).
  assert (H0 := time_blocks_nonneg _ rate _ (Settings.wd_release _ _ Hwd)
                  (Settings.wd_rate _ _ Hwd) HH).
  assert (Hu := Settings.wd_release_int _ _ Hwd).
  apply (nBlocks_floor s rate (Settings.mReleaseTime s) (conj H0 Hu)).
Qed.

Lemma settings_profile_sizes :
  Settings.WindowSize settings_profile = 2048%Z
  /\ Settings.StepsPerWindow settings_profile = 4%Z.
Proof. split; reflexivity. Qed.

Lemma settings_profile_well_defined : Settings.well_defined settings_profile 44100.
Proof.
  destruct settings_profile_sizes as [HW HS].
  constructor; rewrite ?HW, ?HS; simpl;
    unfold WT_N_WINDOW_TYPES, WT_DEFAULT_WINDOW_TYPES, WT_HANN_HANN,
      DEFAULT_WINDOW_SIZE_CHOICE, DEFAULT_STEPS_PER_WINDOW_CHOICE;
    try change (2048 / 4)%Z with 512%Z; try lia; try lra.
  right. reflexivity.
Qed.

Lemma settings_reduce_well_defined : Settings.well_defined settings_reduce 44100.
Proof.
  assert (HW : Settings.WindowSize settings_reduce = 2048%Z) by reflexivity.
  assert (HS : Settings.StepsPerWindow settings_reduce = 4%Z) by reflexivity.
  constructor; rewrite ?HW, ?HS; simpl;
    unfold WT_N_WINDOW_TYPES, WT_DEFAULT_WINDOW_TYPES, WT_HANN_HANN,
      DEFAULT_WINDOW_SIZE_CHOICE, DEFAULT_STEPS_PER_WINDOW_CHOICE;
    try change (2048 / 4)%Z with 512%Z; try lia; try lra.
  right. reflexivity.
Qed.

Lemma settings_profile_8_well_defined : Settings.well_defined settings_profile_8 44100.
Proof.
  assert (HW : Settings.WindowSize settings_profile_8 = 8%Z) by reflexivity.
  assert (HS : Settings.StepsPerWindow settings_profile_8 = 4%Z) by reflexivity.
  constructor; rewrite ?HW, ?HS; simpl;
    unfold WT_N_WINDOW_TYPES, WT_RECTANGULAR_HANN;
    try change (8 / 4)%Z with 2%Z; try lia; try lra.
Qed.

Lemma ln_10_ge_1 : 1 <= ln 10.
Proof.
  rewrite <- (ln_exp 1). left. apply ln_increasing; [apply exp_pos|].
  pose proof exp_le_3. lra.
Qed.

(** C7, amended.  For every validated configuration the worker examines
    [NExamine = 1 + StepsPerWindow] windows around the center
    [Center = NExamine / 2]; a worker that reduces noise has a history of
    length [L = max(NExamine, Center + NAttackBlocks)], where
    [NAttackBlocks = 1 + floor(attackTime * rate / H)], so
    [L >= max(NExamine, Center + NAttackBlocks)]; a worker that gathers the
    profile has a history of length 1. *)
Theorem HistoryLen_new (GetFFT : Z -> HFFT) (s : Settings.t) (rate : R) :
  Settings.well_defined s rate -> Settings.Validate s = true ->
  let w := Worker.new GetFFT s rate in
  let NExamine := (1 + Settings.StepsPerWindow s)%Z in
  let Center := (NExamine / 2)%Z in
  let H := (Settings.WindowSize s / Settings.StepsPerWindow s)%Z in
  let NAttackBlocks := (1 + Zfloor (Settings.mAttackTime s * rate / IZR H))%Z in
  Worker.mNWindowsToExamine w = NExamine
  /\ Worker.mCenter w = Center
  /\ (Settings.mDoProfile s = false ->
      (Worker.mHistoryLen w >= Z.max NExamine (Center + NAttackBlocks))%Z
      /\ Worker.mHistoryLen w = Z.max NExamine (Center + NAttackBlocks))
  /\ (Settings.mDoProfile s = true -> Worker.mHistoryLen w = 1%Z).
Proof.
  intros Hwd Hv w NExamine Center H NAttackBlocks.
  assert (HN := NWindowsToExamine_new s rate Hwd).
  destruct (nAttackBlocks_floor s rate Hwd Hv) as [HA HAr].
  destruct (StepsPerWindow_pow2 s (Settings.wd_steps _ _ Hwd)) as [_ HS].
  subst w. cbn [Worker.new Worker.mNWindowsToExamine Worker.mCenter Worker.mHistoryLen].
  rewrite HN. fold NExamine. fold Center.
  split; [reflexivity|]. split; [reflexivity|]. split.
  - intros Hp. unfold Worker.HistoryLen. rewrite Hp, HN, HA.
    fold NExamine Center H NAttackBlocks.
    assert (Hc : (0 <= Center <= 2 ^ 30)%Z).
    { subst Center NExamine. change (2 ^ 31)%Z with 2147483648%Z in HS.
      change (2 ^ 30)%Z with 1073741824%Z. clear - HS.
      Z.to_euclidean_division_equations. lia. }
    rewrite to_unsigned_small.
    + split; [lia | reflexivity].
    + fold H in HA. rewrite HA in HAr. subst NAttackBlocks. lia.
  - intros Hp. unfold Worker.HistoryLen. rewrite Hp. reflexivity.
Qed.

Lemma HistoryLen_new_witness :
  Settings.well_defined settings_reduce 44100
  /\ Settings.Validate settings_reduce = true
  /\ (Worker.mHistoryLen (Worker.new GetFFT_example settings_reduce 44100)
      >= Z.max (1 + Settings.StepsPerWindow settings_reduce)
               ((1 + Settings.StepsPerWindow settings_reduce) / 2
                + (1 + Zfloor (Settings.mAttackTime settings_reduce * 44100
                               / IZR (Settings.WindowSize settings_reduce
                                      / Settings.StepsPerWindow settings_reduce)))))%Z.
Proof.
  split; [exact settings_reduce_well_defined|]. split; [reflexivity|].
  destruct (HistoryLen_new GetFFT_example settings_reduce 44100
              settings_reduce_well_defined eq_refl) as (_ & _ & Hreduce & _).
  apply Hreduce. reflexivity.
Defined.

(** C7 as stated fails for a worker that gathers the profile: with the
    default configuration its history holds one window, fewer than the five
    windows examined. *)
Lemma HistoryLen_profile_counterexample :
  Settings.well_defined settings_profile 44100
  /\ Settings.Validate settings_profile = true
  /\ ~ (Worker.mHistoryLen (Worker.new GetFFT_example settings_profile 44100)
        >= Z.max (1 + Settings.StepsPerWindow settings_profile)
                 ((1 + Settings.StepsPerWindow settings_profile) / 2
                  + (1 + Zfloor (Settings.mAttackTime settings_profile * 44100
                                 / IZR (Settings.WindowSize settings_profile
                                        / Settings.StepsPerWindow settings_profile)))))%Z.
Proof.
  split; [exact settings_profile_well_defined|]. split; [reflexivity|].
  assert (HL : Worker.mHistoryLen (Worker.new GetFFT_example settings_profile 44100) = 1%Z)
    by reflexivity.
  rewrite HL. destruct settings_profile_sizes as [_ ->]. lia.
Qed.

(** C8, amended.  With a positive noise gain [G] and at least one attack
    block, the attack multiplier [mOneBlockAttack = DB_TO_LINEAR(-G / NA)]
    lies strictly between 0 and 1: it is a decay factor. *)
Theorem mOneBlockAttack_below_1 (GetFFT : Z -> HFFT) (s : Settings.t) (rate : R) :
  0 < Settings.mNoiseGain s ->
  (1 <= Worker.nAttackBlocks s rate)%Z ->
  let a := Worker.mOneBlockAttack (Worker.new GetFFT s rate) in
  a = DB_TO_LINEAR (- Settings.mNoiseGain s / IZR (Worker.nAttackBlocks s rate))
  /\ 0 < a < 1.
Proof.
  intros HG HNA a. subst a. cbn [Worker.new Worker.mOneBlockAttack].
  unfold Worker.noiseGain. split; [reflexivity|]. split.
  - apply DB_TO_LINEAR_pos.
  - apply DB_TO_LINEAR_lt_1. apply IZR_le in HNA.
    assert (0 < / IZR (Worker.nAttackBlocks s rate)) by (apply Rinv_0_lt_compat; lra).
    unfold Rdiv. nra.
Qed.

Lemma mOneBlockAttack_below_1_witness :
  0 < Settings.mNoiseGain settings_reduce
  /\ (1 <= Worker.nAttackBlocks settings_reduce 44100)%Z
  /\ 0 < Worker.mOneBlockAttack (Worker.new GetFFT_example settings_reduce 44100) < 1.
Proof.
  assert (HG : 0 < Settings.mNoiseGain settings_reduce) by (simpl; lra).
  assert (HNA : (1 <= Worker.nAttackBlocks settings_reduce 44100)%Z)
    by (apply (nAttackBlocks_floor _ _ settings_reduce_well_defined eq_refl)).
  split; [exact HG|]. split; [exact HNA|].
  apply (mOneBlockAttack_below_1 GetFFT_example settings_reduce 44100 HG HNA).
Defined.

(** C8 as stated fails for the default configuration: the gain is 12 dB,
    there is at least one attack block, and the multiplier is not above 1. *)
Lemma mOneBlockAttack_counterexample :
  0 < Settings.mNoiseGain settings_reduce
  /\ (1 <= Worker.nAttackBlocks settings_reduce 44100)%Z
  /\ ~ (Worker.mOneBlockAttack (Worker.new GetFFT_example settings_reduce 44100) > 1).
Proof.
  assert (HG : 0 < Settings.mNoiseGain settings_reduce) by (simpl; lra).
  assert (HNA : (1 <= Worker.nAttackBlocks settings_reduce 44100)%Z)
    by (apply (nAttackBlocks_floor _ _ settings_reduce_well_defined eq_refl)).
  split; [exact HG|]. split; [exact HNA|].
  cbn [Worker.new Worker.mOneBlockAttack]. unfold Worker.noiseGain.
  apply IZR_le in HNA.
  assert (0 < / IZR (Worker.nAttackBlocks settings_reduce 44100))
    by (apply Rinv_0_lt_compat; lra).
  assert (Hlt : DB_TO_LINEAR (- Settings.mNoiseGain settings_reduce
                              / IZR (Worker.nAttackBlocks settings_reduce 44100)) < 1)
    by (apply DB_TO_LINEAR_lt_1; unfold Rdiv; nra).
  lra.
Qed.

Lemma window_lookup (s : Settings.t) (rate m : R) (coefficients : list R) (i : nat) :
  (Z.of_nat i < Settings.WindowSize s)%Z ->
  Worker.window s m coefficients !!! i
  = m * window_polynomial coefficients (Settings.WindowSize s) i.
Proof.
  intros Hi. unfold Worker.window, window_polynomial.
  rewrite lookup_total_tabulate by lia. reflexivity.
Qed.

Lemma window_length (s : Settings.t) (m : R) (coefficients : list R) :
  length (Worker.window s m coefficients) = Z.to_nat (Settings.WindowSize s).
Proof. unfold Worker.window. apply length_tabulate. Qed.

(** C9, amended.  The analysis window is left empty exactly for the window
    type whose analysis window is rectangular ([WT_RECTANGULAR_HANN], the
    one entry of the table with the analysis coefficients 1, 0, 0).  For
    every other type it has [W] entries, and entry [i] is
    [m * (c0 + c1 cos(2 pi i / W) + c2 cos(4 pi i / W))], where [m] is the
    overlap multiplier [M = 1 / (K * S)] when the SYNTHESIS window is
    rectangular (types [WT_HANN_RECTANGULAR] and [WT_HAMMING_RECTANGULAR])
    and 1 otherwise. *)
Theorem InWindow_new (GetFFT : Z -> HFFT) (s : Settings.t) (rate : R) :
  (0 <= Settings.mWindowTypes s < WT_N_WINDOW_TYPES)%Z ->
  (0 <= 3 + Settings.mWindowSizeChoice s < 32)%Z ->
  let w := Worker.new GetFFT s rate in
  let ty := Settings.mWindowTypes s in
  let info := windowTypesInfo !!! Z.to_nat ty in
  let W := Settings.WindowSize s in
  let M := 1 / (productConstantTerm info * IZR (Settings.StepsPerWindow s)) in
  (inCoefficients info = [1; 0; 0] <-> ty = WT_RECTANGULAR_HANN)
  /\ (Worker.mInWindow w = [] <-> ty = WT_RECTANGULAR_HANN)
  /\ (ty <> WT_RECTANGULAR_HANN ->
      length (Worker.mInWindow w) = Z.to_nat W
      /\ forall i : nat, (Z.of_nat i < W)%Z ->
         Worker.mInWindow w !!! i
         = (if decide (ty = WT_HANN_RECTANGULAR \/ ty = WT_HAMMING_RECTANGULAR)
            then M else 1)
           * window_polynomial (inCoefficients info) W i).
Proof.
  intros Hty HWc w ty info W M.
  destruct (WindowSize_pow2 s HWc) as [_ HW]. fold W in HW.
  assert (Hlen : ty <> WT_RECTANGULAR_HANN ->
                 length (Worker.mInWindow w) = Z.to_nat W).
  { intros Hne. subst w. cbn [Worker.new Worker.mInWindow]. unfold Worker.InWindow.
    fold ty. destruct (Z.eqb_spec ty WT_RECTANGULAR_HANN); [contradiction|].
    apply window_length. }
  split; [|split].
  - unfold WT_N_WINDOW_TYPES in Hty. fold ty in Hty. subst info.
    assert (Hc : (ty = 0 \/ ty = 1 \/ ty = 2 \/ ty = 3 \/ ty = 4 \/ ty = 5 \/ ty = 6)%Z)
      by lia.
    unfold WT_RECTANGULAR_HANN.
    repeat (destruct Hc as [Hc | Hc]); rewrite Hc; simpl;
      (split; intros Heq; first
         [ reflexivity | discriminate Heq | injection Heq; intros; exfalso; lra ]).
  - split.
    + intros Hnil. destruct (Z.eq_dec ty WT_RECTANGULAR_HANN) as [|Hne]; [assumption|].
      specialize (Hlen Hne). rewrite Hnil in Hlen. simpl in Hlen. lia.
    + intros Heq. subst w. cbn [Worker.new Worker.mInWindow]. unfold Worker.InWindow.
      fold ty. rewrite Heq. reflexivity.
  - intros Hne. split; [exact (Hlen Hne)|]. intros i Hi.
    subst w. cbn [Worker.new Worker.mInWindow]. unfold Worker.InWindow. fold ty.
    destruct (Z.eqb_spec ty WT_RECTANGULAR_HANN); [contradiction|].
    cbv zeta. rewrite (window_lookup s rate) by exact Hi. fold info W.
    f_equal. unfold Worker.multiplier. fold ty info. fold M.
    destruct (Z.eqb_spec ty WT_HAMMING_RECTANGULAR), (Z.eqb_spec ty WT_HANN_RECTANGULAR);
      destruct (decide (ty = WT_HANN_RECTANGULAR \/ ty = WT_HAMMING_RECTANGULAR));
      simpl; try reflexivity; try tauto; subst M; lra.
Qed.

Lemma InWindow_new_witness :
  (0 <= Settings.mWindowTypes settings_hann_rectangular < WT_N_WINDOW_TYPES)%Z
  /\ (0 <= 3 + Settings.mWindowSizeChoice settings_hann_rectangular < 32)%Z
  /\ length (Worker.mInWindow (Worker.new GetFFT_example settings_hann_rectangular 44100))
     = 8%nat.
Proof.
  assert (Hty : (0 <= Settings.mWindowTypes settings_hann_rectangular
                 < WT_N_WINDOW_TYPES)%Z)
    by (simpl; unfold WT_HANN_RECTANGULAR, WT_N_WINDOW_TYPES; lia).
  assert (HW : (0 <= 3 + Settings.mWindowSizeChoice settings_hann_rectangular < 32)%Z)
    by (simpl; lia).
  split; [exact Hty|]. split; [exact HW|].
  destruct (InWindow_new GetFFT_example settings_hann_rectangular 44100 Hty HW)
    as (_ & _ & Hwin).
  apply Hwin. discriminate.
Defined.

(** C9 as stated fails for the Hann analysis window with a rectangular
    synthesis window: with 8 samples per window and 4 steps, the entry at
    index 4 is [0.5], not the unscaled value 1 of the polynomial. *)
Lemma InWindow_counterexample :
  let s := settings_hann_rectangular in
  let info := windowTypesInfo !!! Z.to_nat (Settings.mWindowTypes s) in
  Settings.Validate s = true
  /\ inCoefficients info <> [1; 0; 0]
  /\ Worker.mInWindow (Worker.new GetFFT_example s 44100) !!! 4%nat
     <> 1 * window_polynomial (inCoefficients info) (Settings.WindowSize s) 4.
Proof.
  cbv zeta. split; [reflexivity|]. split.
  - simpl. intros Heq. injection Heq. intros. lra.
  - cbn [Worker.new Worker.mInWindow]. unfold Worker.InWindow.
    change (Settings.mWindowTypes settings_hann_rectangular) with 1%Z.
    change (1 =? WT_RECTANGULAR_HANN)%Z with false.
    change ((1 =? WT_HAMMING_RECTANGULAR)%Z || (1 =? WT_HANN_RECTANGULAR)%Z) with true.
    cbv iota zeta.
    rewrite (window_lookup _ 44100) by (change (Settings.WindowSize settings_hann_rectangular) with 8%Z; lia).
    unfold Worker.multiplier, window_polynomial.
    change (Settings.WindowSize settings_hann_rectangular) with 8%Z.
    change (Settings.StepsPerWindow settings_hann_rectangular) with 4%Z.
    change (Settings.mWindowTypes settings_hann_rectangular) with 1%Z.
    change (windowTypesInfo !!! Z.to_nat 1) with
      {| minSteps := 2; inCoefficients := [0.5; -0.5; 0];
         outCoefficients := [1; 0; 0]; productConstantTerm := 0.5 |}.
    cbn [inCoefficients productConstantTerm].
    change ([0.5; -0.5; 0] !!! 0%nat) with 0.5.
    change ([0.5; -0.5; 0] !!! 1%nat) with (-0.5).
    change ([0.5; -0.5; 0] !!! 2%nat) with 0.
    replace (2.0 * PI * INR 4 / 8) with PI by (simpl; lra).
    replace (4.0 * PI * INR 4 / 8) with (2 * PI) by (simpl; lra).
    rewrite cos_PI, cos_2PI. lra.
Qed.

(** ** Loops that write a vector index by index *)

Lemma foldl_pointwise (step : list R -> nat -> list R) (f : nat -> R -> R)
    (v : list R) (k : nat) :
  (k <= length v)%nat ->
  (forall u i, (i < k)%nat -> length u = length v ->
               step u i = <[i := f i (u !!! i)]> u) ->
  let r := foldl step v (seq 0 k) in
  length r = length v
  /\ forall i, r !!! i = if decide (i < k)%nat then f i (v !!! i) else v !!! i.
Proof.
  induction k as [|k IH]; intros Hk Hstep; cbv zeta.
  - simpl. split; [reflexivity|]. intros i. destruct (decide (i < 0)%nat); [lia | reflexivity].
  - rewrite seq_S, foldl_app. simpl.
    destruct (IH ltac:(lia) ltac:(intros; apply Hstep; [lia | assumption]))
      as [Hlen Hget].
    cbv zeta in Hlen, Hget.
    set (r := foldl step v (seq 0 k)) in *.
    rewrite (Hstep r k) by (lia || exact Hlen).
    split; [rewrite length_insert; exact Hlen|].
    intros i. destruct (decide (i = k)) as [->|Hne].
    + rewrite list_lookup_total_insert_eq by lia. rewrite Hget.
      destruct (decide (k < k)%nat), (decide (k < Datatypes.S k)%nat); try lia. reflexivity.
    + rewrite list_lookup_total_insert_ne by congruence. rewrite Hget.
      destruct (decide (i < k)%nat), (decide (i < Datatypes.S k)%nat); try lia; reflexivity.
Qed.

Lemma foldl_insert_pointwise (f : nat -> R -> R) (v : list R) (k : nat) :
  (k <= length v)%nat ->
  let r := foldl (fun v i => <[i := f i (v !!! i)]> v) v (seq 0 k) in
  length r = length v
  /\ forall i, r !!! i = if decide (i < k)%nat then f i (v !!! i) else v !!! i.
Proof. intros Hk. apply foldl_pointwise; [exact Hk | reflexivity]. Qed.

(** ** The profile statistics *)

Lemma Rsum_app (l k : list R) : Rsum (l ++ k) = Rsum l + Rsum k.
Proof. unfold Rsum. induction l as [|x l IH]; simpl; lra. Qed.

Lemma grand_sum_snoc tracks windows b :
  grand_sum (tracks ++ [windows]) b = grand_sum tracks b + track_sum windows b.
Proof. unfold grand_sum. rewrite fmap_app, Rsum_app. simpl. lra. Qed.

Lemma grand_count_snoc tracks windows :
  grand_count (tracks ++ [windows]) = (grand_count tracks + Z.of_nat (length windows))%Z.
Proof. unfold grand_count. induction tracks as [|t tracks IH]; simpl; lia. Qed.

Lemma grand_count_nonneg tracks : (0 <= grand_count tracks)%Z.
Proof. unfold grand_count. induction tracks as [|t tracks IH]; simpl; lia. Qed.

Lemma track_sum_nil b : track_sum [] b = 0.
Proof. reflexivity. Qed.

Lemma track_sum_cons st windows b :
  track_sum (st :: windows) b = head_power st b + track_sum windows b.
Proof. reflexivity. Qed.

Lemma GatherStatistics_spec (w : Worker.t) (statistics : Statistics.t) (st : Worker.state) :
  (Z.to_nat (Worker.mSpectrumSize w) <= length (Statistics.mSums statistics))%nat ->
  let r := Worker.GatherStatistics w statistics st in
  Statistics.mTrackWindows r = (Statistics.mTrackWindows statistics + 1)%Z
  /\ Statistics.mTotalWindows r = Statistics.mTotalWindows statistics
  /\ Statistics.mMeans r = Statistics.mMeans statistics
  /\ length (Statistics.mSums r) = length (Statistics.mSums statistics)
  /\ forall b, (b < Z.to_nat (Worker.mSpectrumSize w))%nat ->
       Statistics.mSums r !!! b = Statistics.mSums statistics !!! b + head_power st b.
Proof.
  intros Hlen r. subst r. unfold Worker.GatherStatistics. simpl.
  repeat (split; [reflexivity|]).
  destruct (foldl_insert_pointwise
              (fun jj x => x + Worker.mSpectrums (Worker.mQueue st !!! 0%nat) !!! jj)
              (Statistics.mSums statistics) _ Hlen) as [Hl Hget].
  cbv zeta in Hl, Hget. split; [exact Hl|].
  intros b Hb. rewrite Hget. destruct (decide _); [reflexivity | lia].
Qed.

Lemma gather_track_spec (w : Worker.t) (windows : list Worker.state) :
  forall statistics : Statistics.t,
  (Z.to_nat (Worker.mSpectrumSize w) <= length (Statistics.mSums statistics))%nat ->
  let r := gather_track w statistics windows in
  Statistics.mTrackWindows r
  = (Statistics.mTrackWindows statistics + Z.of_nat (length windows))%Z
  /\ Statistics.mTotalWindows r = Statistics.mTotalWindows statistics
  /\ Statistics.mMeans r = Statistics.mMeans statistics
  /\ length (Statistics.mSums r) = length (Statistics.mSums statistics)
  /\ forall b, (b < Z.to_nat (Worker.mSpectrumSize w))%nat ->
       Statistics.mSums r !!! b = Statistics.mSums statistics !!! b + track_sum windows b.
Proof.
  unfold gather_track.
  induction windows as [|st windows IH]; intros statistics Hlen; cbv zeta.
  - simpl. repeat split; try lia. intros b _. rewrite track_sum_nil. lra.
  - simpl foldl.
    destruct (GatherStatistics_spec w statistics st Hlen) as (Ht & Hm & Hmeans & Hl & Hs).
    cbv zeta in *.
    destruct (IH (Worker.GatherStatistics w statistics st) ltac:(lia))
      as (Ht' & Hm' & Hmeans' & Hl' & Hs').
    cbv zeta in *.
    rewrite Ht', Hm', Hmeans', Hl', Ht, Hm, Hmeans, Hl.
    repeat split; try (simpl length; lia).
    intros b Hb. rewrite Hs', Hs, track_sum_cons by exact Hb. lra.
Qed.

(** The loop of [FinishTrackStatistics], stopped after [k] indices. *)
Lemma finish_loop (m d : R) (means sums : list R) (k : nat) :
  (k <= length means)%nat -> (k <= length sums)%nat ->
  let r := foldl (fun '(means, sums) ii =>
                    (<[ii := (means !!! ii * m + sums !!! ii) / d]> means,
                     <[ii := 0]> sums))
                 (means, sums) (seq 0 k) in
  length (fst r) = length means /\ length (snd r) = length sums
  /\ forall i,
       fst r !!! i = (if decide (i < k)%nat
                      then (means !!! i * m + sums !!! i) / d else means !!! i)
       /\ snd r !!! i = (if decide (i < k)%nat then 0 else sums !!! i).
Proof.
  induction k as [|k IH]; intros Hm Hs; cbv zeta.
  - simpl. repeat split; destruct (decide (i < 0)%nat); (lia || reflexivity).
  - rewrite seq_S, foldl_app. simpl.
    destruct (IH ltac:(lia) ltac:(lia)) as (Hl1 & Hl2 & Hget). cbv zeta in *.
    destruct (foldl _ (means, sums) (seq 0 k)) as [means' sums']. simpl in *.
    rewrite !length_insert. repeat split; try assumption.
    + destruct (decide (i = k)) as [->|Hne].
      * rewrite list_lookup_total_insert_eq by lia.
        destruct (Hget k) as [-> ->].
        destruct (decide (k < k)%nat), (decide (k < Datatypes.S k)%nat); try lia. reflexivity.
      * rewrite list_lookup_total_insert_ne by congruence.
        destruct (Hget i) as [-> _].
        destruct (decide (i < k)%nat), (decide (i < Datatypes.S k)%nat); try lia; reflexivity.
    + destruct (decide (i = k)) as [->|Hne].
      * rewrite list_lookup_total_insert_eq by lia.
        destruct (decide (k < Datatypes.S k)%nat); [reflexivity | lia].
      * rewrite list_lookup_total_insert_ne by congruence.
        destruct (Hget i) as [_ ->].
        destruct (decide (i < k)%nat), (decide (i < Datatypes.S k)%nat); try lia; reflexivity.
Qed.

Lemma FinishTrackStatistics_spec (statistics : Statistics.t) :
  length (Statistics.mSums statistics) = length (Statistics.mMeans statistics) ->
  let n := Statistics.mTrackWindows statistics in
  let m := Statistics.mTotalWindows statistics in
  let r := Worker.FinishTrackStatistics statistics in
  Statistics.mTotalWindows r = (n + m)%Z
  /\ Statistics.mTrackWindows r = 0%Z
  /\ length (Statistics.mSums r) = length (Statistics.mSums statistics)
  /\ length (Statistics.mMeans r) = length (Statistics.mMeans statistics)
  /\ forall b, (b < length (Statistics.mMeans statistics))%nat ->
       if decide (n = 0%Z)
       then Statistics.mMeans r !!! b = Statistics.mMeans statistics !!! b
            /\ Statistics.mSums r !!! b = Statistics.mSums statistics !!! b
       else Statistics.mMeans r !!! b
            = (Statistics.mMeans statistics !!! b * IZR m
               + Statistics.mSums statistics !!! b) / IZR (n + m)
            /\ Statistics.mSums r !!! b = 0.
Proof.
  intros Hlen n m r. subst r. unfold Worker.FinishTrackStatistics. fold n m.
  destruct (Z.eqb_spec n 0) as [Hn|Hn].
  - simpl. repeat split; try reflexivity.
    intros b Hb. destruct (decide (n = 0%Z)); [split; reflexivity | contradiction].
  - destruct (finish_loop (IZR m) (IZR (n + m)) (Statistics.mMeans statistics)
                (Statistics.mSums statistics) (length (Statistics.mMeans statistics))
                ltac:(lia) ltac:(lia)) as (Hl1 & Hl2 & Hget).
    cbv zeta in *.
    destruct (foldl _ _ (seq 0 (length (Statistics.mMeans statistics))))
      as [means' sums'].
    simpl in *. repeat split; try assumption; try reflexivity.
    intros b Hb. destruct (decide (n = 0%Z)); [contradiction|].
    destruct (Hget b) as [-> ->].
    destruct (decide (b < length (Statistics.mMeans statistics))%nat); [|lia].
    split; reflexivity.
Qed.

Lemma profile_inv_new (w : Worker.t) (rate : R) (windowTypes : Z) :
  profile_inv w [] (Statistics.new (Worker.mSpectrumSize w) rate windowTypes).
Proof.
  constructor; simpl; try apply length_replicate; try reflexivity.
  - intros b Hb. apply lookup_total_replicate_2, Hb.
  - intros b Hb. unfold grand_sum. simpl. lra.
Qed.

Lemma profile_inv_track (w : Worker.t) tracks statistics windows :
  profile_inv w tracks statistics ->
  profile_inv w (tracks ++ [windows]) (profile_track w statistics windows).
Proof.
  intros [Hsl Hml Ht Htot Hs Hm]. unfold profile_track.
  destruct (gather_track_spec w windows statistics ltac:(lia))
    as (Gt & Gtot & Gmeans & Gl & Gs).
  cbv zeta in *. set (g := gather_track w statistics windows) in *.
  destruct (FinishTrackStatistics_spec g ltac:(rewrite Gl, Gmeans; lia))
    as (Ftot & Ft & Fsl & Fml & Fget).
  cbv zeta in *. rewrite Gmeans, Hml in Fget.
  assert (Hc := grand_count_nonneg tracks).
  constructor.
  - rewrite Fsl, Gl. exact Hsl.
  - rewrite Fml, Gmeans. exact Hml.
  - exact Ft.
  - rewrite Ftot, Gt, Gtot, Ht, Htot, grand_count_snoc. lia.
  - intros b Hb. specialize (Fget b Hb). rewrite Gt, Ht in Fget.
    destruct (decide _) as [Hz|Hz]; destruct Fget as [_ ->]; [|reflexivity].
    rewrite Gs, Hs by exact Hb.
    assert (windows = []) as -> by (destruct windows; [reflexivity | simpl in Hz; lia]).
    rewrite track_sum_nil. lra.
  - intros b Hb. specialize (Fget b Hb). rewrite Gt, Ht in Fget.
    rewrite grand_count_snoc, grand_sum_snoc.
    destruct (decide _) as [Hz|Hz]; destruct Fget as [-> _].
    + assert (windows = []) as -> by (destruct windows; [reflexivity | simpl in Hz; lia]).
      rewrite track_sum_nil. simpl. rewrite Z.add_0_r, Rplus_0_r. apply Hm, Hb.
    + rewrite Gtot, Htot, Gs, Hs by exact Hb.
      replace (0 + Z.of_nat (length windows) + grand_count tracks)%Z
        with (grand_count tracks + Z.of_nat (length windows))%Z by lia.
      assert (Hd : IZR (grand_count tracks + Z.of_nat (length windows)) <> 0)
        by (apply not_0_IZR; lia).
      rewrite <- (Hm b Hb). field. exact Hd.
Qed.

Lemma profile_inv_tracks (w : Worker.t) (tracks : list (list Worker.state)) :
  forall done statistics,
  profile_inv w done statistics ->
  profile_inv w (done ++ tracks) (profile_tracks w statistics tracks).
Proof.
  unfold profile_tracks.
  induction tracks as [|windows tracks IH]; intros done statistics Hinv; simpl.
  - rewrite app_nil_r. exact Hinv.
  - replace (done ++ windows :: tracks) with ((done ++ [windows]) ++ tracks)
      by (rewrite <- app_assoc; reflexivity).
    apply IH, profile_inv_track, Hinv.
Qed.

(** C2.  Start from fresh statistics, run any number of profile sources
    [tracks] to their end, and gather the windows [last] of one more source.
    With [n = mTrackWindows] and [m = mTotalWindows] at that point,
    [FinishTrackStatistics] leaves [mTotalWindows = n + m],
    [mTrackWindows = 0] and zero sums; and, when there is a window at all,
    every band [b] has
    [mMeans[b] = (mMeans[b] * m + mSums[b]) / (n + m)] in terms of the values
    before, which is the grand mean: the sum of the powers of band [b] over
    all windows of all sources, divided by the number of windows. *)
Theorem FinishTrackStatistics_grand_mean (w : Worker.t) (rate : R) (windowTypes : Z)
    (tracks : list (list Worker.state)) (last : list Worker.state) (b : nat) :
  (b < Z.to_nat (Worker.mSpectrumSize w))%nat ->
  let fresh := Statistics.new (Worker.mSpectrumSize w) rate windowTypes in
  let before := gather_track w (profile_tracks w fresh tracks) last in
  let after := Worker.FinishTrackStatistics before in
  let n := Statistics.mTrackWindows before in
  let m := Statistics.mTotalWindows before in
  n = Z.of_nat (length last)
  /\ m = grand_count tracks
  /\ after = profile_tracks w fresh (tracks ++ [last])
  /\ Statistics.mTotalWindows after = (n + m)%Z
  /\ Statistics.mTrackWindows after = 0%Z
  /\ Statistics.mSums after !!! b = 0
  /\ ((n + m)%Z <> 0%Z ->
      Statistics.mMeans after !!! b
      = (Statistics.mMeans before !!! b * IZR m + Statistics.mSums before !!! b)
        / IZR (n + m)
      /\ Statistics.mMeans after !!! b
         = grand_sum (tracks ++ [last]) b / IZR (grand_count (tracks ++ [last]))).
Proof.
  intros Hb fresh before after n m.
  assert (Hinv : profile_inv w tracks (profile_tracks w fresh tracks)).
  { apply (profile_inv_tracks w tracks [] fresh), profile_inv_new. }
  assert (Hinv' : profile_inv w (tracks ++ [last]) after).
  { apply profile_inv_track, Hinv. }
  destruct Hinv as [Hsl Hml Ht Htot Hs Hm].
  destruct (gather_track_spec w last (profile_tracks w fresh tracks) ltac:(lia))
    as (Gt & Gtot & Gmeans & Gl & Gs).
  cbv zeta in *. fold before in Gt, Gtot, Gmeans, Gl, Gs.
  destruct (FinishTrackStatistics_spec before ltac:(rewrite Gl, Gmeans; lia))
    as (Ftot & Ft & Fsl & Fml & Fget).
  cbv zeta in *. fold after n m in Ftot, Ft, Fsl, Fml, Fget.
  assert (Hn : n = Z.of_nat (length last)) by (subst n; rewrite Gt, Ht; lia).
  assert (Hmm : m = grand_count tracks) by (subst m; rewrite Gtot; exact Htot).
  split; [exact Hn|]. split; [exact Hmm|]. split.
  { subst after before. unfold profile_tracks. rewrite foldl_app. reflexivity. }
  split; [exact Ftot|]. split; [exact Ft|]. split.
  { apply (pi_sums _ _ _ Hinv'), Hb. }
  intros Hnm. rewrite Gmeans, Hml in Fget. specialize (Fget b Hb).
  assert (Hc := grand_count_nonneg tracks).
  assert (Hcount : grand_count (tracks ++ [last]) = (n + m)%Z)
    by (rewrite grand_count_snoc; lia).
  assert (Hd : IZR (n + m) <> 0) by (apply not_0_IZR; exact Hnm).
  assert (Hgrand : Statistics.mMeans after !!! b
                   = grand_sum (tracks ++ [last]) b / IZR (grand_count (tracks ++ [last]))).
  { rewrite <- (pi_means _ _ _ Hinv' b Hb), Hcount. field. exact Hd. }
  split; [|exact Hgrand].
  destruct (decide (n = 0%Z)) as [Hz|Hz]; destruct Fget as [Fm Fs].
  - rewrite Fm. rewrite Gs, Hs by exact Hb.
    assert (last = []) as Hl by (destruct last; [reflexivity | simpl in Hn; lia]).
    rewrite Hl, track_sum_nil, Hz, Gmeans.
    replace (0 + m)%Z with m by lia.
    assert (IZR m <> 0) by (apply not_0_IZR; lia). field. assumption.
  - rewrite Gmeans. exact Fm.
Qed.

Lemma FinishTrackStatistics_grand_mean_witness :
  let w := Worker.new GetFFT_example settings_profile 44100 in
  let fresh := Statistics.new (Worker.mSpectrumSize w) 44100 WT_HANN_HANN in
  let st := Worker.new_state settings_profile 44100 in
  (0 < Z.to_nat (Worker.mSpectrumSize w))%nat
  /\ Statistics.mTotalWindows (Worker.FinishTrackStatistics (gather_track w fresh [st]))
     = 1%Z.
Proof.
  cbv zeta.
  assert (Hb : (0 < Z.to_nat (Worker.mSpectrumSize
                               (Worker.new GetFFT_example settings_profile 44100)))%nat)
    by (vm_compute; lia).
  split; [exact Hb|].
  destruct (FinishTrackStatistics_grand_mean
              (Worker.new GetFFT_example settings_profile 44100) 44100 WT_HANN_HANN
              [] [Worker.new_state settings_profile 44100] 0%nat Hb)
    as (Hn & Hm & _ & Htot & _).
  cbv zeta in Hn, Hm, Htot. rewrite Hn, Hm in Htot. exact Htot.
Defined.

(** ** The classifier *)

Lemma count_gt_cons t x l :
  count_gt t (x :: l) = ((if decide (t < x)%R then 1 else 0) + count_gt t l)%nat.
Proof. unfold count_gt. rewrite filter_cons. destruct (decide (t < x)); reflexivity. Qed.

Lemma count_gt_perm t l k : l ≡ₚ k -> count_gt t l = count_gt t k.
Proof. intros Hp. unfold count_gt. rewrite Hp. reflexivity. Qed.

Lemma count_gt_all t l : Forall (fun x => t < x) l -> count_gt t l = length l.
Proof.
  induction 1 as [|x l Hx _ IH]; [reflexivity|].
  rewrite count_gt_cons, IH. destruct (decide (t < x)); [reflexivity | contradiction].
Qed.

Lemma count_gt_none t l : Forall (fun x => x <= t) l -> count_gt t l = 0%nat.
Proof.
  induction 1 as [|x l Hx _ IH]; [reflexivity|].
  rewrite count_gt_cons, IH. destruct (decide (t < x)); [lra | reflexivity].
Qed.

(** The loop of the second-greatest method keeps the two greatest values
    seen: its second value is at most [t] exactly when at most one of the
    values seen, the initial pair included, is above [t]. *)
Lemma second_step_count (t : R) (l : list R) :
  forall g s, s <= g ->
  snd (foldl Worker.second_step (g, s) l) <= t <-> (count_gt t (g :: s :: l) <= 1)%nat.
Proof.
  induction l as [|x l IH]; intros g s Hsg.
  - simpl. rewrite !count_gt_cons. change (count_gt t []) with 0%nat.
    destruct (decide (t < g)), (decide (t < s)); split; intros; try lia; lra.
  - simpl foldl.
    rewrite (count_gt_cons t g), (count_gt_cons t s), (count_gt_cons t x).
    destruct (decide (x >= g)); [|destruct (decide (x >= s))].
    + rewrite IH by lra. rewrite (count_gt_cons t x), (count_gt_cons t g).
      destruct (decide (t < g)), (decide (t < s)), (decide (t < x));
        split; intros; try lia; lra.
    + rewrite IH by lra. rewrite (count_gt_cons t g), (count_gt_cons t x).
      destruct (decide (t < g)), (decide (t < s)), (decide (t < x));
        split; intros; try lia; lra.
    + rewrite IH by lra. rewrite (count_gt_cons t g), (count_gt_cons t s).
      destruct (decide (t < g)), (decide (t < s)), (decide (t < x));
        split; intros; try lia; lra.
Qed.

(** In a list sorted in descending order, the entry at index 1 is at most
    [t] exactly when at most one entry is above [t]. *)
Lemma sorted_second_count (t : R) (l : list R) :
  (2 <= length l)%nat -> Sorted Rge l ->
  l !!! 1%nat <= t <-> (count_gt t l <= 1)%nat.
Proof.
  intros Hlen Hs. apply Sorted_StronglySorted in Hs; [|intros x y z; apply Rge_trans].
  destruct l as [|a [|b rest]]; simpl in Hlen; try lia.
  change ((a :: b :: rest) !!! 1%nat) with b.
  apply StronglySorted_inv in Hs as [Hs Ha].
  apply StronglySorted_inv in Hs as [_ Hb].
  apply Forall_inv in Ha. rewrite !count_gt_cons. split.
  - intros Hbt. rewrite count_gt_none.
    + destruct (decide (t < a)), (decide (t < b)); try lia; lra.
    + eapply Forall_impl; [exact Hb|]. simpl. intros x Hx. lra.
  - intros Hc. destruct (decide (t < a)), (decide (t < b)); try lia; lra.
Qed.

(** C3.  With the second-greatest method, and non-negative powers in the
    [NExamine = 1 + StepsPerWindow] windows examined, [Classify] answers
    "noise" for a band exactly when the second-largest of these powers (the
    entry at index 1 when they are arranged in descending order) is at most
    the threshold [sensitivity * ln 10 * mMeans[band]], [sensitivity] being
    the configured value. *)
Theorem Classify_second_greatest (GetFFT : Z -> HFFT) (s : Settings.t) (rate : R)
    (statistics : Statistics.t) (q : list Worker.Record_) (band : nat)
    (sorted : list R) :
  Settings.well_defined s rate ->
  Settings.mMethod s = DM_SECOND_GREATEST ->
  let w := Worker.new GetFFT s rate in
  let NExamine := Z.to_nat (1 + Settings.StepsPerWindow s) in
  let powers := (fun i => Worker.mSpectrums (q !!! i) !!! band) <$> seq 0 NExamine in
  let threshold :=
    Settings.mNewSensitivity s * ln 10 * Statistics.mMeans statistics !!! band in
  Forall (fun power => 0 <= power) powers ->
  sorted ≡ₚ powers -> Sorted Rge sorted ->
  Worker.Classify w statistics q band = true <-> sorted !!! 1%nat <= threshold.
Proof.
  intros Hwd Hm w NExamine powers threshold Hpos Hperm Hsorted.
  destruct (StepsPerWindow_pow2 s (Settings.wd_steps _ _ Hwd)) as [_ HS].
  assert (HN : Worker.mNWindowsToExamine w = (1 + Settings.StepsPerWindow s)%Z)
    by apply (NWindowsToExamine_new s rate Hwd).
  assert (Hlen : length powers = NExamine)
    by (subst powers; rewrite length_fmap, length_seq; reflexivity).
  assert (Hlen2 : (2 <= length powers)%nat) by (rewrite Hlen; subst NExamine; lia).
  unfold Worker.Classify. rewrite HN. fold NExamine. fold powers.
  replace (Worker.mMethod w) with DM_SECOND_GREATEST by (symmetry; exact Hm).
  change (DM_SECOND_GREATEST =? DM_MEDIAN)%Z with false.
  change (DM_SECOND_GREATEST =? DM_SECOND_GREATEST)%Z with true. cbv iota.
  replace (Worker.mNewSensitivity w) with (Settings.mNewSensitivity s * ln 10)
    by (subst w; cbn [Worker.new Worker.mNewSensitivity]; do 2 f_equal; lra).
  fold threshold. rewrite bool_decide_eq_true.
  rewrite second_step_count by lra.
  rewrite sorted_second_count; [|rewrite Hperm; exact Hlen2 | exact Hsorted].
  rewrite (count_gt_perm _ _ _ Hperm), !count_gt_cons.
  destruct (decide (threshold < 0)) as [Hneg|Hnn]; [|tauto].
  rewrite count_gt_all; [lia|].
  eapply Forall_impl; [exact Hpos|]. simpl. intros x Hx. lra.
Qed.

Lemma Classify_second_greatest_witness :
  let w := Worker.new GetFFT_example settings_reduce 44100 in
  (Worker.Classify w statistics_example queue_example 0 = true
   <-> [20; 5; 4; 3; 2] !!! 1%nat
       <= Settings.mNewSensitivity settings_reduce * ln 10
          * Statistics.mMeans statistics_example !!! 0%nat)
  /\ Worker.Classify w statistics_example queue_example 0 = true.
Proof.
  cbv zeta.
  assert (Hiff :
    Worker.Classify (Worker.new GetFFT_example settings_reduce 44100)
      statistics_example queue_example 0 = true
    <-> [20; 5; 4; 3; 2] !!! 1%nat
        <= Settings.mNewSensitivity settings_reduce * ln 10
           * Statistics.mMeans statistics_example !!! 0%nat).
  { apply (Classify_second_greatest GetFFT_example settings_reduce 44100
             statistics_example queue_example 0%nat [20; 5; 4; 3; 2]
             settings_reduce_well_defined eq_refl).
    - change (Z.to_nat (1 + Settings.StepsPerWindow settings_reduce)) with 5%nat.
      repeat constructor; simpl; lra.
    - change (Z.to_nat (1 + Settings.StepsPerWindow settings_reduce)) with 5%nat.
      change ([20; 5; 4; 3; 2] ≡ₚ [3; 20; 4; 2; 5]).
      apply (Permutation_cons_app [3] [4; 2; 5] 20).
      apply (Permutation_cons_app [3; 4; 2] [] 5).
      apply (Permutation_cons_app [3] [2] 4).
      reflexivity.
    - repeat constructor; lra. }
  split; [exact Hiff|]. apply Hiff.
  change ([20; 5; 4; 3; 2] !!! 1%nat) with 5.
  change (Statistics.mMeans statistics_example !!! 0%nat) with 1.
  change (Settings.mNewSensitivity settings_reduce) with 6.
  pose proof ln_10_ge_1. lra.
Defined.

(** ** Frequency smoothing *)

Lemma Rsum_cons (x : R) (l : list R) : Rsum (x :: l) = x + Rsum l.
Proof. reflexivity. Qed.

Lemma Rsum_ext_seq (F G : nat -> R) (lo count : nat) :
  (forall j, (lo <= j < lo + count)%nat -> F j = G j) ->
  Rsum (F <$> seq lo count) = Rsum (G <$> seq lo count).
Proof.
  revert lo. induction count as [|count IH]; intros lo Hext; [reflexivity|].
  simpl seq. rewrite !fmap_cons, !Rsum_cons, (Hext lo) by lia.
  rewrite (IH (Datatypes.S lo)); [reflexivity|]. intros j Hj. apply Hext. lia.
Qed.

Lemma fmap_seqZ_to_nat (F : nat -> R) (count lo : nat) :
  (fun jj => F (Z.to_nat jj)) <$> seqZ (Z.of_nat lo) (Z.of_nat count)
  = F <$> seq lo count.
Proof.
  revert lo. induction count as [|count IH]; intros lo; [reflexivity|].
  rewrite seqZ_cons by lia. simpl seq. rewrite !fmap_cons, Nat2Z.id. f_equal.
  replace (Z.succ (Z.of_nat lo)) with (Z.of_nat (Datatypes.S lo)) by lia.
  replace (Z.pred (Z.of_nat (Datatypes.S count))) with (Z.of_nat count) by lia.
  apply IH.
Qed.

(** The inner loop of the smoothing adds the terms [a jj] to entry [ii]. *)
Lemma accumulate_at (ii : nat) (a : Z -> R) (js : list Z) :
  forall sc : list R, (ii < length sc)%nat ->
  foldl (fun sc jj => <[ii := sc !!! ii + a jj]> sc) sc js
  = <[ii := sc !!! ii + Rsum (a <$> js)]> sc.
Proof.
  induction js as [|j js IH]; intros sc Hii.
  - simpl. change (Rsum []) with 0. rewrite Rplus_0_r.
    symmetry. apply list_insert_id, list_lookup_lookup_total_lt, Hii.
  - simpl foldl. rewrite IH by (rewrite length_insert; exact Hii).
    rewrite list_lookup_total_insert_eq by exact Hii.
    rewrite list_insert_insert_eq, fmap_cons, Rsum_cons. f_equal. lra.
Qed.

Lemma to_int_small (z : Z) : (0 <= z < 2 ^ 31)%Z -> to_int z = z.
Proof.
  intros Hz. unfold to_int. change (2 ^ 31)%Z with 2147483648%Z in *.
  rewrite Z.mod_small; [lia|]. change (2 ^ 32)%Z with 4294967296%Z. lia.
Qed.

Lemma to_size_t_small (z : Z) : (0 <= z < 2 ^ 64)%Z -> to_size_t z = z.
Proof. intros Hz. unfold to_size_t. apply Z.mod_small, Hz. Qed.

Lemma smoothing_bounds (w : Worker.t) (i : nat) :
  (1 <= Worker.mSpectrumSize w < 2 ^ 31)%Z ->
  (0 <= Worker.mFreqSmoothingBins w < 2 ^ 31)%Z ->
  (i < Z.to_nat (Worker.mSpectrumSize w))%nat ->
  let n := Z.to_nat (Worker.mSpectrumSize w) in
  let B := Worker.mFreqSmoothingBins w in
  Z.max 0 (Z.of_nat i - to_int B) = Z.of_nat (smoothing_lo B i)
  /\ to_int (Z.min (to_size_t (Worker.mSpectrumSize w - 1))
                   (to_size_t (Z.of_nat i + B)))
     = Z.of_nat (smoothing_hi n B i)
  /\ (smoothing_lo B i <= i <= smoothing_hi n B i)%nat
  /\ (smoothing_hi n B i < n)%nat.
Proof.
  intros Hn HB Hi n B. fold B in HB.
  change (2 ^ 31)%Z with 2147483648%Z in *.
  rewrite (to_int_small B) by (change (2 ^ 31)%Z with 2147483648%Z; lia).
  rewrite !to_size_t_small
    by (change (2 ^ 64)%Z with 18446744073709551616%Z; lia).
  rewrite to_int_small by (change (2 ^ 31)%Z with 2147483648%Z; lia).
  unfold smoothing_lo, smoothing_hi. subst n. lia.
Qed.

Lemma ApplyFreqSmoothing_smooths (w : Worker.t) (scratch gains : list R) :
  let n := Z.to_nat (Worker.mSpectrumSize w) in
  let B := Worker.mFreqSmoothingBins w in
  (1 <= Worker.mSpectrumSize w < 2 ^ 31)%Z ->
  (0 < B < 2 ^ 31)%Z ->
  length gains = n -> length scratch = n ->
  let r := Worker.ApplyFreqSmoothing w scratch gains in
  length (fst r) = n /\ length (snd r) = n
  /\ forall i, (i < n)%nat ->
       fst r !!! i = mean_log gains (smoothing_lo B i) (smoothing_hi n B i)
       /\ snd r !!! i = exp (mean_log gains (smoothing_lo B i) (smoothing_hi n B i)).
Proof.
  intros n B Hn HB Hg Hsc r. subst r. unfold Worker.ApplyFreqSmoothing.
  fold B. destruct (Z.eqb_spec B 0) as [|_]; [lia|]. cbv zeta. fold n.
  (* the logarithms *)
  destruct (foldl_insert_pointwise (fun _ x => ln x) gains n ltac:(lia))
    as [Hllen Hlget].
  cbv zeta in Hllen, Hlget.
  set (logs := foldl (fun g ii => <[ii := ln (g !!! ii)]> g) gains (seq 0 n)) in *.
  (* the means of the logarithms *)
  set (step := fun (sc : list R) (ii : nat) => _).
  pose (f := fun (ii : nat) (x : R) =>
               (x + Rsum ((fun j => logs !!! j)
                            <$> seq (smoothing_lo B ii)
                                    (smoothing_hi n B ii - smoothing_lo B ii + 1)))
               / IZR (Z.of_nat (smoothing_hi n B ii - smoothing_lo B ii + 1))).
  assert (Hstep : forall u i, (i < n)%nat -> length u = length (fill 0 n 0 scratch) ->
                              step u i = <[i := f i (u !!! i)]> u).
  { intros u i Hi Hu. rewrite length_fill, Hsc in Hu. subst step f. cbv beta.
    destruct (smoothing_bounds w i Hn ltac:(fold B; lia) Hi) as (E0 & E1 & Hlo & Hhi).
    fold n B in E0, E1, Hlo, Hhi. rewrite E0, E1.
    replace (Z.of_nat (smoothing_hi n B i) - Z.of_nat (smoothing_lo B i) + 1)%Z
      with (Z.of_nat (smoothing_hi n B i - smoothing_lo B i + 1)) by lia.
    rewrite (accumulate_at i (fun jj => logs !!! Z.to_nat jj)) by lia.
    rewrite list_lookup_total_insert_eq by lia.
    rewrite list_insert_insert_eq.
    rewrite (fmap_seqZ_to_nat (fun j => logs !!! j)). reflexivity. }
  destruct (foldl_pointwise step f (fill 0 n 0 scratch) n
              ltac:(rewrite length_fill; lia) Hstep) as [Hslen Hsget].
  cbv zeta in Hslen, Hsget. rewrite length_fill in Hslen.
  set (scratch1 := foldl step (fill 0 n 0 scratch) (seq 0 n)) in *.
  (* the exponentials *)
  destruct (foldl_insert_pointwise (fun i _ => exp (scratch1 !!! i)) logs n ltac:(lia))
    as [Helen Heget].
  cbv zeta in Helen, Heget. simpl.
  split; [lia|]. split; [lia|]. intros i Hi.
  assert (Hmean : scratch1 !!! i
                  = mean_log gains (smoothing_lo B i) (smoothing_hi n B i)).
  { rewrite Hsget. destruct (decide (i < n)%nat); [|lia].
    rewrite lookup_total_fill.
    rewrite bool_decide_eq_true_2 by (rewrite Hsc; lia).
    subst f. cbv beta. unfold mean_log. rewrite Rplus_0_l, <- INR_IZR_INZ.
    destruct (smoothing_bounds w i Hn ltac:(fold B; lia) Hi) as (_ & _ & Hlo & Hhi).
    fold n B in Hlo, Hhi.
    f_equal. apply Rsum_ext_seq. intros j Hj. rewrite Hlget.
    destruct (decide (j < n)%nat); [reflexivity | lia]. }
  split; [exact Hmean|].
  rewrite Heget. destruct (decide (i < n)%nat); [|lia]. rewrite Hmean. reflexivity.
Qed.


Lemma mFreqSmoothingBins_new (GetFFT : Z -> HFFT) (s : Settings.t) (rate : R) :
  Settings.well_defined s rate ->
  let B := Worker.mFreqSmoothingBins (Worker.new GetFFT s rate) in
  B = Zfloor (Settings.mFreqSmoothingBands s) /\ (0 <= B < 2 ^ 31)%Z.
Proof.
  intros Hwd B. subst B. cbn [Worker.new Worker.mFreqSmoothingBins].
  destruct (Settings.wd_bands _ _ Hwd) as [H0 Hu].
  rewrite double_to_int_floor by exact H0.
  assert (Hf := Zfloor_range _ 2147483648 (conj H0 Hu)).
  change (2 ^ 31)%Z with 2147483648%Z.
  rewrite to_size_t_small by (change (2 ^ 64)%Z with 18446744073709551616%Z; lia).
  split; [reflexivity | exact Hf].
Qed.

Lemma mSpectrumSize_new (GetFFT : Z -> HFFT) (s : Settings.t) (rate : R) :
  Settings.well_defined s rate ->
  let n := Worker.mSpectrumSize (Worker.new GetFFT s rate) in
  n = (1 + Settings.WindowSize s / 2)%Z /\ (1 <= n < 2 ^ 31)%Z.
Proof.
  intros Hwd n. subst n. cbn [Worker.new Worker.mSpectrumSize].
  destruct (WindowSize_pow2 s ltac:(destruct (Settings.wd_size _ _ Hwd); lia)) as [_ HW].
  change (2 ^ 31)%Z with 2147483648%Z in *.
  split; [reflexivity|]. Z.to_euclidean_division_equations. lia.
Qed.


(** ** The queue: what the noise reduction leaves alone *)

Lemma foldl_preserves {A B : Type} (P : A -> Prop) (f : A -> B -> A) (l : list B) :
  forall a, P a -> (forall a b, P a -> P (f a b)) -> P (foldl f a l).
Proof.
  induction l as [|b l IH]; intros a Ha Hf; simpl; [exact Ha|].
  apply IH; [apply Hf, Ha | exact Hf].
Qed.

Lemma same_but_gains_refl q : same_but_gains q q.
Proof. reflexivity. Qed.

Lemma same_but_gains_trans q1 q2 q3 :
  same_but_gains q1 q2 -> same_but_gains q2 q3 -> same_but_gains q1 q3.
Proof. unfold same_but_gains. congruence. Qed.

Lemma same_but_gains_length q q' : same_but_gains q q' -> length q' = length q.
Proof. intros Hs. apply (f_equal length) in Hs. rewrite !length_fmap in Hs. exact Hs. Qed.



Lemma set_gains_same q i g : same_but_gains q (Worker.set_gains q i g).
Proof.
  unfold same_but_gains, Worker.set_gains. rewrite list_fmap_insert.
  apply list_insert_id'. intros Hi. rewrite length_fmap in Hi.
  rewrite list_lookup_fmap, (list_lookup_lookup_total_lt q i Hi). reflexivity.
Qed.

Lemma set_gain_same q i j x : same_but_gains q (Worker.set_gain q i j x).
Proof. apply set_gains_same. Qed.


Lemma ReduceNoise_raise_same w statistics q :
  same_but_gains q (Worker.ReduceNoise_raise w statistics q).
Proof.
  unfold Worker.ReduceNoise_raise.
  destruct (Worker.mNoiseReductionChoice w =? NRC_ISOLATE_NOISE)%Z; cbv zeta;
    apply (foldl_preserves (same_but_gains q));
    try (intros a b Ha; try destruct (negb _);
         try (eapply same_but_gains_trans; [exact Ha | apply set_gain_same]);
         exact Ha);
    (eapply same_but_gains_trans; [apply set_gains_same | apply set_gains_same]).
Qed.

Lemma attack_walk_same w count :
  forall ii jj q, same_but_gains q (Worker.attack_walk w count ii jj q).
Proof.
  induction count as [|count IH]; intros ii jj q; simpl; [apply same_but_gains_refl|].
  destruct (decide _); [|apply same_but_gains_refl].
  eapply same_but_gains_trans; [apply set_gain_same | apply IH].
Qed.

Lemma ReduceNoise_attack_same w q : same_but_gains q (Worker.ReduceNoise_attack w q).
Proof.
  unfold Worker.ReduceNoise_attack. apply (foldl_preserves (same_but_gains q)).
  - apply same_but_gains_refl.
  - intros a b Ha. eapply same_but_gains_trans; [exact Ha | apply attack_walk_same].
Qed.

Lemma ReduceNoise_release_same w q : same_but_gains q (Worker.ReduceNoise_release w q).
Proof.
  unfold Worker.ReduceNoise_release. apply (foldl_preserves (same_but_gains q)).
  - apply same_but_gains_refl.
  - intros a b Ha. eapply same_but_gains_trans; [exact Ha | apply set_gain_same].
Qed.

Lemma ReduceNoise_output_same w st outputTrack :
  same_but_gains (Worker.mQueue st)
    (Worker.mQueue (fst (Worker.ReduceNoise_output w st outputTrack))).
Proof.
  unfold Worker.ReduceNoise_output. cbv zeta.
  destruct (if (Worker.mNoiseReductionChoice w =? NRC_ISOLATE_NOISE)%Z then _ else _)
    as [scratch gains].
  simpl. apply set_gains_same.
Qed.

Lemma ReduceNoise_same w statistics st outputTrack :
  same_but_gains (Worker.mQueue st)
    (Worker.mQueue (fst (Worker.ReduceNoise w statistics st outputTrack))).
Proof.
  unfold Worker.ReduceNoise. cbv zeta.
  assert (Hq : same_but_gains (Worker.mQueue st)
                 (if (Worker.mNoiseReductionChoice w =? NRC_ISOLATE_NOISE)%Z
                  then Worker.ReduceNoise_raise w statistics (Worker.mQueue st)
                  else Worker.ReduceNoise_release w
                         (Worker.ReduceNoise_attack w
                            (Worker.ReduceNoise_raise w statistics (Worker.mQueue st))))).
  { destruct (Worker.mNoiseReductionChoice w =? NRC_ISOLATE_NOISE)%Z.
    - apply ReduceNoise_raise_same.
    - eapply same_but_gains_trans; [apply ReduceNoise_raise_same|].
      eapply same_but_gains_trans; [apply ReduceNoise_attack_same|].
      apply ReduceNoise_release_same. }
  destruct (_ >=? _)%Z.
  - eapply same_but_gains_trans; [exact Hq|].
    apply (ReduceNoise_output_same w (Worker.set_mQueue _ st)).
  - exact Hq.
Qed.

(** ** The spectrums *)

Lemma Forall_imap_preserves {A : Type} (P : A -> Prop) (f : nat -> A -> A) (l : list A) :
  (forall i x, P x -> P (f i x)) -> Forall P l -> Forall P (imap f l).
Proof.
  intros Hf Hl. apply Forall_lookup. intros i y Hy.
  apply list_lookup_imap_Some in Hy as (x & Hx & ->).
  apply Hf. eapply Forall_lookup_1; eassumption.
Qed.

Lemma Forall_fill (P : R -> Prop) (first last : nat) (x : R) (v : list R) :
  P x -> Forall P v -> Forall P (fill first last x v).
Proof.
  intros Hx Hv. unfold fill. apply Forall_imap_preserves; [|exact Hv].
  intros i y Hy. destruct (bool_decide _); assumption.
Qed.

Lemma spectrum_wf_strip n r : spectrum_wf n (strip r) <-> spectrum_wf n r.
Proof. split; intros [H1 H2 H3 H4]; constructor; assumption. Qed.

Lemma Forall_spectrum_wf_same n q q' :
  same_but_gains q q' -> Forall (spectrum_wf n) q -> Forall (spectrum_wf n) q'.
Proof.
  intros Hs Hq.
  assert (Hstrip : forall l, Forall (spectrum_wf n) (strip <$> l)
                             <-> Forall (spectrum_wf n) l).
  { intros l. rewrite Forall_fmap. apply Forall_proper; [|reflexivity].
    intros r. apply spectrum_wf_strip. }
  apply Hstrip. rewrite Hs. apply Hstrip, Hq.
Qed.

Lemma square_sum_nonneg (x y : R) : 0 <= x * x + y * y.
Proof. nra. Qed.

(** The loop over the bins [1 .. m] of [FillFirstHistoryWindow]. *)
Lemma fill_bins_spec (w : Worker.t) (buffer : list R) (n m : nat) (record : Worker.Record_) :
  spectrum_wf n record -> (m + 2 <= n)%nat ->
  let r := foldl (Worker.fill_bin w buffer) record (seq 1 m) in
  spectrum_wf n r
  /\ Worker.mGains r = Worker.mGains record
  /\ forall k, (1 <= k <= m)%nat ->
       Worker.mSpectrums r !!! k
       = Worker.mRealFFTs r !!! k * Worker.mRealFFTs r !!! k
         + Worker.mImagFFTs r !!! k * Worker.mImagFFTs r !!! k.
Proof.
  intros Hwf. induction m as [|m IH]; intros Hm; cbv zeta.
  - simpl. split; [exact Hwf|]. split; [reflexivity|]. intros k Hk. lia.
  - rewrite seq_S, foldl_app. simpl foldl.
    destruct (IH ltac:(lia)) as ([Hs Hr Hi Hnn] & Hg & Hget). cbv zeta in *.
    set (r := foldl (Worker.fill_bin w buffer) record (seq 1 m)) in *.
    unfold Worker.fill_bin. cbv zeta. cbn [Worker.mSpectrums Worker.mGains
      Worker.mRealFFTs Worker.mImagFFTs].
    split; [|split; [exact Hg|]].
    + constructor; cbn [Worker.mSpectrums Worker.mRealFFTs Worker.mImagFFTs];
        rewrite ?length_insert; try assumption.
      apply Forall_insert; [exact Hnn | apply square_sum_nonneg].
    + intros k Hk. destruct (decide (k = Datatypes.S m)) as [->|Hne].
      * rewrite !list_lookup_total_insert_eq by lia. reflexivity.
      * rewrite !list_lookup_total_insert_ne by lia. apply Hget. lia.
Qed.

Lemma FillFirstHistoryWindow_head (w : Worker.t) (st : Worker.state) :
  let n := Z.to_nat (Worker.mSpectrumSize w) in
  (2 <= n)%nat -> spectrums_inv w st ->
  let head := Worker.mQueue (Worker.FillFirstHistoryWindow w st) !!! 0%nat in
  spectrum_wf n head
  /\ (forall k, (1 <= k <= n - 2)%nat ->
        Worker.mSpectrums head !!! k
        = Worker.mRealFFTs head !!! k * Worker.mRealFFTs head !!! k
          + Worker.mImagFFTs head !!! k * Worker.mImagFFTs head !!! k)
  /\ Worker.mSpectrums head !!! 0%nat
     = Worker.mRealFFTs head !!! 0%nat * Worker.mRealFFTs head !!! 0%nat
  /\ Worker.mSpectrums head !!! (n - 1)%nat
     = Worker.mImagFFTs head !!! 0%nat * Worker.mImagFFTs head !!! 0%nat.
Proof.
  intros n Hn [Hlen Hq] head. subst head.
  unfold Worker.FillFirstHistoryWindow. cbv zeta. fold n.
  cbn [Worker.mQueue]. rewrite list_lookup_total_insert_eq by lia.
  set (buffer := RealFFTf (Worker.hFFT w) _).
  assert (Hhead : spectrum_wf n (Worker.mQueue st !!! 0%nat))
    by (apply Forall_lookup_total_1; [exact Hq | lia]).
  destruct (fill_bins_spec w buffer n (n - 1 - 1) _ Hhead ltac:(lia))
    as ([Hs Hr Hi Hnn] & Hg & Hget).
  cbv zeta in *.
  set (record1 := foldl (Worker.fill_bin w buffer) _ (seq 1 (n - 1 - 1))) in *.
  set (record2 := {| Worker.mSpectrums := _; Worker.mGains := Worker.mGains record1;
                     Worker.mRealFFTs := _; Worker.mImagFFTs := _ |}).
  assert (H2 : spectrum_wf n record2
               /\ (forall k, (1 <= k <= n - 2)%nat ->
                     Worker.mSpectrums record2 !!! k
                     = Worker.mRealFFTs record2 !!! k * Worker.mRealFFTs record2 !!! k
                       + Worker.mImagFFTs record2 !!! k * Worker.mImagFFTs record2 !!! k)
               /\ Worker.mSpectrums record2 !!! 0%nat
                  = Worker.mRealFFTs record2 !!! 0%nat * Worker.mRealFFTs record2 !!! 0%nat
               /\ Worker.mSpectrums record2 !!! (n - 1)%nat
                  = Worker.mImagFFTs record2 !!! 0%nat * Worker.mImagFFTs record2 !!! 0%nat).
  { subst record2. cbn [Worker.mSpectrums Worker.mRealFFTs Worker.mImagFFTs].
    split; [|split; [|split]].
    - constructor; cbn [Worker.mSpectrums Worker.mRealFFTs Worker.mImagFFTs];
        rewrite ?length_insert; try assumption.
      apply Forall_insert; [apply Forall_insert|]; try assumption; nra.
    - intros k Hk. rewrite !list_lookup_total_insert_ne by lia. apply Hget. lia.
    - rewrite list_lookup_total_insert_ne by lia.
      rewrite !list_lookup_total_insert_eq by lia. reflexivity.
    - rewrite !list_lookup_total_insert_eq by (rewrite ?length_insert; lia).
      reflexivity. }
  destruct (Worker.mNoiseReductionChoice w =? NRC_ISOLATE_NOISE)%Z; [exact H2|].
  destruct H2 as ([Hs2 Hr2 Hi2 Hnn2] & Hrest).
  split; [constructor; assumption | exact Hrest].
Qed.

Lemma HistoryLen_pos (s : Settings.t) (rate : R) :
  Settings.well_defined s rate -> (1 <= Worker.HistoryLen s rate)%Z.
Proof.
  intros Hwd. unfold Worker.HistoryLen.
  destruct (Settings.mDoProfile s); [lia|].
  rewrite (NWindowsToExamine_new s rate Hwd).
  destruct (StepsPerWindow_pow2 s (Settings.wd_steps _ _ Hwd)) as [_ HS]. lia.
Qed.

Lemma spectrums_inv_new (GetFFT : Z -> HFFT) (s : Settings.t) (rate : R) :
  Settings.well_defined s rate ->
  spectrums_inv (Worker.new GetFFT s rate) (Worker.new_state s rate).
Proof.
  intros Hwd. assert (HL := HistoryLen_pos s rate Hwd).
  unfold spectrums_inv, Worker.new_state.
  cbn [Worker.mQueue Worker.new Worker.mSpectrumSize].
  rewrite length_replicate. split; [lia|].
  apply Forall_replicate. unfold Worker.Record_new.
  constructor; cbn [Worker.mSpectrums Worker.mRealFFTs Worker.mImagFFTs];
    rewrite ?length_replicate; try lia.
  apply Forall_replicate. lra.
Qed.

Lemma spectrums_inv_StartNewTrack w st :
  spectrums_inv w st -> spectrums_inv w (Worker.StartNewTrack w st).
Proof.
  intros [Hlen Hq]. unfold spectrums_inv, Worker.StartNewTrack. cbv zeta.
  cbn [Worker.mQueue]. rewrite length_imap. split; [exact Hlen|].
  apply Forall_imap_preserves; [|exact Hq].
  intros i r [Hs Hr Hi Hnn]. destruct (bool_decide _); [|constructor; assumption].
  constructor; cbn [Worker.mSpectrums Worker.mRealFFTs Worker.mImagFFTs];
    rewrite ?length_fill; try assumption.
  apply Forall_fill; [lra | exact Hnn].
Qed.

Lemma FillFirstHistoryWindow_queue w st :
  (1 <= length (Worker.mQueue st))%nat ->
  Worker.mQueue (Worker.FillFirstHistoryWindow w st)
  = <[0%nat := Worker.mQueue (Worker.FillFirstHistoryWindow w st) !!! 0%nat]>
      (Worker.mQueue st).
Proof.
  intros Hlen. unfold Worker.FillFirstHistoryWindow. cbv zeta. cbn [Worker.mQueue].
  rewrite list_lookup_total_insert_eq by lia. reflexivity.
Qed.

Lemma spectrums_inv_FillFirstHistoryWindow w st :
  (2 <= Z.to_nat (Worker.mSpectrumSize w))%nat ->
  spectrums_inv w st -> spectrums_inv w (Worker.FillFirstHistoryWindow w st).
Proof.
  intros Hn Hinv. destruct (FillFirstHistoryWindow_head w st Hn Hinv) as [Hhead _].
  destruct Hinv as [Hlen Hq]. unfold spectrums_inv.
  rewrite FillFirstHistoryWindow_queue by exact Hlen.
  rewrite length_insert. split; [exact Hlen|].
  apply Forall_insert; assumption.
Qed.

Lemma spectrums_inv_RotateHistoryWindows w st :
  spectrums_inv w st -> spectrums_inv w (Worker.RotateHistoryWindows st).
Proof.
  intros [Hlen Hq]. unfold spectrums_inv, Worker.RotateHistoryWindows. cbv zeta.
  cbn [Worker.set_mQueue Worker.mQueue].
  rewrite length_app, length_drop, length_take. split; [lia|].
  apply Forall_app. split; [apply Forall_drop | apply Forall_take]; exact Hq.
Qed.

Lemma spectrums_inv_ReduceNoise w statistics st outputTrack :
  spectrums_inv w st ->
  spectrums_inv w (fst (Worker.ReduceNoise w statistics st outputTrack)).
Proof.
  intros [Hlen Hq]. assert (Hs := ReduceNoise_same w statistics st outputTrack).
  unfold spectrums_inv. rewrite (same_but_gains_length _ _ Hs).
  split; [exact Hlen|]. eapply Forall_spectrum_wf_same; eassumption.
Qed.

(** The invariant looks at the queue alone. *)
Lemma spectrums_inv_queue w st st' :
  Worker.mQueue st' = Worker.mQueue st -> spectrums_inv w st -> spectrums_inv w st'.
Proof. unfold spectrums_inv. intros ->. tauto. Qed.

Lemma spectrums_inv_ProcessSamples_body w statistics st outputTrack buffer :
  (2 <= Z.to_nat (Worker.mSpectrumSize w))%nat ->
  spectrums_inv w st ->
  spectrums_inv w
    (snd (fst (fst (Worker.ProcessSamples_body w (statistics, st, outputTrack, buffer))))).
Proof.
  intros Hn Hinv. unfold Worker.ProcessSamples_body. cbv zeta.
  set (st1 := {| Worker.mFFTBuffer := Worker.mFFTBuffer st;
                 Worker.mInWaveBuffer := _; Worker.mQueue := Worker.mQueue st |}).
  assert (H1 : spectrums_inv w st1) by (apply (spectrums_inv_queue w st); [reflexivity | exact Hinv]).
  destruct (Worker.mInWavePos st1 =? _)%Z; [|exact H1].
  assert (H2 := spectrums_inv_FillFirstHistoryWindow w st1 Hn H1).
  destruct (Worker.mDoProfile w).
  - simpl. eapply spectrums_inv_queue; [|apply spectrums_inv_RotateHistoryWindows, H2].
    reflexivity.
  - assert (H3 := spectrums_inv_ReduceNoise w statistics _ outputTrack H2).
    destruct (Worker.ReduceNoise w statistics _ outputTrack) as [st3 out3].
    simpl in *. eapply spectrums_inv_queue; [|apply spectrums_inv_RotateHistoryWindows, H3].
    reflexivity.
Qed.

Lemma spectrums_inv_reachable w st0 st :
  (2 <= Z.to_nat (Worker.mSpectrumSize w))%nat ->
  spectrums_inv w st0 -> Worker.reachable w st0 st -> spectrums_inv w st.
Proof.
  intros Hn H0. induction 1 as [|st _ IH|st k _ IH|st _ IH|st statistics out _ IH
                                |st _ IH|st statistics out buffer _ IH].
  - exact H0.
  - apply spectrums_inv_StartNewTrack, IH.
  - apply (spectrums_inv_queue w st); [reflexivity | exact IH].
  - apply spectrums_inv_FillFirstHistoryWindow; assumption.
  - apply spectrums_inv_ReduceNoise, IH.
  - apply spectrums_inv_RotateHistoryWindows, IH.
  - apply spectrums_inv_ProcessSamples_body; assumption.
Qed.

(** A run of [ProcessSamples] stays within the reachable states. *)
Lemma ProcessSamples_reachable w st0 (fuel : nat) :
  forall c c', Worker.ProcessSamples w fuel c = Some c' ->
  Worker.reachable w st0 (snd (fst (fst c))) ->
  Worker.reachable w st0 (snd (fst (fst c'))).
Proof.
  induction fuel as [|fuel IH]; intros c c' Hrun Hreach; simpl in Hrun.
  - destruct (Worker.ProcessSamples_test w c); [discriminate|].
    injection Hrun as <-. exact Hreach.
  - destruct (Worker.ProcessSamples_test w c).
    + apply (IH _ _ Hrun). destruct c as [[[statistics st] out] buffer].
      apply Worker.reach_ProcessSamples_body, Hreach.
    + injection Hrun as <-. exact Hreach.
Qed.

Lemma spectrum_size_ge_5 (GetFFT : Z -> HFFT) (s : Settings.t) (rate : R) :
  Settings.well_defined s rate ->
  (5 <= Z.to_nat (Worker.mSpectrumSize (Worker.new GetFFT s rate)))%nat.
Proof.
  intros Hwd. cbn [Worker.new Worker.mSpectrumSize].
  destruct (Settings.wd_size _ _ Hwd) as [H0 H1].
  destruct (WindowSize_pow2 s ltac:(lia)) as [HW _].
  assert (2 ^ 3 <= 2 ^ (3 + Settings.mWindowSizeChoice s))%Z
    by (apply Z.pow_le_mono_r; lia).
  change (2 ^ 3)%Z with 8%Z in *. rewrite HW.
  Z.to_euclidean_division_equations. lia.
Qed.

(** The loop over the bins [1 .. m] of [FillFirstHistoryWindow] stores
    the coefficients of the transformed buffer, found through the
    bit-reversal table. *)
Lemma fill_bins_parts (w : Worker.t) (buffer : list R) (n m : nat)
    (record : Worker.Record_) :
  spectrum_wf n record -> (m + 2 <= n)%nat ->
  let r := foldl (Worker.fill_bin w buffer) record (seq 1 m) in
  forall k, (1 <= k <= m)%nat ->
    Worker.mRealFFTs r !!! k
    = buffer !!! Z.to_nat (BitReversed (Worker.hFFT w) !!! k)
    /\ Worker.mImagFFTs r !!! k
       = buffer !!! (Z.to_nat (BitReversed (Worker.hFFT w) !!! k) + 1)%nat.
Proof.
  intros Hwf. induction m as [|m IH]; intros Hm; cbv zeta.
  - intros k Hk. lia.
  - rewrite seq_S, foldl_app. simpl foldl.
    destruct (fill_bins_spec w buffer n m record Hwf ltac:(lia))
      as ([Hs Hr Hi Hnn] & _ & _).
    specialize (IH ltac:(lia)). cbv zeta in *.
    set (r := foldl (Worker.fill_bin w buffer) record (seq 1 m)) in *.
    unfold Worker.fill_bin. cbv zeta.
    cbn [Worker.mSpectrums Worker.mGains Worker.mRealFFTs Worker.mImagFFTs].
    intros k Hk. destruct (decide (k = Datatypes.S m)) as [->|Hne].
    + rewrite !list_lookup_total_insert_eq by lia. split; reflexivity.
    + rewrite !list_lookup_total_insert_ne by lia. apply IH. lia.
Qed.

(** What [FillFirstHistoryWindow] transforms: the samples of the window
    buffer, each multiplied by the analysis window where there is one. *)
Lemma FillFirstHistoryWindow_buffer (w : Worker.t) (st : Worker.state) :
  Worker.mFFTBuffer (Worker.FillFirstHistoryWindow w st)
  = RealFFTf (Worker.hFFT w)
      (tabulate (Z.to_nat (Worker.mWindowSize w))
         (fun ii => Worker.mInWaveBuffer st !!! ii * analysis_factor w ii)).
Proof.
  unfold Worker.FillFirstHistoryWindow. cbv zeta. cbn [Worker.mFFTBuffer].
  f_equal. unfold analysis_factor. destruct (bool_decide _); [reflexivity|].
  unfold tabulate. apply list_fmap_ext. intros i x _. lra.
Qed.

(** The coefficients that [FillFirstHistoryWindow] stores in the head
    record, whatever the record held before. *)
Lemma FillFirstHistoryWindow_parts (w : Worker.t) (st : Worker.state) :
  let n := Z.to_nat (Worker.mSpectrumSize w) in
  (2 <= n)%nat -> spectrums_inv w st ->
  let st' := Worker.FillFirstHistoryWindow w st in
  let head := Worker.mQueue st' !!! 0%nat in
  let buffer := Worker.mFFTBuffer st' in
  (forall k, (1 <= k <= n - 2)%nat ->
     Worker.mRealFFTs head !!! k
     = buffer !!! Z.to_nat (BitReversed (Worker.hFFT w) !!! k)
     /\ Worker.mImagFFTs head !!! k
        = buffer !!! (Z.to_nat (BitReversed (Worker.hFFT w) !!! k) + 1)%nat)
  /\ Worker.mRealFFTs head !!! 0%nat = buffer !!! 0%nat
  /\ Worker.mImagFFTs head !!! 0%nat = buffer !!! 1%nat.
Proof.
  intros n Hn [Hlen Hq] st' head buffer. subst head buffer st'.
  unfold Worker.FillFirstHistoryWindow. cbv zeta. fold n.
  cbn [Worker.mQueue Worker.mFFTBuffer]. rewrite list_lookup_total_insert_eq by lia.
  set (buffer := RealFFTf (Worker.hFFT w) _).
  assert (Hhead : spectrum_wf n (Worker.mQueue st !!! 0%nat))
    by (apply Forall_lookup_total_1; [exact Hq | lia]).
  destruct (fill_bins_spec w buffer n (n - 1 - 1) _ Hhead ltac:(lia))
    as ([Hs Hr Hi Hnn] & _ & _).
  pose proof (fill_bins_parts w buffer n (n - 1 - 1) _ Hhead ltac:(lia)) as Hparts.
  cbv zeta in *.
  set (record1 := foldl (Worker.fill_bin w buffer) _ (seq 1 (n - 1 - 1))) in *.
  set (record2 := {| Worker.mSpectrums := _; Worker.mGains := Worker.mGains record1;
                     Worker.mRealFFTs := _; Worker.mImagFFTs := _ |}).
  assert (H2 : (forall k, (1 <= k <= n - 2)%nat ->
                  Worker.mRealFFTs record2 !!! k
                  = buffer !!! Z.to_nat (BitReversed (Worker.hFFT w) !!! k)
                  /\ Worker.mImagFFTs record2 !!! k
                     = buffer !!! (Z.to_nat (BitReversed (Worker.hFFT w) !!! k) + 1)%nat)
               /\ Worker.mRealFFTs record2 !!! 0%nat = buffer !!! 0%nat
               /\ Worker.mImagFFTs record2 !!! 0%nat = buffer !!! 1%nat).
  { subst record2. cbn [Worker.mSpectrums Worker.mRealFFTs Worker.mImagFFTs].
    split; [|split].
    - intros k Hk. rewrite !list_lookup_total_insert_ne by lia. apply Hparts. lia.
    - rewrite list_lookup_total_insert_eq by lia. reflexivity.
    - rewrite list_lookup_total_insert_eq by lia. reflexivity. }
  destruct (Worker.mNoiseReductionChoice w =? NRC_ISOLATE_NOISE)%Z; exact H2.
Qed.

(** C10.  In every state the worker reaches from its construction, in
    either mode, every power stored in the queue is non-negative: no
    member function, and no turn of the loop of [ProcessSamples], takes a
    queue of records of the constructor's sizes with non-negative powers
    to one that is not.  And whatever the queue holds before ([st] is any state whose records have
    the sizes of the constructor), right after
    [FillFirstHistoryWindow] the head record holds the transform of the
    windowed samples: with [real[k]] and [imag[k]] the entries of the
    transformed buffer that the bit-reversal table gives for bin [k],
    [spectrum[k] = real[k]^2 + imag[k]^2] for the bins
    [1 <= k <= SpectrumSize - 2], [spectrum[0] = real[0]^2] with
    [real[0]] the entry 0 of the buffer, and
    [spectrum[SpectrumSize - 1] = imag[0]^2] with [imag[0]] the entry 1;
    none of its powers is negative. *)
Theorem spectrums_nonneg (GetFFT : Z -> HFFT) (s : Settings.t) (rate : R) :
  Settings.well_defined s rate ->
  let w := Worker.new GetFFT s rate in
  let n := Z.to_nat (Worker.mSpectrumSize w) in
  (forall st, Worker.reachable w (Worker.new_state s rate) st ->
     Forall (fun record => Forall (fun power => 0 <= power) (Worker.mSpectrums record))
            (Worker.mQueue st))
  /\ (forall st0 st, spectrums_inv w st0 -> Worker.reachable w st0 st ->
      spectrums_inv w st)
  /\ (forall st, spectrums_inv w st ->
      let st' := Worker.FillFirstHistoryWindow w st in
      let head := Worker.mQueue st' !!! 0%nat in
      let buffer := Worker.mFFTBuffer st' in
      buffer
      = RealFFTf (Worker.hFFT w)
          (tabulate (Z.to_nat (Worker.mWindowSize w))
             (fun ii => Worker.mInWaveBuffer st !!! ii * analysis_factor w ii))
      /\ (forall k, (1 <= k <= n - 2)%nat ->
            Worker.mRealFFTs head !!! k
            = buffer !!! Z.to_nat (BitReversed (Worker.hFFT w) !!! k)
            /\ Worker.mImagFFTs head !!! k
               = buffer !!! (Z.to_nat (BitReversed (Worker.hFFT w) !!! k) + 1)%nat
            /\ Worker.mSpectrums head !!! k
               = Worker.mRealFFTs head !!! k ^ 2 + Worker.mImagFFTs head !!! k ^ 2)
      /\ Worker.mRealFFTs head !!! 0%nat = buffer !!! 0%nat
      /\ Worker.mImagFFTs head !!! 0%nat = buffer !!! 1%nat
      /\ Worker.mSpectrums head !!! 0%nat = Worker.mRealFFTs head !!! 0%nat ^ 2
      /\ Worker.mSpectrums head !!! (n - 1)%nat = Worker.mImagFFTs head !!! 0%nat ^ 2
      /\ Forall (fun power => 0 <= power) (Worker.mSpectrums head)).
Proof.
  intros Hwd w n.
  assert (Hn := spectrum_size_ge_5 GetFFT s rate Hwd). fold w n in Hn.
  split; [|split].
  - intros st Hreach.
    assert (Hinv : spectrums_inv w st).
    { apply (spectrums_inv_reachable w (Worker.new_state s rate)); [lia | | exact Hreach].
      apply spectrums_inv_new, Hwd. }
    destruct Hinv as [_ Hq]. eapply Forall_impl; [exact Hq|].
    intros r Hr. apply (sw_nonneg _ _ Hr).
  - intros st0 st Hinv Hreach.
    apply (spectrums_inv_reachable w st0); [lia | exact Hinv | exact Hreach].
  - intros st Hinv.
    destruct (FillFirstHistoryWindow_head w st ltac:(fold n; lia) Hinv)
      as (Hwf & Hk & H0 & Hl).
    destruct (FillFirstHistoryWindow_parts w st ltac:(fold n; lia) Hinv)
      as (Hparts & Hre0 & Him0).
    cbv zeta in *. fold n in Hk, Hl, Hparts.
    split; [apply FillFirstHistoryWindow_buffer|].
    split; [|split; [exact Hre0 | split; [exact Him0 | split; [|split]]]].
    + intros k Hkr. destruct (Hparts k Hkr) as [Hre Him].
      split; [exact Hre | split; [exact Him|]]. rewrite (Hk k Hkr). ring.
    + rewrite H0. ring.
    + rewrite Hl. ring.
    + apply (sw_nonneg _ _ Hwf).
Qed.

Lemma spectrums_nonneg_witness :
  let w := Worker.new GetFFT_example settings_profile_8 44100 in
  let head := Worker.mQueue (Worker.FillFirstHistoryWindow w state_example_8) !!! 0%nat in
  Worker.mSpectrums head !!! 1%nat = 3 ^ 2 + 4 ^ 2
  /\ Worker.mSpectrums head !!! 0%nat = 1 ^ 2
  /\ Worker.mSpectrums head !!! 4%nat = 2 ^ 2
  /\ Forall (fun power => 0 <= power) (Worker.mSpectrums head).
Proof.
  cbv zeta.
  destruct (spectrums_nonneg GetFFT_example settings_profile_8 44100
              settings_profile_8_well_defined) as (_ & _ & Hfill).
  assert (Hinv : spectrums_inv (Worker.new GetFFT_example settings_profile_8 44100)
                   state_example_8).
  { split; [simpl; lia|].
    change (Z.to_nat (Worker.mSpectrumSize
                        (Worker.new GetFFT_example settings_profile_8 44100)))
      with 5%nat.
    repeat constructor; simpl; lra. }
  destruct (Hfill state_example_8 Hinv)
    as (Hbuffer & Hbins & Hre0 & Him0 & Hdc & Hnyquist & Hnn).
  set (w := Worker.new GetFFT_example settings_profile_8 44100) in *.
  set (st' := Worker.FillFirstHistoryWindow w state_example_8) in *.
  assert (Hwindow : Worker.mInWindow w = []) by reflexivity.
  assert (Hentry : forall i, (i < 8)%nat ->
            Worker.mFFTBuffer st' !!! i = [1; 2; 3; 4; 5; 6; 7; 8] !!! i).
  { intros i Hi. rewrite Hbuffer.
    change (RealFFTf (Worker.hFFT w)) with (fun buffer : list R => buffer).
    change (Z.to_nat (Worker.mWindowSize w)) with 8%nat. cbv beta.
    rewrite lookup_total_tabulate by exact Hi.
    unfold analysis_factor. rewrite Hwindow.
    change (bool_decide (0 < length (@nil R))%nat) with false. cbv iota.
    change (Worker.mInWaveBuffer state_example_8) with [1; 2; 3; 4; 5; 6; 7; 8]. lra. }
  change (Z.to_nat (Worker.mSpectrumSize w)) with 5%nat in Hbins, Hnyquist.
  change (5 - 1)%nat with 4%nat in Hnyquist.
  destruct (Hbins 1%nat ltac:(simpl; lia)) as (Hre & Him & Hpower).
  change (Z.to_nat (BitReversed (Worker.hFFT w) !!! 1%nat)) with 2%nat in Hre, Him.
  change (2 + 1)%nat with 3%nat in Him.
  rewrite (Hentry 2%nat) in Hre by lia. rewrite (Hentry 3%nat) in Him by (simpl; lia).
  rewrite (Hentry 0%nat) in Hre0 by lia. rewrite (Hentry 1%nat) in Him0 by lia.
  split; [rewrite Hpower, Hre, Him; reflexivity|].
  split; [rewrite Hdc, Hre0; reflexivity|].
  split; [rewrite Hnyquist, Him0; reflexivity | exact Hnn].
Defined.

(** ** The gains, band by band *)

Lemma std_max_Rmax (a b : R) : std_max a b = Rmax a b.
Proof. unfold std_max, Rmax. destruct (decide (a < b)), (Rle_dec a b); lra. Qed.





Lemma gains_wf_set_gains n q i g :
  gains_wf n q -> length g = n -> gains_wf n (Worker.set_gains q i g).
Proof. intros Hwf Hg. unfold Worker.set_gains. apply Forall_insert; assumption. Qed.




(** ** Temporal shaping: attack and release *)








(** ** The gains stay between the attenuation factor and 1 *)

Lemma exp_le (x y : R) : x <= y -> exp x <= exp y.
Proof. intros [Hlt | ->]; [left; apply exp_increasing, Hlt | right; reflexivity]. Qed.

Lemma ln_le (x y : R) : 0 < x -> x <= y -> ln x <= ln y.
Proof. intros Hx [Hlt | ->]; [left; apply ln_increasing; assumption | right; reflexivity]. Qed.

Lemma Rsum_bounds (F : nat -> R) (lb ub : R) (count : nat) :
  forall lo, (forall j, (lo <= j < lo + count)%nat -> lb <= F j <= ub) ->
  INR count * lb <= Rsum (F <$> seq lo count) <= INR count * ub.
Proof.
  induction count as [|count IH]; intros lo HF.
  - simpl. change (Rsum []) with 0. lra.
  - rewrite S_INR. simpl seq. rewrite fmap_cons, Rsum_cons.
    assert (H0 := HF lo ltac:(lia)).
    assert (H1 := IH (Datatypes.S lo) ltac:(intros j Hj; apply HF; lia)). lra.
Qed.

Lemma fill_bins_gains (w : Worker.t) (buffer : list R) (bins : list nat)
    (record : Worker.Record_) :
  Worker.mGains (foldl (Worker.fill_bin w buffer) record bins) = Worker.mGains record.
Proof.
  apply (foldl_preserves (fun r => Worker.mGains r = Worker.mGains record));
    [reflexivity|].
  intros r ii Hr. exact Hr.
Qed.

Section GainsInvariant.

Variable w : Worker.t.

Local Abbreviation nbins := (Z.to_nat (Worker.mSpectrumSize w)).
Local Abbreviation atten := (Worker.mNoiseAttenFactor w).

Hypothesis atten_range : 0 < atten <= 1.
Hypothesis attack_range : 0 <= Worker.mOneBlockAttack w <= 1.
Hypothesis release_range : 0 <= Worker.mOneBlockRelease w <= 1.
Hypothesis size_range : (1 <= Worker.mSpectrumSize w < 2 ^ 31)%Z.
Hypothesis bins_range : (0 <= Worker.mFreqSmoothingBins w < 2 ^ 31)%Z.
Hypothesis history_pos : (1 <= Worker.mHistoryLen w)%Z.
Hypothesis not_isolate : Worker.mNoiseReductionChoice w <> NRC_ISOLATE_NOISE.

Lemma gains_ok_fill first last x g :
  atten <= x <= 1 -> gains_ok w g -> gains_ok w (fill first last x g).
Proof.
  intros Hx [Hl Hg]. split; [rewrite length_fill; exact Hl|].
  apply Forall_fill; assumption.
Qed.

Lemma gains_ok_insert j x g :
  atten <= x <= 1 -> gains_ok w g -> gains_ok w (<[j := x]> g).
Proof.
  intros Hx [Hl Hg]. split; [rewrite length_insert; exact Hl|].
  apply Forall_insert; assumption.
Qed.

Lemma records_ok_set_gains q i (f : list R -> list R) :
  (forall g, gains_ok w g -> gains_ok w (f g)) ->
  records_ok w q -> records_ok w (Worker.set_gains q i (f (Worker.mGains (q !!! i)))).
Proof.
  intros Hf Hq. unfold Worker.set_gains.
  destruct (decide (i < length q)%nat) as [Hi|Hi].
  - apply Forall_insert; [exact Hq|]. cbn [Worker.set_mGains Worker.mGains].
    apply Hf.
    apply (Forall_lookup_total_1 (fun record => gains_ok w (Worker.mGains record))
             q i Hq Hi).
  - rewrite list_insert_ge by lia. exact Hq.
Qed.

Lemma records_ok_set_gain q i j x :
  atten <= x <= 1 -> records_ok w q -> records_ok w (Worker.set_gain q i j x).
Proof.
  intros Hx Hq. unfold Worker.set_gain.
  apply (records_ok_set_gains q i (fun g => <[j := x]> g)); [|exact Hq].
  intros g. apply gains_ok_insert, Hx.
Qed.

(** Any gain read from the queue, within its bounds or not, is between 0
    and 1. *)
Lemma gain_bounds q i j : records_ok w q -> 0 <= Worker.gain q i j <= 1.
Proof.
  intros Hq. unfold Worker.gain. rewrite (list_lookup_total_alt q i).
  destruct (q !! i) as [record|] eqn:Hi; simpl.
  - destruct (Forall_lookup_1 _ _ _ _ Hq Hi) as [_ Hg].
    rewrite list_lookup_total_alt.
    destruct (Worker.mGains record !! j) as [x|] eqn:Hj; simpl.
    + assert (Hx := Forall_lookup_1 _ _ _ _ Hg Hj). simpl in Hx. lra.
    + lra.
  - change (0 <= 0 <= 1). lra.
Qed.

Lemma decay_range (x m : R) :
  0 <= x <= 1 -> 0 <= m <= 1 -> atten <= std_max atten (x * m) <= 1.
Proof.
  intros Hx Hm. rewrite std_max_Rmax. split.
  - apply Rmax_l.
  - apply Rmax_lub; [lra | nra].
Qed.

Lemma records_ok_raise statistics q :
  records_ok w q -> records_ok w (Worker.ReduceNoise_raise w statistics q).
Proof.
  intros Hq. unfold Worker.ReduceNoise_raise. cbv zeta.
  destruct (Z.eqb_spec (Worker.mNoiseReductionChoice w) NRC_ISOLATE_NOISE);
    [contradiction|].
  apply (foldl_preserves (records_ok w)).
  - apply (records_ok_set_gains _ _ (fill _ _ 1.0)); [intros g; apply gains_ok_fill; lra|].
    apply (records_ok_set_gains _ _ (fill _ _ 1.0)); [intros g; apply gains_ok_fill; lra|].
    exact Hq.
  - intros q0 jj Hq0. destruct (negb _); [|exact Hq0].
    apply records_ok_set_gain; [lra | exact Hq0].
Qed.

Lemma records_ok_attack_walk count :
  forall ii jj q, records_ok w q -> records_ok w (Worker.attack_walk w count ii jj q).
Proof.
  induction count as [|count IH]; intros ii jj q Hq; simpl; [exact Hq|].
  destruct (decide _); [|exact Hq].
  apply IH, records_ok_set_gain; [|exact Hq].
  apply decay_range; [apply gain_bounds, Hq | exact attack_range].
Qed.

Lemma records_ok_attack q :
  records_ok w q -> records_ok w (Worker.ReduceNoise_attack w q).
Proof.
  intros Hq. unfold Worker.ReduceNoise_attack. cbv zeta.
  apply (foldl_preserves (records_ok w)); [exact Hq|].
  intros q0 jj Hq0. apply records_ok_attack_walk, Hq0.
Qed.

Lemma records_ok_release q :
  records_ok w q -> records_ok w (Worker.ReduceNoise_release w q).
Proof.
  intros Hq. unfold Worker.ReduceNoise_release. cbv zeta.
  apply (foldl_preserves (records_ok w)); [exact Hq|].
  intros q0 jj Hq0.
  assert (Hd := decay_range _ _ (gain_bounds q0 (Z.to_nat (Worker.mCenter w)) jj Hq0)
                  release_range).
  set (d := std_max atten _) in *.
  destruct (decide (Z.to_nat (Worker.mCenter w) - 1 < length q0)%nat) as [Hi|Hi].
  - unfold Worker.set_gain.
    apply (records_ok_set_gains q0 _ (fun g => <[jj := _]> g)); [|exact Hq0].
    intros g Hg. destruct (decide (jj < length g)%nat) as [Hj|Hj].
    + apply gains_ok_insert; [|exact Hg]. rewrite std_max_Rmax. split.
      * eapply Rle_trans; [apply Hd | apply Rmax_r].
      * apply Rmax_lub; [apply gain_bounds, Hq0 | apply Hd].
    + rewrite list_insert_ge by lia. exact Hg.
  - unfold Worker.set_gain, Worker.set_gains. rewrite list_insert_ge by lia. exact Hq0.
Qed.

Lemma mean_log_bounds (g : list R) (lo hi : nat) :
  gains_ok w g -> (lo <= hi < nbins)%nat -> ln atten <= mean_log g lo hi <= 0.
Proof.
  intros [Hl Hg] Hr. unfold mean_log.
  assert (Hb : forall j, (lo <= j < lo + (hi - lo + 1))%nat ->
                         ln atten <= ln (g !!! j) <= 0).
  { intros j Hj.
    assert (Hx := Forall_lookup_total_1 (fun x => atten <= x <= 1) g j Hg ltac:(lia)).
    simpl in Hx.
    split; [apply ln_le; lra|]. rewrite <- ln_1. apply ln_le; lra. }
  assert (Hs := Rsum_bounds (fun j => ln (g !!! j)) (ln atten) 0 (hi - lo + 1) lo Hb).
  assert (Hc : 0 < INR (hi - lo + 1)) by (apply lt_0_INR; lia).
  set (c := INR (hi - lo + 1)) in *. set (s := Rsum _) in *.
  assert (Hinv : 0 < / c) by (apply Rinv_0_lt_compat, Hc).
  unfold Rdiv. split.
  - replace (ln atten) with (c * ln atten * / c) by (field; lra).
    apply Rmult_le_compat_r; lra.
  - replace 0 with (c * 0 * / c) by (field; lra).
    apply Rmult_le_compat_r; lra.
Qed.

Lemma ApplyFreqSmoothing_range (scratch g : list R) :
  length scratch = nbins -> gains_ok w g ->
  length (fst (Worker.ApplyFreqSmoothing w scratch g)) = nbins
  /\ gains_ok w (snd (Worker.ApplyFreqSmoothing w scratch g)).
Proof.
  intros Hsc Hg. destruct (Z.eq_dec (Worker.mFreqSmoothingBins w) 0%Z) as [H0|H0].
  - unfold Worker.ApplyFreqSmoothing. rewrite H0. simpl. split; assumption.
  - destruct (ApplyFreqSmoothing_smooths w scratch g size_range ltac:(lia)
                (proj1 Hg) Hsc) as (Hl1 & Hl2 & Hget).
    fold nbins in Hl1, Hl2, Hget. split; [exact Hl1|]. split; [exact Hl2|].
    apply (@Forall_lookup_total_2 R _ R_inhabited). intros i Hi. rewrite Hl2 in Hi.
    destruct (Hget i Hi) as [_ ->].
    destruct (smoothing_bounds w i size_range bins_range Hi) as (_ & _ & Hlo & Hhi).
    fold nbins in Hlo, Hhi.
    destruct (mean_log_bounds g _ _ Hg (conj (Nat.le_trans _ _ _ (proj1 Hlo) (proj2 Hlo)) Hhi))
      as [Hm0 Hm1].
    split.
    + rewrite <- (exp_ln atten) at 1 by lra. apply exp_le, Hm0.
    + rewrite <- exp_0. apply exp_le, Hm1.
Qed.

Lemma gains_inv_ReduceNoise_output st outputTrack :
  gains_inv w st -> gains_inv w (fst (Worker.ReduceNoise_output w st outputTrack)).
Proof.
  intros (Hlen & Hsc & Hq). unfold Worker.ReduceNoise_output. cbv zeta.
  destruct (Z.eqb_spec (Worker.mNoiseReductionChoice w) NRC_ISOLATE_NOISE);
    [contradiction|].
  set (i := (Z.to_nat (Worker.mHistoryLen w) - 1)%nat).
  assert (Hi : (i < length (Worker.mQueue st))%nat) by (subst i; lia).
  assert (Hg := Forall_lookup_total_1
                  (fun record => gains_ok w (Worker.mGains record)) _ i Hq Hi).
  simpl in Hg.
  destruct (ApplyFreqSmoothing_range (Worker.mFreqSmoothingScratch st) _ Hsc Hg)
    as [Hs' Hg'].
  destruct (Worker.ApplyFreqSmoothing w _ _) as [scratch gains]. simpl in *.
  unfold gains_inv. simpl. unfold Worker.set_gains. rewrite length_insert.
  split; [exact Hlen|]. split; [exact Hs'|].
  apply Forall_insert; [exact Hq | exact Hg'].
Qed.

Lemma gains_inv_ReduceNoise statistics st outputTrack :
  gains_inv w st -> gains_inv w (fst (Worker.ReduceNoise w statistics st outputTrack)).
Proof.
  intros (Hlen & Hsc & Hq). unfold Worker.ReduceNoise. cbv zeta.
  destruct (Z.eqb_spec (Worker.mNoiseReductionChoice w) NRC_ISOLATE_NOISE);
    [contradiction|].
  set (q2 := Worker.ReduceNoise_release w _).
  assert (Hs2 : same_but_gains (Worker.mQueue st) q2).
  { eapply same_but_gains_trans; [apply ReduceNoise_raise_same|].
    eapply same_but_gains_trans; [apply ReduceNoise_attack_same|].
    apply ReduceNoise_release_same. }
  assert (Hq2 : records_ok w q2)
    by (apply records_ok_release, records_ok_attack, records_ok_raise, Hq).
  assert (H2 : gains_inv w (Worker.set_mQueue q2 st)).
  { unfold gains_inv. simpl. rewrite (same_but_gains_length _ _ Hs2).
    split; [exact Hlen|]. split; [exact Hsc | exact Hq2]. }
  destruct (_ >=? _)%Z; [|exact H2].
  apply gains_inv_ReduceNoise_output, H2.
Qed.

Lemma gains_inv_shape st : gains_inv w st -> shape_inv w st.
Proof.
  intros (Hlen & Hsc & Hq). split; [exact Hlen|]. split; [exact Hsc|].
  eapply Forall_impl; [exact Hq|]. intros record [Hl _]. exact Hl.
Qed.

Lemma gains_inv_StartNewTrack st :
  shape_inv w st -> gains_inv w (Worker.StartNewTrack w st).
Proof.
  intros (Hlen & Hsc & Hq). unfold gains_inv, Worker.StartNewTrack. cbv zeta.
  cbn [Worker.mQueue Worker.mFreqSmoothingScratch]. rewrite length_imap.
  split; [exact Hlen|]. split; [exact Hsc|].
  apply Forall_lookup. intros i record Hi.
  apply list_lookup_imap_Some in Hi as (record0 & Hi0 & ->).
  assert (Hl0 := Forall_lookup_1 _ _ _ _ Hq Hi0). simpl in Hl0.
  apply lookup_lt_Some in Hi0.
  rewrite bool_decide_eq_true_2 by lia. cbn [Worker.mGains].
  split; [rewrite length_fill; exact Hl0|].
  apply (@Forall_lookup_total_2 R _ R_inhabited). intros j Hj. rewrite length_fill in Hj.
  rewrite lookup_total_fill, bool_decide_eq_true_2 by (fold nbins; lia).
  fold atten. lra.
Qed.

Lemma gains_inv_FillFirstHistoryWindow st :
  gains_inv w st -> gains_inv w (Worker.FillFirstHistoryWindow w st).
Proof.
  intros (Hlen & Hsc & Hq). unfold gains_inv, Worker.FillFirstHistoryWindow. cbv zeta.
  cbn [Worker.mQueue Worker.mFreqSmoothingScratch]. rewrite length_insert.
  split; [exact Hlen|]. split; [exact Hsc|].
  destruct (Z.eqb_spec (Worker.mNoiseReductionChoice w) NRC_ISOLATE_NOISE);
    [contradiction|].
  apply Forall_insert; [exact Hq|]. cbn [Worker.set_mGains Worker.mGains].
  rewrite fill_bins_gains.
  apply gains_ok_fill; [fold atten; lra|].
  apply (Forall_lookup_total_1 (fun record => gains_ok w (Worker.mGains record))
           _ 0%nat Hq). lia.
Qed.

End GainsInvariant.

Lemma gains_inv_queue w st st' :
  Worker.mQueue st' = Worker.mQueue st ->
  Worker.mFreqSmoothingScratch st' = Worker.mFreqSmoothingScratch st ->
  gains_inv w st -> gains_inv w st'.
Proof. unfold gains_inv. intros -> ->. tauto. Qed.

Lemma gains_inv_RotateHistoryWindows w st :
  gains_inv w st -> gains_inv w (Worker.RotateHistoryWindows st).
Proof.
  intros (Hlen & Hsc & Hq). unfold gains_inv, Worker.RotateHistoryWindows.
  cbn [Worker.set_mQueue Worker.mQueue Worker.mFreqSmoothingScratch].
  rewrite length_app, length_drop, length_take.
  split; [lia|]. split; [exact Hsc|].
  apply Forall_app. split; [apply Forall_drop | apply Forall_take]; exact Hq.
Qed.

Lemma gains_inv_ProcessSamples_body w statistics st outputTrack buffer :
  worker_ok w -> gains_inv w st ->
  gains_inv w
    (snd (fst (fst (Worker.ProcessSamples_body w (statistics, st, outputTrack, buffer))))).
Proof.
  intros [Ha Hat Hr Hs Hb Hh Hm] Hinv. unfold Worker.ProcessSamples_body. cbv zeta.
  set (st1 := {| Worker.mFFTBuffer := Worker.mFFTBuffer st;
                 Worker.mInWaveBuffer := _; Worker.mQueue := Worker.mQueue st |}).
  assert (H1 : gains_inv w st1)
    by (apply (gains_inv_queue w st); [reflexivity | reflexivity | exact Hinv]).
  destruct (Worker.mInWavePos st1 =? _)%Z; [|exact H1].
  assert (H2 : gains_inv w (Worker.FillFirstHistoryWindow w st1))
    by (apply gains_inv_FillFirstHistoryWindow; assumption).
  destruct (Worker.mDoProfile w).
  - simpl. eapply gains_inv_queue; [| |apply gains_inv_RotateHistoryWindows, H2];
      reflexivity.
  - assert (H3 : gains_inv w (fst (Worker.ReduceNoise w statistics
                                     (Worker.FillFirstHistoryWindow w st1) outputTrack)))
      by (apply gains_inv_ReduceNoise; assumption).
    destruct (Worker.ReduceNoise w statistics _ outputTrack) as [st3 out3].
    simpl in *.
    eapply gains_inv_queue; [| |apply gains_inv_RotateHistoryWindows, H3]; reflexivity.
Qed.

Lemma gains_inv_reachable w st0 st :
  worker_ok w -> gains_inv w st0 -> Worker.reachable w st0 st -> gains_inv w st.
Proof.
  intros Hok H0. assert (Hok' := Hok). destruct Hok' as [Ha Hat Hr Hs Hb Hh Hm].
  induction 1 as [|st _ IH|st k _ IH|st _ IH|st statistics out _ IH
                  |st _ IH|st statistics out buffer _ IH].
  - exact H0.
  - apply gains_inv_StartNewTrack; try assumption. apply gains_inv_shape, IH.
  - apply (gains_inv_queue w st); [reflexivity | reflexivity | exact IH].
  - apply gains_inv_FillFirstHistoryWindow; assumption.
  - apply gains_inv_ReduceNoise; assumption.
  - apply gains_inv_RotateHistoryWindows, IH.
  - apply gains_inv_ProcessSamples_body; assumption.
Qed.

Lemma shape_inv_new (GetFFT : Z -> HFFT) (s : Settings.t) (rate : R) :
  Settings.well_defined s rate ->
  shape_inv (Worker.new GetFFT s rate) (Worker.new_state s rate).
Proof.
  intros Hwd. unfold shape_inv, Worker.new_state.
  cbn [Worker.mQueue Worker.mFreqSmoothingScratch Worker.new Worker.mSpectrumSize
         Worker.mHistoryLen].
  rewrite !length_replicate. split; [reflexivity|]. split; [reflexivity|].
  apply Forall_replicate. unfold Worker.Record_new. cbn [Worker.mGains].
  apply length_replicate.
Qed.

Lemma worker_ok_new (GetFFT : Z -> HFFT) (s : Settings.t) (rate : R) :
  Settings.well_defined s rate -> Settings.Validate s = true ->
  Settings.mNoiseReductionChoice s <> NRC_ISOLATE_NOISE ->
  0 < Worker.mNoiseAttenFactor (Worker.new GetFFT s rate) <= 1 ->
  worker_ok (Worker.new GetFFT s rate).
Proof.
  intros Hwd Hv Hmode Hatten.
  assert (HG : 0 <= Settings.mNoiseGain s).
  { destruct Hatten as [_ Hle]. cbn [Worker.new Worker.mNoiseAttenFactor] in Hle.
    apply DB_TO_LINEAR_le_1_inv in Hle. unfold Worker.noiseGain in Hle. lra. }
  assert (Hdecay : forall blocks : Z, (1 <= blocks)%Z ->
            0 <= DB_TO_LINEAR (Worker.noiseGain s / IZR blocks) <= 1).
  { intros blocks Hb. split; [left; apply DB_TO_LINEAR_pos|].
    apply DB_TO_LINEAR_le_1. unfold Worker.noiseGain. apply IZR_le in Hb.
    assert (0 < / IZR blocks) by (apply Rinv_0_lt_compat; lra).
    unfold Rdiv. nra. }
  constructor.
  - exact Hatten.
  - cbn [Worker.new Worker.mOneBlockAttack].
    apply Hdecay, (nAttackBlocks_floor s rate Hwd Hv).
  - cbn [Worker.new Worker.mOneBlockRelease].
    apply Hdecay, (nReleaseBlocks_ge_1 s rate Hwd Hv).
  - apply (mSpectrumSize_new GetFFT s rate Hwd).
  - apply (mFreqSmoothingBins_new GetFFT s rate Hwd).
  - cbn [Worker.new Worker.mHistoryLen]. apply HistoryLen_pos, Hwd.
  - exact Hmode.
Qed.

(** C1.  Take a validated configuration that does not isolate the noise
    (reduce mode, and residue mode alike) and whose attenuation factor
    satisfies [0 < mNoiseAttenFactor <= 1].  From [StartNewTrack] on, after
    every step of the worker (the gain initialization of
    [FillFirstHistoryWindow], the classifier raise, attack, release and
    frequency smoothing of [ReduceNoise], the rotation of the queue, every
    turn of the loop of [ProcessSamples]), every gain of every record of
    the queue lies in [[mNoiseAttenFactor, 1]]. *)
Theorem gains_in_range (GetFFT : Z -> HFFT) (s : Settings.t) (rate : R)
    (st : Worker.state) :
  Settings.well_defined s rate -> Settings.Validate s = true ->
  Settings.mNoiseReductionChoice s <> NRC_ISOLATE_NOISE ->
  let w := Worker.new GetFFT s rate in
  0 < Worker.mNoiseAttenFactor w <= 1 ->
  Worker.reachable w (Worker.StartNewTrack w (Worker.new_state s rate)) st ->
  Forall (fun record =>
            Forall (fun gain => Worker.mNoiseAttenFactor w <= gain <= 1)
                   (Worker.mGains record))
         (Worker.mQueue st).
Proof.
  intros Hwd Hv Hmode w Hatten Hreach.
  assert (Hok : worker_ok w) by (apply worker_ok_new; assumption).
  assert (H0 : gains_inv w (Worker.StartNewTrack w (Worker.new_state s rate))).
  { destruct Hok. apply gains_inv_StartNewTrack; try assumption.
    apply shape_inv_new, Hwd. }
  destruct (gains_inv_reachable w _ st Hok H0 Hreach) as (_ & _ & Hq).
  eapply Forall_impl; [exact Hq|]. intros record [_ Hg]. exact Hg.
Qed.

Lemma settings_reduce_atten :
  0 < Worker.mNoiseAttenFactor (Worker.new GetFFT_example settings_reduce 44100) <= 1.
Proof.
  cbn [Worker.new Worker.mNoiseAttenFactor]. split; [apply DB_TO_LINEAR_pos|].
  apply DB_TO_LINEAR_le_1. unfold Worker.noiseGain. simpl. lra.
Qed.

Lemma gains_in_range_witness :
  let w := Worker.new GetFFT_example settings_reduce 44100 in
  let statistics := Statistics.new (Worker.mSpectrumSize w) 44100 WT_HANN_HANN in
  let st0 := Worker.StartNewTrack w (Worker.new_state settings_reduce 44100) in
  let st :=
    snd (fst (fst (Worker.ProcessSamples_body w (statistics, st0, [], replicate 512 0)))) in
  Forall (fun record =>
            Forall (fun gain => Worker.mNoiseAttenFactor w <= gain <= 1)
                   (Worker.mGains record))
         (Worker.mQueue st).
Proof.
  cbv zeta.
  apply (gains_in_range GetFFT_example settings_reduce 44100 _
           settings_reduce_well_defined eq_refl ltac:(discriminate)
           settings_reduce_atten).
  apply Worker.reach_ProcessSamples_body, Worker.reach_start.
Defined.



(** ** The loop of [ProcessSamples] comes to an end *)

Lemma ReduceNoise_mInWavePos w statistics st outputTrack :
  Worker.mInWavePos (fst (Worker.ReduceNoise w statistics st outputTrack))
  = Worker.mInWavePos st.
Proof.
  unfold Worker.ReduceNoise. cbv zeta. destruct (_ >=? _)%Z; [|reflexivity].
  unfold Worker.ReduceNoise_output. cbv zeta.
  destruct (if (Worker.mNoiseReductionChoice w =? NRC_ISOLATE_NOISE)%Z then _ else _).
  reflexivity.
Qed.

(** One turn of the loop takes at least one sample from the buffer and
    leaves the write position inside the window. *)
Lemma ProcessSamples_body_progress w statistics st outputTrack buffer :
  (1 <= Worker.mStepSize w <= Worker.mWindowSize w)%Z ->
  (Worker.mWindowSize w < 2 ^ 31)%Z ->
  (0 <= Worker.mInWavePos st < Worker.mWindowSize w)%Z ->
  (0 < length buffer)%nat ->
  let c' := Worker.ProcessSamples_body w (statistics, st, outputTrack, buffer) in
  (length (snd c') < length buffer)%nat
  /\ (0 <= Worker.mInWavePos (snd (fst (fst c'))) < Worker.mWindowSize w)%Z.
Proof.
  intros HH HW Hpos Hlen c'. subst c'. unfold Worker.ProcessSamples_body. cbv zeta.
  change (2 ^ 31)%Z with 2147483648%Z in HW.
  rewrite to_size_t_small
    by (change (2 ^ 64)%Z with 18446744073709551616%Z; lia).
  rewrite to_int_small by (change (2 ^ 31)%Z with 2147483648%Z; lia).
  set (avail := Z.to_nat (Z.min _ _)).
  assert (Havail : (1 <= avail)%nat /\ (Worker.mInWavePos st + Z.of_nat avail
                                        <= Worker.mWindowSize w)%Z)
    by (subst avail; lia).
  cbn [Worker.mInWavePos].
  destruct (Z.eqb_spec (Worker.mInWavePos st + Z.of_nat avail) (Worker.mWindowSize w))
    as [Heq|Hne].
  - destruct (Worker.mDoProfile w).
    + simpl. rewrite length_drop. lia.
    + pose proof (ReduceNoise_mInWavePos w statistics
                    (Worker.FillFirstHistoryWindow w
                       {| Worker.mFFTBuffer := Worker.mFFTBuffer st;
                          Worker.mInWaveBuffer :=
                            take (Z.to_nat (Worker.mInWavePos st)) (Worker.mInWaveBuffer st)
                              ++ take avail buffer
                              ++ drop (Z.to_nat (Worker.mInWavePos st) + avail)
                                      (Worker.mInWaveBuffer st);
                          Worker.mOutOverlapBuffer := Worker.mOutOverlapBuffer st;
                          Worker.mFreqSmoothingScratch := Worker.mFreqSmoothingScratch st;
                          Worker.mInSampleCount := Worker.mInSampleCount st;
                          Worker.mOutStepCount := Worker.mOutStepCount st;
                          Worker.mInWavePos := Worker.mInWavePos st + Z.of_nat avail;
                          Worker.mQueue := Worker.mQueue st |})
                    outputTrack) as Hp.
      destruct (Worker.ReduceNoise w statistics _ outputTrack) as [st3 out3].
      simpl in *. rewrite length_drop, Hp. lia.
  - simpl. rewrite length_drop. lia.
Qed.

(** X1.  On a worker with [1 <= mStepSize <= mWindowSize < 2^31], from a
    state whose write position is inside the window, the loop of
    [ProcessSamples] ends within as many turns as the buffer has samples,
    and it ends with its test false: the buffer is used up or the output
    has caught up with the input. *)
Theorem ProcessSamples_terminates (w : Worker.t) (fuel : nat) :
  (1 <= Worker.mStepSize w <= Worker.mWindowSize w)%Z ->
  (Worker.mWindowSize w < 2 ^ 31)%Z ->
  forall statistics st outputTrack buffer,
  (0 <= Worker.mInWavePos st < Worker.mWindowSize w)%Z ->
  (length buffer <= fuel)%nat ->
  exists c', Worker.ProcessSamples w fuel (statistics, st, outputTrack, buffer) = Some c'
             /\ Worker.ProcessSamples_test w c' = false
             /\ (0 <= Worker.mInWavePos (snd (fst (fst c'))) < Worker.mWindowSize w)%Z.
Proof.
  intros HH HW. induction fuel as [|fuel IH];
    intros statistics st outputTrack buffer Hpos Hlen.
  - cbn [Worker.ProcessSamples].
    destruct (Worker.ProcessSamples_test w _) eqn:Htest.
    + unfold Worker.ProcessSamples_test in Htest.
      apply andb_prop in Htest as [Hb _]. apply bool_decide_eq_true in Hb. lia.
    + eexists. split; [reflexivity|]. split; [exact Htest | exact Hpos].
  - cbn [Worker.ProcessSamples].
    destruct (Worker.ProcessSamples_test w _) eqn:Htest.
    + assert (Hb : (0 < length buffer)%nat).
      { unfold Worker.ProcessSamples_test in Htest.
        apply andb_prop in Htest as [Hb _]. apply bool_decide_eq_true in Hb. exact Hb. }
      destruct (ProcessSamples_body_progress w statistics st outputTrack buffer
                  HH HW Hpos Hb) as [Hless Hpos'].
      cbv zeta in *.
      destruct (Worker.ProcessSamples_body w _) as [[[statistics' st'] out'] buffer'].
      simpl in *. apply IH; [exact Hpos' | lia].
    + eexists. split; [reflexivity|]. split; [exact Htest | exact Hpos].
Qed.

Lemma ProcessSamples_terminates_witness :
  let w := Worker.new GetFFT_example settings_reduce 44100 in
  let statistics := Statistics.new (Worker.mSpectrumSize w) 44100 WT_HANN_HANN in
  let st0 := Worker.StartNewTrack w (Worker.new_state settings_reduce 44100) in
  exists c',
    Worker.ProcessSamples w 3 (statistics, st0, [], replicate 3 0) = Some c'
    /\ Worker.ProcessSamples_test w c' = false
    /\ (0 <= Worker.mInWavePos (snd (fst (fst c'))) < Worker.mWindowSize w)%Z.
Proof.
  cbv zeta.
  apply (ProcessSamples_terminates
           (Worker.new GetFFT_example settings_reduce 44100) 3).
  - cbn [Worker.new Worker.mStepSize Worker.mWindowSize]. vm_compute.
    split; discriminate.
  - cbn [Worker.new Worker.mWindowSize]. vm_compute. reflexivity.
  - cbn [Worker.StartNewTrack Worker.mInWavePos Worker.new Worker.mDoProfile
         Worker.mWindowSize Worker.mStepSize].
    vm_compute. split; [discriminate | reflexivity].
  - rewrite length_replicate. lia.
Defined.

(** ** The sizes of a worker *)

Lemma WindowSize_range (s : Settings.t) :
  (0 <= Settings.mWindowSizeChoice s < 29)%Z ->
  Settings.WindowSize s = (2 ^ (3 + Settings.mWindowSizeChoice s))%Z
  /\ (8 <= Settings.WindowSize s)%Z.
Proof.
  intros Hc.
  destruct (WindowSize_pow2 s) as [HW _]; [lia|]. split; [exact HW|].
  rewrite HW. change 8%Z with (2 ^ 3)%Z. apply Z.pow_le_mono_r; lia.
Qed.

Lemma StepSize_exact (s : Settings.t) (rate : R) :
  Settings.well_defined s rate -> Settings.Validate s = true ->
  let W := Settings.WindowSize s in
  let S := Settings.StepsPerWindow s in
  (W / S * S = W /\ 1 <= W / S /\ 2 <= S <= W /\ 2 * (W / S) <= W)%Z.
Proof.
  intros Hwd Hv W S.
  destruct (StepsPerWindow_pow2 s (Settings.wd_steps _ _ Hwd)) as [HS HSr].
  destruct (WindowSize_range s (Settings.wd_size _ _ Hwd)) as [HW HW8].
  pose proof (Validate_steps_le s Hv) as [Hmin Hle].
  pose proof (windowTypesInfo_minSteps _ (Settings.wd_types _ _ Hwd)) as Hmin2.
  pose proof (Settings.wd_steps _ _ Hwd) as Hst.
  pose proof (Settings.wd_size _ _ Hwd) as Hsz.
  fold W S in HS, HSr, HW, HW8, Hmin, Hle.
  assert (Hexp : (1 + Settings.mStepsPerWindowChoice s <= 3 + Settings.mWindowSizeChoice s)%Z).
  { apply (Z.pow_le_mono_r_iff 2); [lia | lia |]. rewrite <- HS, <- HW. exact Hle. }
  assert (Hdiv : (W / S * S = W)%Z).
  { rewrite HW, HS.
    set (a := (3 + Settings.mWindowSizeChoice s)%Z) in *.
    set (b := (1 + Settings.mStepsPerWindowChoice s)%Z) in *.
    assert (Hab : (2 ^ a = 2 ^ (a - b) * 2 ^ b)%Z)
      by (rewrite <- Z.pow_add_r by lia; f_equal; lia).
    rewrite Hab at 1. rewrite Z.div_mul by lia. symmetry. exact Hab. }
  assert (H2 : (2 <= S)%Z) by lia.
  split; [exact Hdiv|]. split; [|split; [lia|]]; nia.
Qed.

Lemma sizes_ok_new (GetFFT : Z -> HFFT) (s : Settings.t) (rate : R) :
  Settings.well_defined s rate -> Settings.Validate s = true ->
  (Settings.WindowSize s < 2 ^ 31)%Z ->
  sizes_ok (Worker.new GetFFT s rate).
Proof.
  intros Hwd Hv Hsmall.
  destruct (StepSize_exact s rate Hwd Hv) as (Hdiv & Hstep & [Hsteps _] & _).
  constructor; cbn [Worker.new Worker.mStepSize Worker.mStepsPerWindow Worker.mWindowSize
                    Worker.mSpectrumSize]; try assumption; reflexivity.
Qed.

(** X2.  For every configuration in range that [Validate] accepts, the
    steps divide the window exactly: [mStepSize * mStepsPerWindow =
    mWindowSize], with a step of at least one sample and of at most half
    a window.  The second test of [Validate] is what keeps the step from
    being 0: with more steps than samples in the window, [mStepSize] is
    0. *)
Theorem StepSize_divides (GetFFT : Z -> HFFT) (s : Settings.t) (rate : R) :
  Settings.well_defined s rate ->
  let w := Worker.new GetFFT s rate in
  (Settings.Validate s = true ->
   (Worker.mStepSize w * Worker.mStepsPerWindow w = Worker.mWindowSize w
    /\ 1 <= Worker.mStepSize w /\ 2 * Worker.mStepSize w <= Worker.mWindowSize w)%Z)
  /\ ((Settings.StepsPerWindow s > Settings.WindowSize s)%Z ->
      Settings.Validate s = false /\ Worker.mStepSize w = 0%Z).
Proof.
  intros Hwd w. subst w.
  cbn [Worker.new Worker.mStepSize Worker.mStepsPerWindow Worker.mWindowSize]. split.
  - intros Hv. destruct (StepSize_exact s rate Hwd Hv) as (Hdiv & Hstep & _ & Hhalf).
    split; [exact Hdiv|]. split; [exact Hstep | exact Hhalf].
  - intros Hgt.
    destruct (WindowSize_range s (Settings.wd_size _ _ Hwd)) as [_ HW8]. split.
    + destruct (Settings.Validate s) eqn:Hv; [|reflexivity].
      pose proof (Validate_steps_le s Hv). lia.
    + apply Z.div_small. lia.
Qed.

Lemma StepSize_divides_witness :
  Settings.well_defined settings_reduce 44100
  /\ (Settings.Validate settings_reduce = true ->
      (Worker.mStepSize (Worker.new GetFFT_example settings_reduce 44100)
       * Worker.mStepsPerWindow (Worker.new GetFFT_example settings_reduce 44100)
       = Worker.mWindowSize (Worker.new GetFFT_example settings_reduce 44100))%Z).
Proof.
  split; [exact settings_reduce_well_defined|]. intros Hv.
  apply (StepSize_divides GetFFT_example settings_reduce 44100
           settings_reduce_well_defined), Hv.
Defined.

(** ** Sums over the steps of a window *)

Lemma Rsum_shift (g : nat -> R) (q count : nat) :
  forall lo, Rsum (g <$> seq (lo + q) count) = Rsum ((fun k => g (k + q)%nat) <$> seq lo count).
Proof.
  induction count as [|count IH]; intros lo; [reflexivity|].
  cbn [seq fmap list_fmap]. rewrite !Rsum_cons. f_equal.
  apply (IH (Datatypes.S lo)).
Qed.

Lemma Rsum_opp (g : nat -> R) (l : list nat) :
  Rsum ((fun k => - g k) <$> l) = - Rsum (g <$> l).
Proof.
  induction l as [|x l IH]; cbn [fmap list_fmap]; rewrite ?Rsum_cons.
  - unfold Rsum. simpl. lra.
  - rewrite IH. lra.
Qed.

Lemma Rsum_scal (m : R) (g : nat -> R) (l : list nat) :
  Rsum ((fun k => m * g k) <$> l) = m * Rsum (g <$> l).
Proof.
  induction l as [|x l IH]; cbn [fmap list_fmap]; rewrite ?Rsum_cons.
  - unfold Rsum. simpl. lra.
  - rewrite IH. lra.
Qed.

Lemma Rsum_const (c : R) (l : list nat) :
  Rsum ((fun _ => c) <$> l) = INR (length l) * c.
Proof.
  induction l as [|x l IH]; cbn [fmap list_fmap length].
  - unfold Rsum. simpl. lra.
  - rewrite Rsum_cons, IH, S_INR. lra.
Qed.

Lemma Rsum_linear (c a1 a2 a3 : R) (f1 f2 f3 : nat -> R) (l : list nat) :
  Rsum ((fun k => c + a1 * f1 k + a2 * f2 k + a3 * f3 k) <$> l)
  = INR (length l) * c + a1 * Rsum (f1 <$> l) + a2 * Rsum (f2 <$> l)
    + a3 * Rsum (f3 <$> l).
Proof.
  induction l as [|x l IH]; cbn [fmap list_fmap length].
  - unfold Rsum. simpl. lra.
  - rewrite !Rsum_cons, IH, S_INR. lra.
Qed.

(** A sequence that changes sign every [q] steps sums to 0 over [2 q]
    steps, and over [4 q]. *)
Lemma antiperiodic_sum (g : nat -> R) (q : nat) :
  (forall k, g (k + q)%nat = - g k) -> Rsum (g <$> seq 0 (2 * q)) = 0.
Proof.
  intros Hg. replace (2 * q)%nat with (q + q)%nat by lia.
  rewrite seq_app, fmap_app, Rsum_app, Rsum_shift.
  rewrite (Rsum_ext_seq (fun k => g (k + q)%nat) (fun k => - g k))
    by (intros; apply Hg).
  rewrite Rsum_opp. lra.
Qed.

Lemma antiperiodic_sum_twice (g : nat -> R) (q : nat) :
  (forall k, g (k + q)%nat = - g k) -> Rsum (g <$> seq 0 (4 * q)) = 0.
Proof.
  intros Hg. replace (4 * q)%nat with (2 * q + 2 * q)%nat by lia.
  rewrite seq_app, fmap_app, Rsum_app, Rsum_shift.
  rewrite (antiperiodic_sum g q Hg).
  rewrite (antiperiodic_sum (fun k => g (k + 2 * q)%nat) q).
  - lra.
  - intros k. replace (k + q + 2 * q)%nat with (k + 2 * q + q)%nat by lia. apply Hg.
Qed.

(** The product of two window polynomials, the second without its
    third term, as a sum of cosines. *)
Lemma poly_product (a0 a1 a2 b0 b1 c c2 : R) :
  c * c = (1 + c2) / 2 ->
  (a0 + a1 * c + a2 * c2) * (b0 + b1 * c + 0 * c2)
  = (a0 * b0 + a1 * b1 / 2) + (a0 * b1 + a1 * b0) * c
    + (a1 * b1 / 2 + a2 * b0) * c2 + (a2 * b1) * (c * c2).
Proof.
  intros Hc.
  replace ((a0 + a1 * c + a2 * c2) * (b0 + b1 * c + 0 * c2))
    with (a0 * b0 + (a0 * b1 + a1 * b0) * c + a2 * b0 * c2 + a1 * b1 * (c * c)
          + a2 * b1 * (c * c2)) by ring.
  rewrite Hc. field.
Qed.

Section Steps.

(** A window of [W = S * H] samples in [S] steps of [H] samples. *)
Variables (W H S : nat) (i : nat).
Hypothesis HW : W = (S * H)%nat.
Hypothesis HH : (1 <= H)%nat.

Local Abbreviation c1 := (step_cos1 W H i).
Local Abbreviation c2 := (step_cos2 W H i).

Lemma W_neq_0 : (1 <= S)%nat -> INR S * INR H <> 0.
Proof.
  intros HS. apply Rmult_integral_contrapositive. split; apply not_0_INR; lia.
Qed.

Lemma step_angle (m : R) (k q : nat) :
  (1 <= S)%nat ->
  (m * PI * INR (i + (k + q) * H)) / IZR (Z.of_nat W)
  = (m * PI * INR (i + k * H)) / IZR (Z.of_nat W) + m * PI * (INR q / INR S).
Proof.
  intros HS. rewrite <- INR_IZR_INZ, HW.
  replace (i + (k + q) * H)%nat with (i + k * H + q * H)%nat by lia.
  rewrite !plus_INR, !mult_INR.
  assert (INR S <> 0) by (apply not_0_INR; lia).
  assert (INR H <> 0) by (apply not_0_INR; lia).
  field. split; assumption.
Qed.

Lemma step_cos1_half (q : nat) :
  S = (2 * q)%nat -> (1 <= q)%nat -> forall k, c1 (k + q) = - c1 k.
Proof.
  intros HS Hq k. unfold c1. rewrite step_angle by lia.
  replace (2.0 * PI * (INR q / INR S)) with PI; [apply neg_cos|].
  rewrite HS, mult_INR.
  assert (INR q <> 0) by (apply not_0_INR; lia).
  replace (INR 2) with 2 by (simpl; lra). replace 2.0 with 2 by lra.
  field. assumption.
Qed.

Lemma step_cos2_half (q : nat) :
  S = (2 * q)%nat -> (1 <= q)%nat -> forall k, c2 (k + q) = c2 k.
Proof.
  intros HS Hq k. unfold c2. rewrite step_angle by lia.
  replace (4.0 * PI * (INR q / INR S)) with (2 * INR 1 * PI); [apply cos_period|].
  rewrite HS, mult_INR.
  assert (INR q <> 0) by (apply not_0_INR; lia).
  replace (INR 2) with 2 by (simpl; lra). replace (INR 1) with 1 by (simpl; lra).
  replace 4.0 with 4 by lra. field. assumption.
Qed.

Lemma step_cos2_quarter (q : nat) :
  S = (4 * q)%nat -> (1 <= q)%nat -> forall k, c2 (k + q) = - c2 k.
Proof.
  intros HS Hq k. unfold c2. rewrite step_angle by lia.
  replace (4.0 * PI * (INR q / INR S)) with PI; [apply neg_cos|].
  rewrite HS, mult_INR.
  assert (INR q <> 0) by (apply not_0_INR; lia).
  replace (INR 4) with 4 by (simpl; lra). replace 4.0 with 4 by lra.
  field. assumption.
Qed.

Lemma step_cos_square (k : nat) :
  (1 <= S)%nat -> c1 k * c1 k = (1 + c2 k) / 2.
Proof.
  intros HS. unfold c1, c2.
  replace ((4.0 * PI * INR (i + k * H)) / IZR (Z.of_nat W))
    with (2 * ((2.0 * PI * INR (i + k * H)) / IZR (Z.of_nat W))).
  - rewrite cos_2a_cos. lra.
  - rewrite <- INR_IZR_INZ, HW, mult_INR.
    replace 4.0 with 4 by lra. replace 2.0 with 2 by lra.
    field. split; apply not_0_INR; lia.
Qed.

Lemma sum_step_cos1 (q : nat) :
  S = (2 * q)%nat -> (1 <= q)%nat -> Rsum (c1 <$> seq 0 S) = 0.
Proof.
  intros HS Hq. rewrite HS. apply antiperiodic_sum.
  apply step_cos1_half; assumption.
Qed.

Lemma sum_step_cos12 (q : nat) :
  S = (2 * q)%nat -> (1 <= q)%nat ->
  Rsum ((fun k => c1 k * c2 k) <$> seq 0 S) = 0.
Proof.
  intros HS Hq. rewrite HS. apply antiperiodic_sum. intros k.
  rewrite (step_cos1_half q HS Hq), (step_cos2_half q HS Hq). ring.
Qed.

Lemma sum_step_cos2 (q : nat) :
  S = (4 * q)%nat -> (1 <= q)%nat -> Rsum (c2 <$> seq 0 S) = 0.
Proof.
  intros HS Hq. rewrite HS. apply antiperiodic_sum_twice.
  apply step_cos2_quarter; assumption.
Qed.

(** The product of an analysis and a synthesis polynomial, summed over
    the steps: the steps times the constant term of the product, when
    the steps are an even number and the second harmonic either is
    absent from the product or cancels over a multiple of four steps. *)
Lemma sum_window_product (a0 a1 a2 b0 b1 b2 : R) (q : nat) :
  S = (2 * q)%nat -> (1 <= q)%nat -> b2 = 0 ->
  (a1 * b1 / 2 + a2 * b0 = 0 \/ exists q', q = (2 * q')%nat /\ (1 <= q')%nat) ->
  Rsum ((fun k => (a0 + a1 * c1 k + a2 * c2 k)
                  * (b0 + b1 * c1 k + b2 * c2 k)) <$> seq 0 S)
  = INR S * (a0 * b0 + a1 * b1 / 2).
Proof.
  intros HS Hq -> H2.
  rewrite (Rsum_ext_seq _
             (fun k => (a0 * b0 + a1 * b1 / 2) + (a0 * b1 + a1 * b0) * c1 k
                       + (a1 * b1 / 2 + a2 * b0) * c2 k
                       + (a2 * b1) * (c1 k * c2 k)))
    by (intros k _; apply poly_product, step_cos_square; lia).
  rewrite (Rsum_linear _ _ _ _ c1 c2 (fun k => c1 k * c2 k)).
  rewrite length_seq, (sum_step_cos1 q HS Hq), (sum_step_cos12 q HS Hq).
  destruct H2 as [-> | (q' & Hq' & Hq'1)].
  - lra.
  - rewrite (sum_step_cos2 q') by lia. lra.
Qed.

End Steps.

(** ** The synthesis window and the overlap of the windows *)

Lemma window_types (ty : Z) :
  (0 <= ty < WT_N_WINDOW_TYPES)%Z ->
  ty = WT_RECTANGULAR_HANN \/ ty = WT_HANN_RECTANGULAR \/ ty = WT_HANN_HANN
  \/ ty = WT_BLACKMAN_HANN \/ ty = WT_HAMMING_RECTANGULAR \/ ty = WT_HAMMING_HANN
  \/ ty = WT_HAMMING_INV_HAMMING.
Proof.
  unfold WT_N_WINDOW_TYPES, WT_RECTANGULAR_HANN, WT_HANN_RECTANGULAR, WT_HANN_HANN,
    WT_BLACKMAN_HANN, WT_HAMMING_RECTANGULAR, WT_HAMMING_HANN, WT_HAMMING_INV_HAMMING.
  lia.
Qed.

Lemma window_nonempty (s : Settings.t) (m : R) (coefficients : list R) :
  (0 <= Settings.mWindowSizeChoice s < 29)%Z ->
  bool_decide (0 < length (Worker.window s m coefficients))%nat = true.
Proof.
  intros Hc. apply bool_decide_eq_true. rewrite window_length.
  destruct (WindowSize_range s Hc) as [_ H8]. lia.
Qed.

(** The Hamming polynomial is at least 0.08. *)
Lemma hamming_pos (W : Z) (i : nat) :
  0.08 <= window_polynomial [0.54; -0.46; 0.0] W i.
Proof.
  unfold window_polynomial. cbn.
  pose proof (COS_bound ((2.0 * PI * INR i) / IZR W)).
  pose proof (COS_bound ((4.0 * PI * INR i) / IZR W)). lra.
Qed.

Lemma window_polynomial_rectangular (W : Z) (i : nat) :
  window_polynomial [1; 0; 0] W i = 1.
Proof. unfold window_polynomial. cbn. lra. Qed.

(** The product of what the two windows multiply sample [j] by. *)
Lemma factors_product (GetFFT : Z -> HFFT) (s : Settings.t) (rate : R) (j : nat) :
  Settings.well_defined s rate -> Settings.mDoProfile s = false ->
  (Z.of_nat j < Settings.WindowSize s)%Z ->
  let w := Worker.new GetFFT s rate in
  let info := windowTypesInfo !!! Z.to_nat (Settings.mWindowTypes s) in
  let W := Settings.WindowSize s in
  analysis_factor w j * synthesis_factor w j
  = if decide (Settings.mWindowTypes s = WT_HAMMING_INV_HAMMING)
    then Worker.multiplier s
    else Worker.multiplier s
         * (window_polynomial (inCoefficients info) W j
            * window_polynomial (outCoefficients info) W j).
Proof.
  intros Hwd Hp Hj w info W. subst w info W.
  pose proof (Settings.wd_size _ _ Hwd) as Hc.
  destruct (WindowSize_range s Hc) as [_ H8].
  unfold analysis_factor, synthesis_factor.
  cbn [Worker.new Worker.mInWindow Worker.mOutWindow].
  unfold Worker.InWindow, Worker.OutWindow. rewrite Hp.
  unfold WT_HAMMING_INV_HAMMING, WT_RECTANGULAR_HANN, WT_HANN_RECTANGULAR,
    WT_HAMMING_RECTANGULAR.
  destruct (window_types _ (Settings.wd_types _ _ Hwd))
    as [Hty | [Hty | [Hty | [Hty | [Hty | [Hty | Hty]]]]]];
    unfold WT_RECTANGULAR_HANN, WT_HANN_RECTANGULAR, WT_HANN_HANN, WT_BLACKMAN_HANN,
      WT_HAMMING_RECTANGULAR, WT_HAMMING_HANN, WT_HAMMING_INV_HAMMING in Hty;
    rewrite Hty; cbn [Z.eqb Pos.eqb orb]; cbv zeta;
    repeat rewrite window_nonempty by exact Hc;
    repeat rewrite (window_lookup s rate) by exact Hj;
    cbn [windowTypesInfo Z.to_nat Pos.to_nat Pos.iter_op Nat.add lookup_total
         list_lookup_total inCoefficients outCoefficients];
    match goal with
    | |- context [decide ?P] =>
        destruct (decide P) as [Heq | Hne];
        [try discriminate Heq | try (exfalso; apply Hne; reflexivity)]
    end;
    rewrite ?window_polynomial_rectangular;
    rewrite ?(bool_decide_eq_false_2 (0 < length [])%nat) by (simpl; lia);
    try ring.
  (* Hamming, reciprocal Hamming *)
  rewrite bool_decide_eq_true_2 by (rewrite length_tabulate; lia).
  rewrite lookup_total_tabulate by lia.
  unfold Worker.InWindow, WT_RECTANGULAR_HANN, WT_HANN_RECTANGULAR,
    WT_HAMMING_RECTANGULAR.
  rewrite Hty. cbn [Z.eqb Pos.eqb orb]. cbv zeta.
  rewrite (window_lookup s rate) by exact Hj.
  generalize (Worker.multiplier s). intros m.
  change (inCoefficients (windowTypesInfo !!! Z.to_nat 6)) with [0.54; -0.46; 0.0].
  pose proof (hamming_pos (Settings.WindowSize s) j) as Hpos.
  field. lra.
Qed.

(** The table of the window types: the synthesis polynomial has no third
    term; but for the last type, the constant term of the product of the
    two polynomials is the one the table gives; and the second harmonic
    of the product is absent where two steps are allowed. *)
Lemma window_table (ty : Z) :
  (0 <= ty < WT_N_WINDOW_TYPES)%Z ->
  let info := windowTypesInfo !!! Z.to_nat ty in
  let a0 := inCoefficients info !!! 0%nat in
  let a1 := inCoefficients info !!! 1%nat in
  let a2 := inCoefficients info !!! 2%nat in
  let b0 := outCoefficients info !!! 0%nat in
  let b1 := outCoefficients info !!! 1%nat in
  outCoefficients info !!! 2%nat = 0
  /\ 0 < productConstantTerm info
  /\ (ty = WT_HAMMING_INV_HAMMING -> productConstantTerm info = 1)
  /\ (ty <> WT_HAMMING_INV_HAMMING -> a0 * b0 + a1 * b1 / 2 = productConstantTerm info)
  /\ (a1 * b1 / 2 + a2 * b0 = 0 \/ minSteps info = 4%Z).
Proof.
  intros Hty.
  destruct (window_types _ Hty) as [H | [H | [H | [H | [H | [H | H]]]]]];
    rewrite H;
    unfold WT_RECTANGULAR_HANN, WT_HANN_RECTANGULAR, WT_HANN_HANN, WT_BLACKMAN_HANN,
      WT_HAMMING_RECTANGULAR, WT_HAMMING_HANN, WT_HAMMING_INV_HAMMING;
    simpl;
    (split; [lra|]); (split; [lra|]);
    (split; [intros Heq; first [discriminate Heq | lra]|]);
    (split; [intros Hne; first [exfalso; apply Hne; reflexivity | lra]|]);
    first [left; lra | right; reflexivity].
Qed.

Lemma StepsPerWindow_even (s : Settings.t) (rate : R) :
  Settings.well_defined s rate -> Settings.Validate s = true ->
  let S := Z.to_nat (Settings.StepsPerWindow s) in
  let info := windowTypesInfo !!! Z.to_nat (Settings.mWindowTypes s) in
  exists q, S = (2 * q)%nat /\ (1 <= q)%nat
            /\ (minSteps info = 4%Z -> exists q', q = (2 * q')%nat /\ (1 <= q')%nat).
Proof.
  intros Hwd Hv S info.
  pose proof (Settings.wd_steps _ _ Hwd) as Hst.
  destruct (StepsPerWindow_pow2 s Hst) as [HS _].
  destruct (Validate_steps_le s Hv) as [Hmin _]. fold info in Hmin.
  pose proof (windowTypesInfo_minSteps _ (Settings.wd_types _ _ Hwd)) as Hmin2.
  fold info in Hmin2.
  set (c := Settings.mStepsPerWindowChoice s) in *.
  assert (Hc : (0 <= c)%Z).
  { destruct (Z_lt_le_dec c 0%Z) as [Hneg|]; [|assumption].
    assert (c = (-1)%Z) by lia. subst S. rewrite HS in Hmin.
    replace (1 + c)%Z with 0%Z in Hmin by lia. simpl in Hmin. lia. }
  exists (Z.to_nat (2 ^ c)). subst S. rewrite HS.
  assert (Hpow : (2 ^ (1 + c) = 2 * 2 ^ c)%Z)
    by (rewrite Z.pow_add_r by lia; reflexivity).
  assert (Hpos : (0 < 2 ^ c)%Z) by (apply Z.pow_pos_nonneg; lia).
  split; [lia|]. split; [lia|].
  intros H4. rewrite H4, HS in Hmin.
  assert (Hc1 : (1 <= c)%Z).
  { destruct (Z.eq_dec c 0%Z) as [H0|]; [|lia]. rewrite H0 in Hmin. simpl in Hmin. lia. }
  exists (Z.to_nat (2 ^ (c - 1))).
  assert (Hpow' : (2 ^ c = 2 * 2 ^ (c - 1))%Z).
  { replace c with (1 + (c - 1))%Z at 1 by lia. rewrite Z.pow_add_r by lia. reflexivity. }
  assert (Hpos' : (0 < 2 ^ (c - 1))%Z) by (apply Z.pow_pos_nonneg; lia).
  split; lia.
Qed.

(** X3.  The windows overlap-add to one.  For every validated
    configuration that reduces noise, whatever the window type, and for
    every position [i] within a step: the products of what the analysis
    window and the synthesis window multiply a sample by, taken at the
    [mStepsPerWindow] places [i, i + H, i + 2 H, ...] at which successive
    windows cover the same sample, add up to 1.  (A window array left
    empty multiplies by 1.) *)
Theorem windows_overlap_add (GetFFT : Z -> HFFT) (s : Settings.t) (rate : R) (i : nat) :
  Settings.well_defined s rate -> Settings.Validate s = true ->
  Settings.mDoProfile s = false ->
  let w := Worker.new GetFFT s rate in
  let H := Z.to_nat (Worker.mStepSize w) in
  let S := Z.to_nat (Worker.mStepsPerWindow w) in
  (i < H)%nat ->
  Rsum ((fun k => analysis_factor w (i + k * H) * synthesis_factor w (i + k * H))
          <$> seq 0 S) = 1.
Proof.
  intros Hwd Hv Hp w H S Hi.
  destruct (StepSize_exact s rate Hwd Hv) as (Hdiv & Hstep & [HS2 HSW] & _).
  destruct (StepsPerWindow_even s rate Hwd Hv) as (q & Hq & Hq1 & Hq4).
  subst H S w. cbn [Worker.new Worker.mStepSize Worker.mStepsPerWindow] in *.
  set (H := Z.to_nat (Settings.WindowSize s / Settings.StepsPerWindow s)) in *.
  set (S := Z.to_nat (Settings.StepsPerWindow s)) in *.
  set (W := Z.to_nat (Settings.WindowSize s)).
  assert (HW : W = (S * H)%nat) by (subst W S H; lia).
  assert (HWZ : Settings.WindowSize s = Z.of_nat W) by (subst W; lia).
  assert (HH : (1 <= H)%nat) by (subst H; lia).
  assert (HSR : IZR (Settings.StepsPerWindow s) = INR S)
    by (subst S; rewrite INR_IZR_INZ; f_equal; lia).
  destruct (window_table _ (Settings.wd_types _ _ Hwd))
    as (Hb2 & HC & HC6 & HCprod & Hharm).
  set (info := windowTypesInfo !!! Z.to_nat (Settings.mWindowTypes s)) in *.
  assert (HS0 : INR S <> 0) by (apply not_0_INR; lia).
  assert (Hin : forall k, (0 <= k < 0 + S)%nat ->
                  (Z.of_nat (i + k * H) < Settings.WindowSize s)%Z).
  { intros k Hk. rewrite HWZ, HW. apply inj_lt.
    assert (k * H + H <= S * H)%nat by nia. lia. }
  destruct (decide (Settings.mWindowTypes s = WT_HAMMING_INV_HAMMING)) as [H6 | H6].
  - rewrite (Rsum_ext_seq _ (fun _ => Worker.multiplier s)).
    + rewrite Rsum_const, length_seq. unfold Worker.multiplier. fold info.
      rewrite (HC6 H6), HSR. replace 1.0 with 1 by lra. field. exact HS0.
    + intros k Hk.
      rewrite (factors_product GetFFT s rate _ Hwd Hp (Hin k Hk)).
      destruct (decide _); [reflexivity | contradiction].
  - rewrite (Rsum_ext_seq _
               (fun k => Worker.multiplier s
                         * ((inCoefficients info !!! 0%nat
                             + inCoefficients info !!! 1%nat * step_cos1 W H i k
                             + inCoefficients info !!! 2%nat * step_cos2 W H i k)
                            * (outCoefficients info !!! 0%nat
                               + outCoefficients info !!! 1%nat * step_cos1 W H i k
                               + outCoefficients info !!! 2%nat * step_cos2 W H i k)))).
    + rewrite Rsum_scal.
      rewrite (sum_window_product W H S i HW HH _ _ _ _ _ _ q Hq Hq1 Hb2).
      * rewrite (HCprod H6). unfold Worker.multiplier. fold info. rewrite HSR.
        replace 1.0 with 1 by lra. field. split; [exact HS0 | lra].
      * destruct Hharm as [Hzero | H4]; [left; exact Hzero | right; exact (Hq4 H4)].
    + intros k Hk.
      rewrite (factors_product GetFFT s rate _ Hwd Hp (Hin k Hk)).
      destruct (decide _); [contradiction|]. fold info.
      unfold window_polynomial, step_cos1, step_cos2. rewrite HWZ. reflexivity.
Qed.

Lemma windows_overlap_add_witness :
  let w := Worker.new GetFFT_example settings_reduce 44100 in
  Rsum ((fun k => analysis_factor w (0 + k * 512) * synthesis_factor w (0 + k * 512))
          <$> seq 0 4) = 1.
Proof.
  cbv zeta.
  apply (windows_overlap_add GetFFT_example settings_reduce 44100 0
           settings_reduce_well_defined eq_refl eq_refl).
  vm_compute. lia.
Defined.

(** X4.  The synthesis window.  It is left empty when a profile is taken
    and for the two window types whose synthesis window is rectangular.
    Otherwise it has [W] entries: for the reciprocal Hamming window
    entry [i] is [M / mInWindow[i]], so that the two windows multiply to
    [M] at every sample (the analysis window is not 0 anywhere); for the
    other types it is [M * (c0 + c1 cos(2 pi i / W) + c2 cos(4 pi i / W))]
    with the synthesis coefficients of the table, [M = 1 / (K * S)]. *)
Theorem OutWindow_new (GetFFT : Z -> HFFT) (s : Settings.t) (rate : R) :
  Settings.well_defined s rate ->
  let w := Worker.new GetFFT s rate in
  let ty := Settings.mWindowTypes s in
  let info := windowTypesInfo !!! Z.to_nat ty in
  let W := Settings.WindowSize s in
  let M := 1 / (productConstantTerm info * IZR (Settings.StepsPerWindow s)) in
  (Worker.mOutWindow w = [] <->
   Settings.mDoProfile s = true \/ ty = WT_HANN_RECTANGULAR \/ ty = WT_HAMMING_RECTANGULAR)
  /\ (Settings.mDoProfile s = false ->
      ty <> WT_HANN_RECTANGULAR -> ty <> WT_HAMMING_RECTANGULAR ->
      length (Worker.mOutWindow w) = Z.to_nat W
      /\ forall i : nat, (Z.of_nat i < W)%Z ->
         if decide (ty = WT_HAMMING_INV_HAMMING)
         then Worker.mInWindow w !!! i <> 0
              /\ Worker.mOutWindow w !!! i = M / Worker.mInWindow w !!! i
              /\ Worker.mInWindow w !!! i * Worker.mOutWindow w !!! i = M
         else Worker.mOutWindow w !!! i
              = M * window_polynomial (outCoefficients info) W i).
Proof.
  intros Hwd w ty info W M.
  pose proof (Settings.wd_size _ _ Hwd) as Hc.
  destruct (WindowSize_range s Hc) as [_ H8]. fold W in H8.
  assert (HM : Worker.multiplier s = M).
  { unfold Worker.multiplier. fold ty info. subst M. replace 1.0 with 1 by lra.
    reflexivity. }
  assert (Hfull : Settings.mDoProfile s = false ->
                  ty <> WT_HANN_RECTANGULAR -> ty <> WT_HAMMING_RECTANGULAR ->
                  Worker.mOutWindow w
                  = if (ty =? WT_HAMMING_INV_HAMMING)%Z
                    then tabulate (Z.to_nat W)
                           (fun ii => Worker.multiplier s / (Worker.InWindow s !!! ii))
                    else Worker.window s (Worker.multiplier s) (outCoefficients info)).
  { intros Hp H1 H4. subst w. cbn [Worker.new Worker.mOutWindow].
    unfold Worker.OutWindow. rewrite Hp. fold ty.
    destruct (Z.eqb_spec ty WT_HANN_RECTANGULAR); [contradiction|].
    destruct (Z.eqb_spec ty WT_HAMMING_RECTANGULAR); [contradiction|].
    reflexivity. }
  assert (Hlen : Settings.mDoProfile s = false ->
                 ty <> WT_HANN_RECTANGULAR -> ty <> WT_HAMMING_RECTANGULAR ->
                 length (Worker.mOutWindow w) = Z.to_nat W).
  { intros Hp H1 H4. rewrite (Hfull Hp H1 H4).
    destruct (ty =? WT_HAMMING_INV_HAMMING)%Z;
      [apply length_tabulate | apply window_length]. }
  split.
  - split.
    + intros Hnil. destruct (Settings.mDoProfile s) eqn:Hp; [left; reflexivity|].
      destruct (Z.eq_dec ty WT_HANN_RECTANGULAR) as [|H1]; [tauto|].
      destruct (Z.eq_dec ty WT_HAMMING_RECTANGULAR) as [|H4]; [tauto|].
      specialize (Hlen eq_refl H1 H4). rewrite Hnil in Hlen. simpl in Hlen. lia.
    + intros Hcase. subst w. cbn [Worker.new Worker.mOutWindow].
      unfold Worker.OutWindow. fold ty.
      destruct (Settings.mDoProfile s); [reflexivity|].
      destruct Hcase as [Hp | [-> | ->]]; [discriminate Hp | reflexivity | reflexivity].
  - intros Hp H1 H4. split; [exact (Hlen Hp H1 H4)|]. intros i Hi.
    rewrite (Hfull Hp H1 H4).
    destruct (decide (ty = WT_HAMMING_INV_HAMMING)) as [H6 | H6].
    + rewrite H6, Z.eqb_refl. rewrite lookup_total_tabulate by lia.
      assert (Hin : Worker.mInWindow w !!! i
                    = 1 * window_polynomial [0.54; -0.46; 0.0] W i).
      { subst w. cbn [Worker.new Worker.mInWindow]. unfold Worker.InWindow.
        fold ty. rewrite H6.
        unfold WT_HAMMING_INV_HAMMING, WT_RECTANGULAR_HANN, WT_HANN_RECTANGULAR,
          WT_HAMMING_RECTANGULAR.
        cbn [Z.eqb Pos.eqb orb]. cbv zeta.
        rewrite (window_lookup s rate) by exact Hi. reflexivity. }
      pose proof (hamming_pos W i) as Hpos.
      assert (Hne : Worker.mInWindow w !!! i <> 0) by (rewrite Hin; lra).
      change (Worker.InWindow s) with (Worker.mInWindow w).
      rewrite HM. split; [exact Hne|]. split; [reflexivity|]. field. exact Hne.
    + destruct (Z.eqb_spec ty WT_HAMMING_INV_HAMMING); [contradiction|].
      rewrite (window_lookup s rate) by exact Hi. rewrite HM. reflexivity.
Qed.

Lemma OutWindow_new_witness :
  Settings.well_defined settings_reduce 44100
  /\ length (Worker.mOutWindow (Worker.new GetFFT_example settings_reduce 44100))
     = 2048%nat.
Proof.
  split; [exact settings_reduce_well_defined|].
  destruct (OutWindow_new GetFFT_example settings_reduce 44100
              settings_reduce_well_defined) as [_ Hwin].
  apply Hwin; [reflexivity | discriminate | discriminate].
Defined.

(** ** The classifier: the median method *)

(** The loop of the median method keeps the three greatest values seen. *)
Lemma third_step_count (t : R) (l : list R) :
  forall g s u, s <= g -> u <= s ->
  snd (foldl Worker.third_step (g, s, u) l) <= t
  <-> (count_gt t (g :: s :: u :: l) <= 2)%nat.
Proof.
  induction l as [|x l IH]; intros g s u Hsg Hus.
  - simpl. rewrite !count_gt_cons. change (count_gt t []) with 0%nat.
    destruct (decide (t < g)), (decide (t < s)), (decide (t < u));
      split; intros; try lia; lra.
  - simpl foldl.
    rewrite (count_gt_cons t g), (count_gt_cons t s), (count_gt_cons t u),
      (count_gt_cons t x).
    destruct (decide (x >= g)); [|destruct (decide (x >= s));
                                   [|destruct (decide (x >= u))]];
      rewrite IH by lra; rewrite !count_gt_cons;
      destruct (decide (t < g)), (decide (t < s)), (decide (t < u)), (decide (t < x));
      split; intros; try lia; lra.
Qed.

(** In a list sorted in descending order, the entry at index [k] is at
    most [t] exactly when at most [k] entries are above [t]. *)
Lemma sorted_nth_count (t : R) (l : list R) :
  StronglySorted Rge l ->
  forall k, (k < length l)%nat -> l !!! k <= t <-> (count_gt t l <= k)%nat.
Proof.
  induction 1 as [|a rest Hs IH Ha]; intros k Hk; [simpl in Hk; lia|].
  rewrite count_gt_cons.
  assert (Hrest : a <= t -> count_gt t rest = 0%nat).
  { intros Hat. apply count_gt_none. eapply Forall_impl; [exact Ha|].
    simpl. intros x Hx. lra. }
  destruct k as [|k].
  - change ((a :: rest) !!! 0%nat) with a.
    destruct (decide (t < a)); split; intros; try lia; try lra.
    rewrite Hrest by lra. lia.
  - change ((a :: rest) !!! Datatypes.S k) with (rest !!! k).
    simpl in Hk. rewrite IH by lia.
    destruct (decide (t < a)); [lia|]. rewrite Hrest by lra. lia.
Qed.

(** X5.  With the median method, whose neighbourhoods [Validate] restricts
    to 3 or 5 windows, and non-negative powers, [Classify] answers "noise"
    for a band exactly when the median of the powers of the band in the
    windows examined (the entry in the middle when they are arranged in
    descending order) is at most the threshold
    [sensitivity * ln 10 * mMeans[band]]. *)
Theorem Classify_median (GetFFT : Z -> HFFT) (s : Settings.t) (rate : R)
    (statistics : Statistics.t) (q : list Worker.Record_) (band : nat)
    (sorted : list R) :
  Settings.well_defined s rate -> Settings.Validate s = true ->
  Settings.mMethod s = DM_MEDIAN ->
  let w := Worker.new GetFFT s rate in
  let NExamine := Z.to_nat (1 + Settings.StepsPerWindow s) in
  let powers := (fun i => Worker.mSpectrums (q !!! i) !!! band) <$> seq 0 NExamine in
  let threshold :=
    Settings.mNewSensitivity s * ln 10 * Statistics.mMeans statistics !!! band in
  Forall (fun power => 0 <= power) powers ->
  sorted ≡ₚ powers -> Sorted Rge sorted ->
  (NExamine = 3%nat \/ NExamine = 5%nat)
  /\ (Worker.Classify w statistics q band = true
      <-> sorted !!! (NExamine / 2)%nat <= threshold).
Proof.
  intros Hwd Hv Hm w NExamine powers threshold Hpos Hperm Hsorted.
  destruct (StepsPerWindow_pow2 s (Settings.wd_steps _ _ Hwd)) as [HS2 HS].
  destruct (StepsPerWindow_even s rate Hwd Hv) as (k & Hk & Hk1 & _).
  assert (HS4 : (Settings.StepsPerWindow s <= 4)%Z).
  { unfold Settings.Validate in Hv.
    destruct (_ <? _)%Z; [discriminate|]. destruct (_ >? _)%Z; [discriminate|].
    rewrite Hm in Hv. change (DM_MEDIAN =? DM_MEDIAN)%Z with true in Hv.
    destruct (Z.gtb_spec (Settings.StepsPerWindow s) 4); [discriminate | assumption]. }
  assert (HS24 : Settings.StepsPerWindow s = 2%Z \/ Settings.StepsPerWindow s = 4%Z).
  { clear - Hk Hk1 HS4. lia. }
  assert (HN : Worker.mNWindowsToExamine w = (1 + Settings.StepsPerWindow s)%Z)
    by apply (NWindowsToExamine_new s rate Hwd).
  assert (Hlen : length powers = NExamine)
    by (subst powers; rewrite length_fmap, length_seq; reflexivity).
  assert (Hcase : NExamine = 3%nat \/ NExamine = 5%nat)
    by (subst NExamine; destruct HS24 as [-> | ->]; [left | right]; reflexivity).
  split; [exact Hcase|].
  apply Sorted_StronglySorted in Hsorted; [|intros x y z; apply Rge_trans].
  assert (Hall : threshold < 0 -> count_gt threshold powers = length powers).
  { intros Hneg. apply count_gt_all. eapply Forall_impl; [exact Hpos|].
    simpl. intros x Hx. lra. }
  unfold Worker.Classify. rewrite HN. fold NExamine. fold powers.
  replace (Worker.mMethod w) with DM_MEDIAN by (symmetry; exact Hm).
  change (DM_MEDIAN =? DM_MEDIAN)%Z with true. cbv iota.
  replace (Worker.mNewSensitivity w) with (Settings.mNewSensitivity s * ln 10)
    by (subst w; cbn [Worker.new Worker.mNewSensitivity]; do 2 f_equal; lra).
  fold threshold.
  rewrite (sorted_nth_count _ _ Hsorted)
    by (rewrite Hperm, Hlen; destruct Hcase as [Hc | Hc]; rewrite Hc; simpl; lia).
  rewrite (count_gt_perm _ _ _ Hperm).
  destruct HS24 as [HSe | HSe]; rewrite HSe.
  - (* three windows: the second greatest *)
    change (1 + 2 =? 3)%Z with true. cbv iota.
    replace (NExamine / 2)%nat with 1%nat
      by (subst NExamine; rewrite HSe; reflexivity).
    rewrite bool_decide_eq_true, second_step_count by lra.
    rewrite !count_gt_cons.
    destruct (decide (threshold < 0)) as [Hneg|Hnn]; [|tauto].
    rewrite (Hall Hneg), Hlen. subst NExamine. rewrite HSe. simpl. lia.
  - change (1 + 4 =? 3)%Z with false. change (1 + 4 =? 5)%Z with true. cbv iota.
    replace (NExamine / 2)%nat with 2%nat
      by (subst NExamine; rewrite HSe; reflexivity).
    rewrite bool_decide_eq_true, third_step_count by lra.
    rewrite !count_gt_cons.
    destruct (decide (threshold < 0)) as [Hneg|Hnn]; [|tauto].
    rewrite (Hall Hneg), Hlen. subst NExamine. rewrite HSe. simpl. lia.
Qed.

Lemma settings_median_well_defined : Settings.well_defined settings_median 44100.
Proof.
  assert (HW : Settings.WindowSize settings_median = 2048%Z) by reflexivity.
  assert (HS : Settings.StepsPerWindow settings_median = 4%Z) by reflexivity.
  constructor; rewrite ?HW, ?HS; simpl;
    unfold WT_N_WINDOW_TYPES, WT_HANN_HANN;
    try change (2048 / 4)%Z with 512%Z; try lia; try lra.
Qed.

Lemma Classify_median_witness :
  let w := Worker.new GetFFT_example settings_median 44100 in
  (Worker.Classify w statistics_example queue_example 0 = true
   <-> [20; 5; 4; 3; 2] !!! 2%nat
       <= Settings.mNewSensitivity settings_median * ln 10
          * Statistics.mMeans statistics_example !!! 0%nat)
  /\ Worker.Classify w statistics_example queue_example 0 = true.
Proof.
  cbv zeta.
  destruct (Classify_median GetFFT_example settings_median 44100
              statistics_example queue_example 0%nat [20; 5; 4; 3; 2]
              settings_median_well_defined eq_refl eq_refl) as [_ Hiff].
  - change (Z.to_nat (1 + Settings.StepsPerWindow settings_median)) with 5%nat.
    repeat constructor; simpl; lra.
  - change (Z.to_nat (1 + Settings.StepsPerWindow settings_median)) with 5%nat.
    change ([20; 5; 4; 3; 2] ≡ₚ [3; 20; 4; 2; 5]).
    apply (Permutation_cons_app [3] [4; 2; 5] 20).
    apply (Permutation_cons_app [3; 4; 2] [] 5).
    apply (Permutation_cons_app [3] [2] 4).
    reflexivity.
  - repeat constructor; lra.
  - change (Z.to_nat (1 + Settings.StepsPerWindow settings_median) / 2)%nat
      with 2%nat in Hiff.
    split; [exact Hiff|]. apply Hiff.
    change ([20; 5; 4; 3; 2] !!! 2%nat) with 4.
    change (Statistics.mMeans statistics_example !!! 0%nat) with 1.
    change (Settings.mNewSensitivity settings_median) with 6.0.
    pose proof ln_10_ge_1. lra.
Defined.

(** ** The gains of the center window *)


Lemma fill_beyond (first last : nat) (x : R) (v : list R) :
  (length v <= first)%nat -> fill first last x v = v.
Proof.
  intros Hlen. apply list_eq. intros i. unfold fill. rewrite list_lookup_imap.
  destruct (v !! i) as [y|] eqn:Hi; [|reflexivity]. simpl.
  apply lookup_lt_Some in Hi.
  rewrite bool_decide_eq_false_2 by lia. reflexivity.
Qed.








(** ** One turn of the loop of [ProcessSamples] *)

Lemma ReduceNoise_counters (w : Worker.t) (statistics : Statistics.t) (st : Worker.state)
    (outputTrack : list R) :
  let r := Worker.ReduceNoise w statistics st outputTrack in
  Worker.mInWavePos (fst r) = Worker.mInWavePos st
  /\ Worker.mOutStepCount (fst r) = Worker.mOutStepCount st
  /\ Worker.mInSampleCount (fst r) = Worker.mInSampleCount st
  /\ Worker.mInWaveBuffer (fst r) = Worker.mInWaveBuffer st.
Proof.
  intros r. subst r. unfold Worker.ReduceNoise. cbv zeta.
  destruct (_ >=? _)%Z; [|repeat split; reflexivity].
  unfold Worker.ReduceNoise_output. cbv zeta.
  destruct (if (Worker.mNoiseReductionChoice w =? NRC_ISOLATE_NOISE)%Z then _ else _).
  repeat split; reflexivity.
Qed.

Lemma ReduceNoise_output_effect (w : Worker.t) (st : Worker.state) (outputTrack : list R) :
  let W := Z.to_nat (Worker.mWindowSize w) in
  let H := Z.to_nat (Worker.mStepSize w) in
  length (Worker.mOutOverlapBuffer st) = W -> (H <= W)%nat ->
  let r := Worker.ReduceNoise_output w st outputTrack in
  length (Worker.mOutOverlapBuffer (fst r)) = W
  /\ exists extra,
       snd r = outputTrack ++ extra
       /\ length extra = if (Worker.mOutStepCount st >=? 0)%Z then H else 0%nat.
Proof.
  intros W H Hlen HHW r. subst r. unfold Worker.ReduceNoise_output. cbv zeta.
  destruct (if (Worker.mNoiseReductionChoice w =? NRC_ISOLATE_NOISE)%Z then _ else _)
    as [scratch gains].
  cbn [fst snd Worker.mOutOverlapBuffer].
  fold W H.
  match goal with
  | |- context [take H (foldl ?f ?o ?l)] => set (overlap := foldl f o l)
  end.
  assert (Ho : length overlap = W).
  { subst overlap. apply (foldl_preserves (fun o => length o = W)); [exact Hlen|].
    intros o jj Hl. rewrite !length_insert. exact Hl. }
  split.
  - rewrite length_fill, length_app, length_take, !length_drop. lia.
  - destruct (Worker.mOutStepCount st >=? 0)%Z.
    + exists (take H overlap). split; [reflexivity|]. rewrite length_take. lia.
    + exists []. split; [rewrite app_nil_r; reflexivity | reflexivity].
Qed.

(** [ReduceNoise] appends one step of samples to the output track when
    [mOutStepCount] is not negative, and nothing otherwise; the overlap
    buffer keeps its size. *)
Lemma ReduceNoise_effect (w : Worker.t) (statistics : Statistics.t) (st : Worker.state)
    (outputTrack : list R) :
  let W := Z.to_nat (Worker.mWindowSize w) in
  let H := Z.to_nat (Worker.mStepSize w) in
  length (Worker.mOutOverlapBuffer st) = W -> (H <= W)%nat ->
  (1 <= Worker.mStepsPerWindow w < 2 ^ 31)%Z ->
  let r := Worker.ReduceNoise w statistics st outputTrack in
  length (Worker.mOutOverlapBuffer (fst r)) = W
  /\ exists extra,
       snd r = outputTrack ++ extra
       /\ length extra = if (Worker.mOutStepCount st >=? 0)%Z then H else 0%nat.
Proof.
  intros W H Hlen HHW HS r. subst r. unfold Worker.ReduceNoise. cbv zeta.
  change (2 ^ 31)%Z with 2147483648%Z in HS.
  rewrite to_unsigned_small by (change (2 ^ 32)%Z with 4294967296%Z; lia).
  rewrite to_int_small by (change (2 ^ 31)%Z with 2147483648%Z; lia).
  match goal with
  | |- context [Worker.set_mQueue ?q st] => set (st2 := Worker.set_mQueue q st)
  end.
  pose proof (ReduceNoise_output_effect w st2 outputTrack Hlen HHW) as Hout.
  cbv zeta in Hout.
  cbn [st2 Worker.set_mQueue Worker.mOutStepCount Worker.mOutOverlapBuffer] in Hout.
  destruct (Z.geb_spec (Worker.mOutStepCount st2)
              (- (Worker.mStepsPerWindow w - 1))) as [Hge | Hlt].
  - exact Hout.
  - cbn [fst snd st2 Worker.set_mQueue Worker.mOutStepCount Worker.mOutOverlapBuffer] in *.
    split; [exact Hlen|].
    exists []. split; [rewrite app_nil_r; reflexivity|].
    destruct (Z.geb_spec (Worker.mOutStepCount st) 0); [lia | reflexivity].
Qed.

(** What one turn of the loop does to the counters, to the statistics and
    to the output track: [avail] samples are taken from the buffer;
    when they complete a window, the window is processed and the write
    position steps back by [mStepSize]. *)
Lemma ProcessSamples_body_spec (w : Worker.t) (statistics : Statistics.t)
    (st : Worker.state) (outputTrack buffer : list R) :
  (1 <= Worker.mStepSize w <= Worker.mWindowSize w)%Z ->
  (Worker.mWindowSize w < 2 ^ 31)%Z ->
  (1 <= Worker.mStepsPerWindow w < 2 ^ 31)%Z ->
  (0 <= Worker.mInWavePos st < Worker.mWindowSize w)%Z ->
  let avail := Z.min (Z.of_nat (length buffer))
                     (Worker.mWindowSize w - Worker.mInWavePos st) in
  let c' := Worker.ProcessSamples_body w (statistics, st, outputTrack, buffer) in
  let statistics' := fst (fst (fst c')) in
  let st' := snd (fst (fst c')) in
  let outputTrack' := snd (fst c') in
  snd c' = drop (Z.to_nat avail) buffer
  /\ Worker.mInSampleCount st' = Worker.mInSampleCount st
  /\ if decide (Worker.mInWavePos st + avail = Worker.mWindowSize w)%Z
     then Worker.mInWavePos st' = (Worker.mWindowSize w - Worker.mStepSize w)%Z
          /\ Worker.mOutStepCount st' = (Worker.mOutStepCount st + 1)%Z
          /\ if Worker.mDoProfile w
             then (exists window,
                     statistics' = Worker.GatherStatistics w statistics window)
                  /\ outputTrack' = outputTrack
                  /\ Worker.mOutOverlapBuffer st' = Worker.mOutOverlapBuffer st
             else statistics' = statistics
                  /\ (length (Worker.mOutOverlapBuffer st)
                      = Z.to_nat (Worker.mWindowSize w) ->
                      length (Worker.mOutOverlapBuffer st')
                      = Z.to_nat (Worker.mWindowSize w)
                      /\ exists extra,
                           outputTrack' = outputTrack ++ extra
                           /\ length extra
                              = if (Worker.mOutStepCount st >=? 0)%Z
                                then Z.to_nat (Worker.mStepSize w) else 0%nat)
     else Worker.mInWavePos st' = (Worker.mInWavePos st + avail)%Z
          /\ Worker.mOutStepCount st' = Worker.mOutStepCount st
          /\ statistics' = statistics
          /\ outputTrack' = outputTrack
          /\ Worker.mOutOverlapBuffer st' = Worker.mOutOverlapBuffer st.
Proof.
  intros HH HW HS Hpos avail c' statistics' st' outputTrack'.
  subst statistics' st' outputTrack' c'. unfold Worker.ProcessSamples_body. cbv zeta.
  change (2 ^ 31)%Z with 2147483648%Z in HW.
  rewrite to_size_t_small
    by (change (2 ^ 64)%Z with 18446744073709551616%Z; lia).
  rewrite to_int_small by (change (2 ^ 31)%Z with 2147483648%Z; lia).
  fold avail. cbn [Worker.mInWavePos].
  assert (Havail : (0 <= avail)%Z) by (subst avail; lia).
  rewrite (Z2Nat.id avail Havail).
  destruct (Z.eqb_spec (Worker.mInWavePos st + avail) (Worker.mWindowSize w))
    as [Heq | Hne];
    (destruct (decide _) as [Hd | Hd]; [try contradiction | try contradiction]).
  - match goal with
    | |- context [Worker.FillFirstHistoryWindow w ?s] =>
        set (st2 := Worker.FillFirstHistoryWindow w s)
    end.
    destruct (Worker.mDoProfile w).
    + cbn [fst snd Worker.RotateHistoryWindows Worker.set_mQueue Worker.mInSampleCount
           Worker.mInWavePos Worker.mOutStepCount Worker.mOutOverlapBuffer].
      cbn [st2 Worker.FillFirstHistoryWindow Worker.mInSampleCount Worker.mInWavePos
           Worker.mOutStepCount Worker.mOutOverlapBuffer].
      split; [reflexivity|]. split; [reflexivity|]. split; [lia|]. split; [reflexivity|].
      split; [exists st2; reflexivity|]. split; reflexivity.
    + pose proof (ReduceNoise_effect w statistics st2 outputTrack) as Heff.
      pose proof (ReduceNoise_counters w statistics st2 outputTrack)
        as (Hp3 & Hs3 & Hm3 & _).
      cbv zeta in Heff.
      destruct (Worker.ReduceNoise w statistics st2 outputTrack) as [st3 out3].
      cbn [fst snd Worker.RotateHistoryWindows Worker.set_mQueue Worker.mInSampleCount
           Worker.mInWavePos Worker.mOutStepCount Worker.mOutOverlapBuffer] in *.
      cbn [st2 Worker.FillFirstHistoryWindow Worker.mInSampleCount Worker.mInWavePos
           Worker.mOutStepCount Worker.mOutOverlapBuffer Worker.mInWaveBuffer]
        in Heff, Hp3, Hs3, Hm3.
      assert (HHW : (Z.to_nat (Worker.mStepSize w) <= Z.to_nat (Worker.mWindowSize w))%nat)
        by lia.
      split; [reflexivity|]. split; [exact Hm3|]. split; [lia|]. split; [lia|].
      split; [reflexivity|].
      intros Hlen. exact (Heff Hlen HHW HS).
  - cbn [fst snd Worker.mInSampleCount Worker.mInWavePos Worker.mOutStepCount
         Worker.mOutOverlapBuffer].
    repeat split; reflexivity.
Qed.

(** ** The loops of [ProcessSamples] and [ProcessOne] *)

Lemma ProcessSamples_invariant (w : Worker.t) (P : Worker.config -> Prop) :
  (forall c, P c -> Worker.ProcessSamples_test w c = true ->
     P (Worker.ProcessSamples_body w c)
     /\ (length (snd (Worker.ProcessSamples_body w c)) < length (snd c))%nat) ->
  forall fuel c, P c -> (length (snd c) <= fuel)%nat ->
  exists c', Worker.ProcessSamples w fuel c = Some c'
             /\ P c' /\ Worker.ProcessSamples_test w c' = false.
Proof.
  intros Hstep. induction fuel as [|fuel IH]; intros c HP Hlen;
    cbn [Worker.ProcessSamples];
    destruct (Worker.ProcessSamples_test w c) eqn:Htest;
    try (exists c; split; [reflexivity | split; assumption]).
  - destruct (Hstep c HP Htest) as [_ Hless]. lia.
  - destruct (Hstep c HP Htest) as [HP' Hless]. apply IH; [exact HP' | lia].
Qed.

Lemma ProcessSamples_test_true (w : Worker.t) (c : Worker.config) :
  Worker.ProcessSamples_test w c = true ->
  (0 < length (snd c))%nat
  /\ (Worker.mOutStepCount (snd (fst (fst c))) * Worker.mStepSize w
      < Worker.mInSampleCount (snd (fst (fst c))))%Z.
Proof.
  destruct c as [[[statistics st] outputTrack] buffer].
  unfold Worker.ProcessSamples_test. intros Htest.
  apply andb_prop in Htest as [Hb Hs]. apply bool_decide_eq_true in Hb.
  apply Z.ltb_lt in Hs. split; assumption.
Qed.

Lemma ProcessSamples_test_false (w : Worker.t) (c : Worker.config) :
  Worker.ProcessSamples_test w c = false ->
  snd c = []
  \/ (Worker.mInSampleCount (snd (fst (fst c)))
      <= Worker.mOutStepCount (snd (fst (fst c))) * Worker.mStepSize w)%Z.
Proof.
  destruct c as [[[statistics st] outputTrack] buffer].
  unfold Worker.ProcessSamples_test. intros Htest.
  apply andb_false_iff in Htest as [Hb | Hs].
  - left. apply bool_decide_eq_false in Hb. destruct buffer; [reflexivity|].
    simpl in Hb. lia.
  - right. apply Z.ltb_ge in Hs. exact Hs.
Qed.

Lemma profile_progress_body (w : Worker.t) (initial : Statistics.t) (samples : Z)
    (c : Worker.config) :
  sizes_ok w -> Worker.mDoProfile w = true ->
  profile_progress w initial samples c -> Worker.ProcessSamples_test w c = true ->
  profile_progress w initial samples (Worker.ProcessSamples_body w c)
  /\ (length (snd (Worker.ProcessSamples_body w c)) < length (snd c))%nat.
Proof.
  intros [Hwin Hstep Hsteps Hsmall _] Hp Hinv Htest.
  destruct (ProcessSamples_test_true w c Htest) as [Hbuf _].
  destruct c as [[[statistics st] outputTrack] buffer].
  destruct Hinv as (Hpos & Hsamples & Hsum & Hfirst & (windows & Hwindows & Hcount) & Hout).
  cbn [fst snd] in Hbuf.
  assert (HHW : (1 <= Worker.mStepSize w <= Worker.mWindowSize w)%Z) by nia.
  assert (HS : (1 <= Worker.mStepsPerWindow w < 2 ^ 31)%Z).
  { change (2 ^ 31)%Z with 2147483648%Z in *. nia. }
  pose proof (ProcessSamples_body_spec w statistics st outputTrack buffer
                HHW Hsmall HS Hpos) as Hspec.
  cbv zeta in Hspec. rewrite Hp in Hspec.
  destruct (Worker.ProcessSamples_body w (statistics, st, outputTrack, buffer))
    as [[[statistics' st'] outputTrack'] buffer'].
  cbn [fst snd] in *.
  set (avail := Z.min (Z.of_nat (length buffer))
                      (Worker.mWindowSize w - Worker.mInWavePos st)) in *.
  assert (Havail : (1 <= avail <= Z.of_nat (length buffer))%Z) by (subst avail; lia).
  destruct Hspec as (Hbuf' & HM & Hcase).
  assert (Hlen' : Z.of_nat (length buffer') = (Z.of_nat (length buffer) - avail)%Z)
    by (rewrite Hbuf', length_drop; lia).
  split; [|lia].
  destruct (decide _) as [Hfull | Hpart].
  - destruct Hcase as (Hpos' & Hstep' & (window & Hgather) & Hout' & _).
    unfold profile_progress. rewrite Hpos', Hstep', HM, Hout', Hlen'.
    split; [lia|]. split; [assumption|]. split; [lia|]. split; [lia|].
    split; [|assumption].
    exists (windows ++ [window]). split.
    + rewrite Hgather, Hwindows. unfold gather_track. rewrite foldl_app. reflexivity.
    + rewrite length_app. simpl. lia.
  - destruct Hcase as (Hpos' & Hstep' & Hstat' & Hout' & _).
    unfold profile_progress. rewrite Hpos', Hstep', HM, Hstat', Hout', Hlen'.
    split; [lia|]. split; [assumption|]. split; [lia|]. split; [lia|].
    split; [|assumption]. exists windows. split; assumption.
Qed.

Lemma ProcessOne_block_profile (w : Worker.t) (fuel : nat) (initial : Statistics.t)
    (samples : Z) (statistics : Statistics.t) (st : Worker.state) (block : list R) :
  sizes_ok w -> Worker.mDoProfile w = true -> (length block <= fuel)%nat ->
  profile_progress w initial samples (statistics, st, [], []) ->
  exists statistics' st',
    Worker.ProcessOne_block w fuel (Some (statistics, st, [])) block
    = Some (statistics', st', [])
    /\ profile_progress w initial (samples + Z.of_nat (length block))
         (statistics', st', [], []).
Proof.
  intros Hsizes Hp Hfuel (Hpos & Hsamples & Hsum & Hfirst & Hwindows & _).
  cbn [length] in Hsum.
  assert (Hstart : profile_progress w initial (samples + Z.of_nat (length block))
                     (statistics, Worker.add_samples (Z.of_nat (length block)) st,
                      [], block)).
  { unfold profile_progress.
    cbn [Worker.add_samples Worker.mInWavePos Worker.mOutStepCount Worker.mInSampleCount].
    split; [assumption|]. split; [lia|]. split; [lia|]. split; [assumption|].
    split; [assumption | reflexivity]. }
  destruct (ProcessSamples_invariant w
              (profile_progress w initial (samples + Z.of_nat (length block)))
              (fun c => profile_progress_body w _ _ c Hsizes Hp) fuel _ Hstart Hfuel)
    as ([[[statistics' st'] outputTrack'] buffer'] & Hrun & Hinv & Htest).
  unfold Worker.ProcessOne_block. rewrite Hrun.
  destruct Hinv as (Hpos' & Hsamples' & Hsum' & Hfirst' & Hwindows' & Hout').
  assert (Hempty : buffer' = []).
  { destruct (ProcessSamples_test_false w _ Htest) as [He | Hle]; [exact He|].
    cbn [fst snd] in Hle. destruct buffer'; [reflexivity|]. simpl in Hsum'. lia. }
  subst buffer' outputTrack'. exists statistics', st'. split; [reflexivity|].
  unfold profile_progress.
  split; [assumption|]. split; [assumption|]. split; [assumption|].
  split; [assumption|]. split; [assumption | reflexivity].
Qed.

Lemma ProcessOne_blocks_profile (w : Worker.t) (fuel : nat) (initial : Statistics.t)
    (blocks : list (list R)) :
  sizes_ok w -> Worker.mDoProfile w = true ->
  Forall (fun block => length block <= fuel)%nat blocks ->
  forall samples statistics st,
  profile_progress w initial samples (statistics, st, [], []) ->
  exists statistics' st',
    foldl (Worker.ProcessOne_block w fuel) (Some (statistics, st, [])) blocks
    = Some (statistics', st', [])
    /\ profile_progress w initial (samples + Z.of_nat (total_length blocks))
         (statistics', st', [], []).
Proof.
  intros Hsizes Hp Hfuel. induction Hfuel as [|block blocks Hb _ IH];
    intros samples statistics st Hinv.
  - exists statistics, st. split; [reflexivity|].
    unfold total_length. simpl. rewrite Z.add_0_r. exact Hinv.
  - destruct (ProcessOne_block_profile w fuel initial samples statistics st block
                Hsizes Hp Hb Hinv) as (statistics1 & st1 & Hrun & Hinv1).
    cbn [foldl]. rewrite Hrun.
    destruct (IH _ _ _ Hinv1) as (statistics' & st' & Hrun' & Hinv').
    exists statistics', st'. split; [exact Hrun'|].
    replace (samples + Z.of_nat (total_length (block :: blocks)))%Z
      with (samples + Z.of_nat (length block) + Z.of_nat (total_length blocks))%Z;
      [exact Hinv'|].
    unfold total_length. simpl. rewrite length_app. lia.
Qed.
Lemma FinishTrackStatistics_counts (statistics : Statistics.t) :
  Statistics.mTotalWindows (Worker.FinishTrackStatistics statistics)
  = (Statistics.mTrackWindows statistics + Statistics.mTotalWindows statistics)%Z
  /\ Statistics.mTrackWindows (Worker.FinishTrackStatistics statistics) = 0%Z
  /\ (Statistics.mTrackWindows statistics = 0%Z ->
      Worker.FinishTrackStatistics statistics = statistics).
Proof.
  unfold Worker.FinishTrackStatistics. cbv zeta.
  destruct (Z.eqb_spec (Statistics.mTrackWindows statistics) 0) as [H0 | Hne].
  - cbn. split; [reflexivity|]. split; [reflexivity|]. intros _.
    rewrite H0. destruct statistics. cbn in *. subst. reflexivity.
  - destruct (foldl _ _ _) as [means sums]. cbn.
    split; [reflexivity|]. split; [reflexivity|]. intros H0. contradiction.
Qed.

(** The windows of a profile, counted from the samples. *)
Lemma profile_windows_count (W H N pos step : Z) :
  (1 <= H <= W)%Z -> (0 <= pos < W)%Z -> (0 <= step)%Z ->
  (pos + step * H = N)%Z -> (1 <= step -> W - H <= pos)%Z ->
  step = profile_windows W H N.
Proof.
  intros HH Hpos Hstep Hsum Hfirst. unfold profile_windows.
  destruct (Z.ltb_spec N W) as [Hlt | Hge].
  - destruct (Z.eq_dec step 0%Z) as [|Hne]; [assumption|].
    assert (H <= step * H)%Z by nia. lia.
  - assert (Hs1 : (1 <= step)%Z).
    { destruct (Z.eq_dec step 0%Z) as [H0|]; [|lia]. subst step. lia. }
    specialize (Hfirst Hs1).
    assert (Hq : ((N - W) / H = step - 1)%Z).
    { symmetry. apply (Z.div_unique_pos _ _ _ (pos - (W - H))); lia. }
    lia.
Qed.

Lemma gather_track_counts (w : Worker.t) (statistics : Statistics.t)
    (windows : list Worker.state) :
  Statistics.mTrackWindows (gather_track w statistics windows)
  = (Statistics.mTrackWindows statistics + Z.of_nat (length windows))%Z
  /\ Statistics.mTotalWindows (gather_track w statistics windows)
     = Statistics.mTotalWindows statistics.
Proof.
  unfold gather_track. induction windows as [|window windows IH] using rev_ind.
  - simpl. split; [lia | reflexivity].
  - rewrite foldl_app, length_app. cbn [foldl length].
    cbn [Worker.GatherStatistics Statistics.set_sums Statistics.mTrackWindows
         Statistics.mTotalWindows].
    destruct IH as [-> ->]. split; [lia | reflexivity].
Qed.

Lemma profile_progress_start (w : Worker.t) (statistics : Statistics.t)
    (st : Worker.state) :
  sizes_ok w -> Worker.mDoProfile w = true -> Worker.mHistoryLen w = 1%Z ->
  profile_progress w statistics 0 (statistics, Worker.StartNewTrack w st, [], []).
Proof.
  intros [Hwin Hstep Hsteps _ _] Hp HL.
  unfold profile_progress.
  cbn [Worker.StartNewTrack Worker.mInWavePos Worker.mOutStepCount Worker.mInSampleCount].
  rewrite Hp, HL. change (- to_int (to_unsigned (1 - 1)))%Z with 0%Z.
  split; [nia|]. split; [reflexivity|]. split; [reflexivity|]. split; [lia|].
  split; [|reflexivity]. exists []. split; reflexivity.
Qed.

(** A profile taken from the blocks of a track: the windows gathered are
    counted from the samples. *)
Lemma ProcessOne_profile_run (w : Worker.t) (fuel : nat) (statistics : Statistics.t)
    (st : Worker.state) (blocks : list (list R)) :
  sizes_ok w -> Worker.mDoProfile w = true -> Worker.mHistoryLen w = 1%Z ->
  Forall (fun block => length block <= fuel)%nat blocks ->
  exists windows st',
    Worker.ProcessOne w fuel statistics st blocks
    = Some (profile_track w statistics windows, st', [])
    /\ Z.of_nat (length windows)
       = profile_windows (Worker.mWindowSize w) (Worker.mStepSize w)
           (Z.of_nat (total_length blocks)).
Proof.
  intros Hsizes Hp HL Hfuel.
  destruct (ProcessOne_blocks_profile w fuel statistics blocks Hsizes Hp Hfuel 0
              statistics (Worker.StartNewTrack w st)
              (profile_progress_start w statistics st Hsizes Hp HL))
    as (statistics1 & st1 & Hrun & Hinv).
  destruct Hinv as (Hpos & _ & Hsum & Hfirst & (windows & Hwindows & Hcount) & _).
  cbn [length] in Hsum.
  destruct Hsizes as [Hwin Hstep Hsteps _ _].
  exists windows, st1. unfold Worker.ProcessOne. rewrite Hrun, Hp.
  split; [unfold profile_track; rewrite Hwindows; reflexivity|].
  rewrite Hcount.
  apply (profile_windows_count _ _ _ (Worker.mInWavePos st1)); try assumption; try lia.
  nia.
Qed.

Lemma profile_track_total (w : Worker.t) (statistics : Statistics.t)
    (windows : list Worker.state) :
  Statistics.mTotalWindows (profile_track w statistics windows)
  = (Statistics.mTrackWindows statistics + Statistics.mTotalWindows statistics
     + Z.of_nat (length windows))%Z.
Proof.
  unfold profile_track.
  destruct (FinishTrackStatistics_counts (gather_track w statistics windows)) as [-> _].
  destruct (gather_track_counts w statistics windows) as [-> ->]. lia.
Qed.

Lemma HistoryLen_profile (GetFFT : Z -> HFFT) (s : Settings.t) (rate : R) :
  Settings.mDoProfile s = true ->
  Worker.mHistoryLen (Worker.new GetFFT s rate) = 1%Z.
Proof.
  intros Hp. cbn [Worker.new Worker.mHistoryLen]. unfold Worker.HistoryLen.
  rewrite Hp. reflexivity.
Qed.

(** X7.  Taking a profile from a track.  Whatever the blocks in which the
    host hands over its [N] samples, [ProcessOne] gathers
    [1 + (N - W) / H] windows when the samples fill a window ([N >= W])
    and none otherwise, and leaves the statistics that
    [FinishTrackStatistics] makes of the statistics given and these
    windows; the window count of the profile grows by that number.  In
    particular fewer than [W] samples add no window to the profile. *)
Theorem ProcessOne_profile (GetFFT : Z -> HFFT) (s : Settings.t) (rate : R)
    (fuel : nat) (statistics : Statistics.t) (st : Worker.state)
    (blocks : list (list R)) :
  Settings.well_defined s rate -> Settings.Validate s = true ->
  (Settings.WindowSize s < 2 ^ 31)%Z -> Settings.mDoProfile s = true ->
  Forall (fun block => length block <= fuel)%nat blocks ->
  let w := Worker.new GetFFT s rate in
  let N := Z.of_nat (total_length blocks) in
  let count := profile_windows (Worker.mWindowSize w) (Worker.mStepSize w) N in
  exists windows st',
    Worker.ProcessOne w fuel statistics st blocks
    = Some (profile_track w statistics windows, st', [])
    /\ Z.of_nat (length windows) = count
    /\ Statistics.mTotalWindows (profile_track w statistics windows)
       = (Statistics.mTrackWindows statistics + Statistics.mTotalWindows statistics
          + count)%Z
    /\ ((N < Worker.mWindowSize w)%Z -> count = 0%Z /\ windows = []).
Proof.
  intros Hwd Hv Hsmall Hp Hfuel w N count.
  assert (Hsizes : sizes_ok w) by (apply sizes_ok_new; assumption).
  destruct (ProcessOne_profile_run w fuel statistics st blocks Hsizes Hp
              (HistoryLen_profile GetFFT s rate Hp) Hfuel)
    as (windows & st' & Hrun & Hcount).
  fold N count in Hcount.
  exists windows, st'. split; [exact Hrun|]. split; [exact Hcount|]. split.
  - rewrite profile_track_total, Hcount. reflexivity.
  - intros Hshort.
    assert (Hzero : count = 0%Z).
    { subst count. unfold profile_windows.
      destruct (Z.ltb_spec N (Worker.mWindowSize w)); [reflexivity | lia]. }
    split; [exact Hzero|]. destruct windows; [reflexivity|]. simpl in Hcount. lia.
Qed.

Lemma ProcessOne_profile_witness :
  let w := Worker.new GetFFT_example settings_profile_8 44100 in
  let statistics := Statistics.new (Worker.mSpectrumSize w) 44100 WT_RECTANGULAR_HANN in
  exists windows st',
    Worker.ProcessOne w 6 statistics (Worker.new_state settings_profile_8 44100)
      [[1; 2; 3; 4; 5]; [6; 7; 8; 9; 10; 11]]
    = Some (profile_track w statistics windows, st', [])
    /\ Z.of_nat (length windows) = 2%Z
    /\ Statistics.mTotalWindows (profile_track w statistics windows) = 2%Z.
Proof.
  cbv zeta.
  destruct (ProcessOne_profile GetFFT_example settings_profile_8 44100 6
              (Statistics.new
                 (Worker.mSpectrumSize (Worker.new GetFFT_example settings_profile_8 44100))
                 44100 WT_RECTANGULAR_HANN)
              (Worker.new_state settings_profile_8 44100)
              [[1; 2; 3; 4; 5]; [6; 7; 8; 9; 10; 11]]
              settings_profile_8_well_defined eq_refl eq_refl eq_refl)
    as (windows & st' & Hrun & Hcount & Htotal & _).
  - repeat constructor.
  - exists windows, st'. split; [exact Hrun|]. split; [exact Hcount | exact Htotal].
Defined.

(** ** Reducing the noise of a track *)

Lemma reduce_progress_body (w : Worker.t) (initial : Statistics.t) (samples fed : Z)
    (c : Worker.config) :
  sizes_ok w -> Worker.mDoProfile w = false ->
  reduce_progress w initial samples fed c -> Worker.ProcessSamples_test w c = true ->
  reduce_progress w initial samples fed (Worker.ProcessSamples_body w c)
  /\ (length (snd (Worker.ProcessSamples_body w c)) < length (snd c))%nat.
Proof.
  intros [Hwin Hstep Hsteps Hsmall _] Hp Hinv Htest.
  destruct (ProcessSamples_test_true w c Htest) as [Hbuf _].
  destruct c as [[[statistics st] outputTrack] buffer].
  destruct Hinv as (Hpos & Hsamples & Hoverlap & Hout & Hfed & Hstat).
  cbn [fst snd] in Hbuf.
  assert (HHW : (1 <= Worker.mStepSize w <= Worker.mWindowSize w)%Z) by nia.
  assert (HS : (1 <= Worker.mStepsPerWindow w < 2 ^ 31)%Z).
  { change (2 ^ 31)%Z with 2147483648%Z in *. nia. }
  assert (Hpos0 : (0 <= Worker.mInWavePos st < Worker.mWindowSize w)%Z) by lia.
  pose proof (ProcessSamples_body_spec w statistics st outputTrack buffer
                HHW Hsmall HS Hpos0) as Hspec.
  cbv zeta in Hspec. rewrite Hp in Hspec.
  destruct (Worker.ProcessSamples_body w (statistics, st, outputTrack, buffer))
    as [[[statistics' st'] outputTrack'] buffer'].
  cbn [fst snd] in *.
  set (avail := Z.min (Z.of_nat (length buffer))
                      (Worker.mWindowSize w - Worker.mInWavePos st)) in *.
  assert (Havail : (1 <= avail <= Z.of_nat (length buffer))%Z) by (subst avail; lia).
  destruct Hspec as (Hbuf' & HM & Hcase).
  assert (Hlen' : Z.of_nat (length buffer') = (Z.of_nat (length buffer) - avail)%Z)
    by (rewrite Hbuf', length_drop; lia).
  split; [|lia].
  destruct (decide _) as [Hfull | Hpart].
  - destruct Hcase as (Hpos' & Hstep' & Hstat' & Heff).
    destruct (Heff Hoverlap) as (Hoverlap' & extra & Hout' & Hextra).
    unfold reduce_progress. rewrite Hpos', Hstep', HM, Hstat', Hlen'.
    split; [lia|]. split; [assumption|]. split; [assumption|].
    split; [|split; [lia | assumption]].
    rewrite Hout', length_app, Nat2Z.inj_add, Hout, Hextra.
    destruct (Z.geb_spec (Worker.mOutStepCount st) 0).
    + rewrite !Z.max_r by lia. lia.
    + rewrite !Z.max_l by lia. simpl. lia.
  - destruct Hcase as (Hpos' & Hstep' & Hstat' & Hout' & Hoverlap').
    unfold reduce_progress. rewrite Hpos', Hstep', HM, Hstat', Hout', Hoverlap', Hlen'.
    assert (avail = Z.of_nat (length buffer)) by (subst avail; lia).
    split; [lia|]. split; [assumption|]. split; [assumption|].
    split; [assumption|]. split; [lia | assumption].
Qed.

Lemma reduce_progress_start (w : Worker.t) (statistics : Statistics.t)
    (st : Worker.state) :
  sizes_ok w -> Worker.mDoProfile w = false ->
  (1 <= Worker.mHistoryLen w < 2 ^ 31)%Z ->
  length (Worker.mOutOverlapBuffer st) = Z.to_nat (Worker.mWindowSize w) ->
  reduce_progress w statistics 0 0 (statistics, Worker.StartNewTrack w st, [], []).
Proof.
  intros [Hwin Hstep Hsteps Hsmall _] Hp HL Hoverlap.
  change (2 ^ 31)%Z with 2147483648%Z in *.
  assert (HHW : (Worker.mStepSize w <= Worker.mWindowSize w)%Z) by nia.
  assert (HS : (Worker.mStepsPerWindow w <= Worker.mWindowSize w)%Z) by nia.
  unfold reduce_progress.
  cbn [Worker.StartNewTrack Worker.mInWavePos Worker.mOutStepCount Worker.mInSampleCount
       Worker.mOutOverlapBuffer].
  rewrite Hp.
  rewrite to_size_t_small by (change (2 ^ 64)%Z with 18446744073709551616%Z; lia).
  rewrite !to_unsigned_small by (change (2 ^ 32)%Z with 4294967296%Z; lia).
  rewrite !to_int_small by (change (2 ^ 31)%Z with 2147483648%Z; lia).
  split; [lia|]. split; [reflexivity|]. split; [rewrite length_fill; exact Hoverlap|].
  split; [rewrite Z.max_l by lia; simpl; lia|]. split; [simpl; lia | reflexivity].
Qed.

Lemma ProcessOne_block_reduce (w : Worker.t) (fuel : nat) (initial : Statistics.t)
    (samples : Z) (statistics : Statistics.t) (st : Worker.state)
    (outputTrack block : list R) :
  sizes_ok w -> Worker.mDoProfile w = false -> (1 <= Worker.mHistoryLen w)%Z ->
  (length block <= fuel)%nat ->
  reduce_progress w initial samples samples (statistics, st, outputTrack, []) ->
  exists statistics' st' outputTrack',
    Worker.ProcessOne_block w fuel (Some (statistics, st, outputTrack)) block
    = Some (statistics', st', outputTrack')
    /\ reduce_progress w initial (samples + Z.of_nat (length block))
         (samples + Z.of_nat (length block)) (statistics', st', outputTrack', []).
Proof.
  intros Hsizes Hp HL Hfuel (Hpos & Hsamples & Hoverlap & Hout & Hfed & Hstat).
  cbn [length] in Hfed.
  assert (Hstart : reduce_progress w initial (samples + Z.of_nat (length block))
                     (samples + Z.of_nat (length block))
                     (statistics, Worker.add_samples (Z.of_nat (length block)) st,
                      outputTrack, block)).
  { unfold reduce_progress.
    cbn [Worker.add_samples Worker.mInWavePos Worker.mOutStepCount Worker.mInSampleCount
         Worker.mOutOverlapBuffer].
    split; [assumption|]. split; [lia|]. split; [assumption|]. split; [assumption|].
    split; [lia | assumption]. }
  destruct (ProcessSamples_invariant w
              (reduce_progress w initial (samples + Z.of_nat (length block))
                 (samples + Z.of_nat (length block)))
              (fun c => reduce_progress_body w _ _ _ c Hsizes Hp) fuel _ Hstart Hfuel)
    as ([[[statistics' st'] outputTrack'] buffer'] & Hrun & Hinv & Htest).
  unfold Worker.ProcessOne_block. rewrite Hrun.
  assert (Hempty : buffer' = []).
  { destruct (ProcessSamples_test_false w _ Htest) as [He | Hle]; [exact He|].
    cbn [fst snd] in Hle.
    destruct Hinv as (Hpos' & Hsamples' & _ & _ & Hfed' & _).
    destruct Hsizes as [Hwin Hstep Hsteps _ _].
    destruct buffer'; [reflexivity|]. simpl length in Hfed'. rewrite Hsamples' in Hle.
    exfalso.
    assert (0 <= (Worker.mHistoryLen w - 1 + (Worker.mStepsPerWindow w - 1))
                 * Worker.mStepSize w)%Z by nia.
    lia. }
  subst buffer'. exists statistics', st', outputTrack'. split; [reflexivity | exact Hinv].
Qed.

Lemma ProcessOne_blocks_reduce (w : Worker.t) (fuel : nat) (initial : Statistics.t)
    (blocks : list (list R)) :
  sizes_ok w -> Worker.mDoProfile w = false -> (1 <= Worker.mHistoryLen w)%Z ->
  Forall (fun block => length block <= fuel)%nat blocks ->
  forall samples statistics st outputTrack,
  reduce_progress w initial samples samples (statistics, st, outputTrack, []) ->
  exists statistics' st' outputTrack',
    foldl (Worker.ProcessOne_block w fuel) (Some (statistics, st, outputTrack)) blocks
    = Some (statistics', st', outputTrack')
    /\ reduce_progress w initial (samples + Z.of_nat (total_length blocks))
         (samples + Z.of_nat (total_length blocks)) (statistics', st', outputTrack', []).
Proof.
  intros Hsizes Hp HL Hfuel. induction Hfuel as [|block blocks Hb _ IH];
    intros samples statistics st outputTrack Hinv.
  - exists statistics, st, outputTrack. split; [reflexivity|].
    unfold total_length. simpl. rewrite Z.add_0_r. exact Hinv.
  - destruct (ProcessOne_block_reduce w fuel initial samples statistics st outputTrack
                block Hsizes Hp HL Hb Hinv) as (statistics1 & st1 & out1 & Hrun & Hinv1).
    cbn [foldl]. rewrite Hrun.
    destruct (IH _ _ _ _ Hinv1) as (statistics' & st' & out' & Hrun' & Hinv').
    exists statistics', st', out'. split; [exact Hrun'|].
    replace (samples + Z.of_nat (total_length (block :: blocks)))%Z
      with (samples + Z.of_nat (length block) + Z.of_nat (total_length blocks))%Z;
      [exact Hinv'|].
    unfold total_length. simpl. rewrite length_app. lia.
Qed.

(** One turn of the loop of [FinishTrack]: a step of zeros is pushed
    through, and exactly one more window is processed. *)
Lemma FinishTrack_flush (w : Worker.t) (turns : nat) (statistics : Statistics.t)
    (st : Worker.state) (outputTrack : list R) (samples fed : Z) :
  sizes_ok w -> Worker.mDoProfile w = false -> (1 <= Worker.mHistoryLen w)%Z ->
  (Z.to_nat (Worker.mStepSize w) <= turns)%nat ->
  reduce_progress w statistics samples fed (statistics, st, outputTrack, []) ->
  Worker.FinishTrack_test w st = true ->
  exists st' outputTrack' buffer' fed',
    Worker.ProcessSamples w turns
      (statistics, st, outputTrack, replicate (Z.to_nat (Worker.mStepSize w)) 0)
    = Some (statistics, st', outputTrack', buffer')
    /\ reduce_progress w statistics samples fed' (statistics, st', outputTrack', [])
    /\ Worker.mOutStepCount st' = (Worker.mOutStepCount st + 1)%Z.
Proof.
  intros Hsizes Hp HL Hturns Hinv Htest.
  pose proof Hsizes as [Hwin Hstep Hsteps Hsmall _].
  destruct Hinv as (Hpos & Hsamples & Hoverlap & Hout & Hfed & Hstat).
  cbn [length] in Hfed.
  unfold Worker.FinishTrack_test in Htest. apply Z.ltb_lt in Htest.
  set (zeros := replicate (Z.to_nat (Worker.mStepSize w)) 0).
  assert (Hzeros : Z.of_nat (length zeros) = Worker.mStepSize w)
    by (subst zeros; rewrite length_replicate; lia).
  assert (Hstart : reduce_progress w statistics samples (fed + Worker.mStepSize w)
                     (statistics, st, outputTrack, zeros)).
  { unfold reduce_progress. rewrite Hzeros.
    split; [assumption|]. split; [assumption|]. split; [assumption|].
    split; [assumption|]. split; [lia | reflexivity]. }
  destruct (ProcessSamples_invariant w
              (reduce_progress w statistics samples (fed + Worker.mStepSize w))
              (fun c => reduce_progress_body w _ _ _ c Hsizes Hp) turns _ Hstart)
    as ([[[statistics' st'] outputTrack'] buffer'] & Hrun & Hinv' & Htest').
  { cbn [snd]. subst zeros. rewrite length_replicate. exact Hturns. }
  destruct Hinv' as (Hpos' & Hsamples' & Hoverlap' & Hout' & Hfed' & Hstat').
  subst statistics'.
  exists st', outputTrack', buffer',
    (fed + Worker.mStepSize w - Z.of_nat (length buffer'))%Z.
  split; [exact Hrun|]. split.
  - unfold reduce_progress.
    split; [assumption|]. split; [assumption|]. split; [assumption|].
    split; [assumption|]. split; [simpl length; lia | reflexivity].
  - set (H := Worker.mStepSize w) in *.
    set (s0 := Worker.mOutStepCount st) in *.
    set (s1 := Worker.mOutStepCount st') in *.
    set (b := Z.of_nat (length buffer')) in *.
    assert (Hb : (0 <= b)%Z) by (subst b; lia).
    assert (Hd : ((s1 - s0) * H
                  = H + (Worker.mInWavePos st - (Worker.mWindowSize w - H))
                    - (Worker.mInWavePos st' - (Worker.mWindowSize w - H)) - b)%Z) by lia.
    assert (Hup : (s1 - s0 < 2)%Z) by nia.
    assert (Hlow : (1 <= s1 - s0)%Z).
    { destruct (ProcessSamples_test_false w _ Htest') as [He | Hle]; cbn [fst snd] in *.
      - assert (b = 0%Z) by (subst b; rewrite He; reflexivity). nia.
      - fold s1 H in Hle. rewrite Hsamples' in Hle. rewrite Hsamples in Htest.
        fold s0 H in Htest. nia. }
    lia.
Qed.

Lemma FinishTrack_loop_spec (w : Worker.t) (turns : nat) (statistics : Statistics.t)
    (samples : Z) :
  sizes_ok w -> Worker.mDoProfile w = false -> (1 <= Worker.mHistoryLen w)%Z ->
  (Z.to_nat (Worker.mStepSize w) <= turns)%nat ->
  forall fuel st outputTrack fed,
  reduce_progress w statistics samples fed (statistics, st, outputTrack, []) ->
  (samples <= (Worker.mOutStepCount st + Z.of_nat fuel) * Worker.mStepSize w)%Z ->
  exists st' outputTrack' fed',
    Worker.FinishTrack_loop w turns fuel (statistics, st, outputTrack)
    = Some (statistics, st', outputTrack')
    /\ reduce_progress w statistics samples fed' (statistics, st', outputTrack', [])
    /\ (samples <= Worker.mOutStepCount st' * Worker.mStepSize w)%Z
    /\ (Worker.mOutStepCount st' = Worker.mOutStepCount st
        \/ ((Worker.mOutStepCount st' - 1) * Worker.mStepSize w < samples)%Z).
Proof.
  intros Hsizes Hp HL Hturns. induction fuel as [|fuel IH];
    intros st outputTrack fed Hinv Hfuel;
    cbn [Worker.FinishTrack_loop];
    destruct (Worker.FinishTrack_test w st) eqn:Htest.
  - exfalso. unfold Worker.FinishTrack_test in Htest. apply Z.ltb_lt in Htest.
    destruct Hinv as (_ & Hsamples & _). rewrite Hsamples in Htest. lia.
  - exists st, outputTrack, fed. split; [reflexivity|]. split; [exact Hinv|].
    unfold Worker.FinishTrack_test in Htest. apply Z.ltb_ge in Htest.
    destruct Hinv as (_ & Hsamples & _). rewrite Hsamples in Htest.
    split; [exact Htest | left; reflexivity].
  - destruct (FinishTrack_flush w turns statistics st outputTrack samples fed
                Hsizes Hp HL Hturns Hinv Htest)
      as (st1 & out1 & buffer1 & fed1 & Hrun & Hinv1 & Hstep1).
    rewrite Hrun.
    destruct (IH st1 out1 fed1 Hinv1) as (st' & out' & fed' & Hloop & Hinv' & Hdone & Hlast).
    { rewrite Hstep1. lia. }
    exists st', out', fed'. split; [exact Hloop|]. split; [exact Hinv'|].
    split; [exact Hdone|]. right.
    destruct Hlast as [Heq | Hlt]; [|exact Hlt].
    rewrite Heq, Hstep1.
    unfold Worker.FinishTrack_test in Htest. apply Z.ltb_lt in Htest.
    destruct Hinv as (_ & Hsamples & _). rewrite Hsamples in Htest.
    replace (Worker.mOutStepCount st + 1 - 1)%Z with (Worker.mOutStepCount st) by lia.
    exact Htest.
  - exists st, outputTrack, fed. split; [reflexivity|]. split; [exact Hinv|].
    unfold Worker.FinishTrack_test in Htest. apply Z.ltb_ge in Htest.
    destruct Hinv as (_ & Hsamples & _). rewrite Hsamples in Htest.
    split; [exact Htest | left; reflexivity].
Qed.

(** Noise reduced on the blocks of a track: the steps written are
    counted from the samples. *)
Lemma ProcessOne_reduce_run (w : Worker.t) (fuel : nat) (statistics : Statistics.t)
    (st : Worker.state) (blocks : list (list R)) :
  sizes_ok w -> Worker.mDoProfile w = false ->
  (1 <= Worker.mHistoryLen w < 2 ^ 31)%Z ->
  length (Worker.mOutOverlapBuffer st) = Z.to_nat (Worker.mWindowSize w) ->
  Forall (fun block => length block <= fuel)%nat blocks ->
  (Z.to_nat (Worker.mStepSize w) <= fuel)%nat ->
  (Z.to_nat (Worker.mHistoryLen w + Worker.mStepsPerWindow w) <= fuel)%nat ->
  let N := Z.of_nat (total_length blocks) in
  let H := Worker.mStepSize w in
  exists st' outputTrack,
    Worker.ProcessOne w fuel statistics st blocks = Some (statistics, st', outputTrack)
    /\ Worker.mOutStepCount st' = ((N + H - 1) / H)%Z
    /\ Z.of_nat (length outputTrack) = ((N + H - 1) / H * H)%Z
    /\ (N <= Z.of_nat (length outputTrack) < N + H)%Z.
Proof.
  intros Hsizes Hpw [HL HL31] Hoverlap Hfuel HfuelH HfuelL N H.
  destruct (ProcessOne_blocks_reduce w fuel statistics blocks Hsizes Hpw HL Hfuel 0
              statistics (Worker.StartNewTrack w st) []
              (reduce_progress_start w statistics st Hsizes Hpw (conj HL HL31) Hoverlap))
    as (statistics1 & st1 & out1 & Hrun & Hinv).
  assert (Hstat1 : statistics1 = statistics) by apply Hinv. subst statistics1.
  pose proof Hinv as (Hpos1 & _ & _ & _ & Hfed1 & _).
  rewrite Z.add_0_l in Hinv, Hfed1. fold N in Hinv, Hfed1. cbn [length] in Hfed1.
  pose proof Hsizes as [Hwin Hstep Hsteps _ _]. fold H in Hwin, Hstep, HfuelH, Hfed1, Hpos1.
  destruct (FinishTrack_loop_spec w fuel statistics N Hsizes Hpw HL HfuelH fuel st1 out1 N
              Hinv) as (st' & out' & fed' & Hloop & Hinv' & Hdone & Hlast).
  { fold H.
    assert (Worker.mHistoryLen w - 1 + (Worker.mStepsPerWindow w - 1) + 1
            <= Z.of_nat fuel)%Z by lia.
    nia. }
  exists st', out'. unfold Worker.ProcessOne. rewrite Hrun, Hpw.
  unfold Worker.FinishTrack. split; [exact Hloop|].
  destruct Hinv' as (_ & _ & _ & Hout' & _). fold H in Hout', Hdone, Hlast.
  set (f := Worker.mOutStepCount st') in *.
  assert (HN : (0 <= N)%Z) by (subst N; lia).
  assert (Hf : (0 <= f)%Z) by nia.
  rewrite Z.max_r in Hout' by exact Hf.
  assert (Hbound : (N <= f * H < N + H)%Z).
  { split; [exact Hdone|]. destruct Hlast as [Heq | Hlt]; [|lia].
    rewrite Heq in *.
    assert (0 <= (Worker.mHistoryLen w - 1 + (Worker.mStepsPerWindow w - 1)) * H)%Z
      by nia.
    lia. }
  assert (Hceil : ((N + H - 1) / H = f)%Z).
  { symmetry. apply (Z.div_unique_pos _ _ _ (N + H - 1 - f * H)); lia. }
  rewrite Hceil. split; [reflexivity|]. split; lia.
Qed.

(** X8.  Reducing the noise of a track.  Whatever the blocks in which
    the host hands over its [N] samples, [ProcessOne] ends (given enough
    turns for its loops), leaves the statistics as they are, and has then
    written [ceil(N / H)] steps of [H = mStepSize] samples to the output
    track: at least the [N] samples that came in, and less than one step
    more, the tail that [ProcessOne] goes on to delete. *)
Theorem ProcessOne_reduce (GetFFT : Z -> HFFT) (s : Settings.t) (rate : R)
    (fuel : nat) (statistics : Statistics.t) (st : Worker.state)
    (blocks : list (list R)) :
  Settings.well_defined s rate -> Settings.Validate s = true ->
  (Settings.WindowSize s < 2 ^ 31)%Z -> Settings.mDoProfile s = false ->
  let w := Worker.new GetFFT s rate in
  let N := Z.of_nat (total_length blocks) in
  let H := Worker.mStepSize w in
  (Worker.mHistoryLen w < 2 ^ 31)%Z ->
  length (Worker.mOutOverlapBuffer st) = Z.to_nat (Worker.mWindowSize w) ->
  Forall (fun block => length block <= fuel)%nat blocks ->
  (Z.to_nat H <= fuel)%nat ->
  (Z.to_nat (Worker.mHistoryLen w + Worker.mStepsPerWindow w) <= fuel)%nat ->
  exists st' outputTrack,
    Worker.ProcessOne w fuel statistics st blocks = Some (statistics, st', outputTrack)
    /\ Worker.mOutStepCount st' = ((N + H - 1) / H)%Z
    /\ Z.of_nat (length outputTrack) = ((N + H - 1) / H * H)%Z
    /\ (N <= Z.of_nat (length outputTrack) < N + H)%Z.
Proof.
  intros Hwd Hv Hsmall Hp w N H HL31 Hoverlap Hfuel HfuelH HfuelL.
  apply ProcessOne_reduce_run; try assumption.
  - apply sizes_ok_new; assumption.
  - split; [apply HistoryLen_pos, Hwd | exact HL31].
Qed.

Lemma settings_reduce_HistoryLen :
  Worker.mHistoryLen (Worker.new GetFFT_example settings_reduce 44100) = 5%Z.
Proof.
  cbn [Worker.new Worker.mHistoryLen]. unfold Worker.HistoryLen.
  change (Settings.mDoProfile settings_reduce) with false. cbv iota.
  rewrite (NWindowsToExamine_new settings_reduce 44100 settings_reduce_well_defined).
  destruct (nAttackBlocks_floor settings_reduce 44100 settings_reduce_well_defined
              eq_refl) as [-> _].
  change (Settings.WindowSize settings_reduce / Settings.StepsPerWindow settings_reduce)%Z
    with 512%Z.
  change (Settings.StepsPerWindow settings_reduce) with 4%Z.
  rewrite (Zfloor_eq 1) by (simpl; lra).
  reflexivity.
Qed.

Lemma ProcessOne_reduce_witness :
  let w := Worker.new GetFFT_example settings_reduce 44100 in
  let statistics := Statistics.new (Worker.mSpectrumSize w) 44100 WT_HANN_HANN in
  exists st' outputTrack,
    Worker.ProcessOne w 512 statistics (Worker.new_state settings_reduce 44100)
      [[0; 0; 0]; [0; 0]]
    = Some (statistics, st', outputTrack)
    /\ Z.of_nat (length outputTrack) = 512%Z.
Proof.
  cbv zeta.
  destruct (ProcessOne_reduce GetFFT_example settings_reduce 44100 512
              (Statistics.new
                 (Worker.mSpectrumSize (Worker.new GetFFT_example settings_reduce 44100))
                 44100 WT_HANN_HANN)
              (Worker.new_state settings_reduce 44100) [[0; 0; 0]; [0; 0]]
              settings_reduce_well_defined eq_refl eq_refl eq_refl)
    as (st' & out & Hrun & _ & Hlen & _).
  - rewrite settings_reduce_HistoryLen. reflexivity.
  - cbn [Worker.new_state Worker.mOutOverlapBuffer Worker.new Worker.mWindowSize].
    apply length_replicate.
  - repeat constructor.
  - vm_compute. lia.
  - rewrite settings_reduce_HistoryLen. vm_compute. lia.
  - exists st', out. split; [exact Hrun | exact Hlen].
Defined.

(** ** The two passes of the effect *)

Lemma Statistics_new_mWindowSize (s : Settings.t) (rate : R) (ty : Z) :
  (0 <= Settings.mWindowSizeChoice s < 29)%Z ->
  Statistics.mWindowSize (Statistics.new (1 + Settings.WindowSize s / 2) rate ty)
  = Settings.WindowSize s.
Proof.
  intros Hc. destruct (WindowSize_pow2 s) as [HW [_ Hle]]; [lia|].
  cbn [Statistics.new Statistics.mWindowSize].
  assert (Heven : (Settings.WindowSize s / 2 * 2 = Settings.WindowSize s)%Z).
  { rewrite HW.
    replace (3 + Settings.mWindowSizeChoice s)%Z
      with (2 + Settings.mWindowSizeChoice s + 1)%Z by lia.
    rewrite Z.pow_add_r by lia. change (2 ^ 1)%Z with 2%Z.
    rewrite Z.div_mul by lia. reflexivity. }
  replace ((1 + Settings.WindowSize s / 2 - 1) * 2)%Z with (Settings.WindowSize s) by lia.
  apply to_size_t_small.
  change (2 ^ 31)%Z with 2147483648%Z in Hle.
  change (2 ^ 64)%Z with 18446744073709551616%Z. lia.
Qed.

Lemma gather_track_header (w : Worker.t) (statistics : Statistics.t)
    (windows : list Worker.state) :
  Statistics.mRate (gather_track w statistics windows) = Statistics.mRate statistics
  /\ Statistics.mWindowSize (gather_track w statistics windows)
     = Statistics.mWindowSize statistics
  /\ Statistics.mWindowTypes (gather_track w statistics windows)
     = Statistics.mWindowTypes statistics.
Proof.
  unfold gather_track. induction windows as [|window windows IH] using rev_ind.
  - repeat split; reflexivity.
  - rewrite foldl_app. cbn [foldl].
    cbn [Worker.GatherStatistics Statistics.set_sums Statistics.mRate
         Statistics.mWindowSize Statistics.mWindowTypes].
    exact IH.
Qed.

Lemma profile_track_header (w : Worker.t) (statistics : Statistics.t)
    (windows : list Worker.state) :
  Statistics.mRate (profile_track w statistics windows) = Statistics.mRate statistics
  /\ Statistics.mWindowSize (profile_track w statistics windows)
     = Statistics.mWindowSize statistics
  /\ Statistics.mWindowTypes (profile_track w statistics windows)
     = Statistics.mWindowTypes statistics.
Proof.
  destruct (gather_track_header w statistics windows) as (Hr & Hs & Ht).
  unfold profile_track, Worker.FinishTrackStatistics. cbv zeta.
  destruct (if (_ =? 0)%Z then _ else _) as [means sums].
  cbn [Statistics.mRate Statistics.mWindowSize Statistics.mWindowTypes].
  repeat split; assumption.
Qed.

(** X9.  The first pass.  [Process] with [mDoProfile] set makes fresh
    statistics at the rate of the track and takes the profile from the
    selection.  It succeeds exactly when the selection is not empty and
    holds at least one window of samples.  It then leaves statistics
    with the rate of the track, the window size of the settings and
    [1 + (N - W) / H] windows, and clears [mDoProfile], so that the next
    call reduces noise.  When it fails it drops the statistics, and the
    settings stay as they are: a profile has to be taken again. *)
Theorem Process_profile (GetFFT : Z -> HFFT) (fuel : nat) (track : WaveTrack)
    (e : EffectNoiseReduction.t) :
  let s := EffectNoiseReduction.mSettings e in
  let blocks :=
    selected_blocks track (EffectNoiseReduction.mT0 e) (EffectNoiseReduction.mT1 e) in
  let N := Z.of_nat (total_length blocks) in
  let W := Settings.WindowSize s in
  let H := (W / Settings.StepsPerWindow s)%Z in
  Settings.well_defined s (GetRate track) -> Settings.Validate s = true ->
  (W < 2 ^ 31)%Z -> Settings.mDoProfile s = true ->
  Forall (fun block => length block <= fuel)%nat blocks ->
  exists good e',
    EffectNoiseReduction.Process GetFFT fuel track e = Some (good, e', [])
    /\ (good = true <->
        selection_nonempty track (EffectNoiseReduction.mT0 e) (EffectNoiseReduction.mT1 e)
        /\ (W <= N)%Z)
    /\ (good = true ->
        EffectNoiseReduction.mSettings e' = EffectNoiseReduction.set_mDoProfile false s
        /\ exists statistics,
             EffectNoiseReduction.mStatistics e' = Some statistics
             /\ Statistics.mRate statistics = GetRate track
             /\ Statistics.mWindowSize statistics = W
             /\ Statistics.mTotalWindows statistics = (1 + (N - W) / H)%Z)
    /\ (good = false ->
        EffectNoiseReduction.mSettings e' = s
        /\ EffectNoiseReduction.mStatistics e' = None).
Proof.
  intros s blocks N W H Hwd Hv Hsmall Hp Hfuel.
  set (fresh := Statistics.new (1 + W / 2) (GetRate track) (Settings.mWindowTypes s)).
  set (w := Worker.new GetFFT s (GetRate track)).
  assert (Hsizes : sizes_ok w) by (apply sizes_ok_new; assumption).
  assert (HW8 : (8 <= W)%Z) by apply (WindowSize_range s (Settings.wd_size _ _ Hwd)).
  unfold EffectNoiseReduction.Process. cbv zeta. fold s. rewrite Hp.
  cbn [negb andb]. fold W fresh.
  change (Statistics.mRate fresh) with (GetRate track). fold w.
  unfold Worker.Process. cbv zeta.
  change (Worker.mSampleRate w) with (GetRate track).
  destruct (decide (GetRate track <> GetRate track)) as [Hne | _];
    [exfalso; apply Hne; reflexivity|].
  change (Worker.mDoProfile w) with (Settings.mDoProfile s). rewrite Hp. cbn [andb].
  destruct (decide (std_min (GetEndTime track) (EffectNoiseReduction.mT1 e)
                    > std_max (GetStartTime track) (EffectNoiseReduction.mT0 e)))
    as [Hsel | Hsel].
  - destruct (ProcessOne_profile_run w fuel fresh
                (Worker.new_state s (GetRate track)) blocks Hsizes Hp
                (HistoryLen_profile GetFFT s (GetRate track) Hp) Hfuel)
      as (windows & st' & Hrun & Hcount).
    pose proof Hrun as Hrun'. unfold blocks, selected_blocks in Hrun'.
    cbv zeta in Hrun'. rewrite Hrun'. clear Hrun'.
    pose proof (profile_track_total w fresh windows) as Htotal.
    change (Statistics.mTrackWindows fresh) with 0%Z in Htotal.
    change (Statistics.mTotalWindows fresh) with 0%Z in Htotal.
    rewrite Hcount in Htotal. fold N in Htotal.
    change (Worker.mWindowSize w) with W in Htotal.
    change (Worker.mStepSize w) with H in Htotal.
    unfold profile_windows in Htotal.
    destruct (profile_track_header w fresh windows) as (Hrate & Hsize & _).
    assert (HH : (1 <= H)%Z) by apply (so_step w Hsizes).
    destruct (Z.ltb_spec N W) as [Hshort | Hlong].
    + rewrite Htotal. cbn [Z.add Z.eqb].
      eexists false, _. split; [reflexivity|]. split.
      * split; [discriminate | intros [_ Hle]; lia].
      * split; [discriminate|]. intros _. split; reflexivity.
    + assert (Hpos : (0 <= (N - W) / H)%Z) by (apply Z.div_pos; lia).
      destruct (Z.eqb_spec (Statistics.mTotalWindows (profile_track w fresh windows)) 0)
        as [H0 | _]; [lia|].
      eexists true, _. split; [reflexivity|]. split.
      * split; [intros _; split; [exact Hsel | exact Hlong] | reflexivity].
      * split; [|discriminate]. intros _. split; [reflexivity|].
        eexists. split; [reflexivity|]. split; [exact Hrate|]. split; [|exact Htotal].
        rewrite Hsize. apply Statistics_new_mWindowSize, (Settings.wd_size _ _ Hwd).
  - cbn [Statistics.mTotalWindows fresh Statistics.new Z.eqb].
    eexists false, _. split; [reflexivity|]. split.
    + split; [discriminate | intros [Hne _]; contradiction].
    + split; [discriminate|]. intros _. split; reflexivity.
Qed.

Lemma Process_profile_witness :
  let e :=
    {| EffectNoiseReduction.mSettings := settings_profile_8;
       EffectNoiseReduction.mStatistics := None;
       EffectNoiseReduction.mT0 := 0; EffectNoiseReduction.mT1 := 1 |} in
  exists e' statistics,
    EffectNoiseReduction.Process GetFFT_example 6 track_example e = Some (true, e', [])
    /\ EffectNoiseReduction.mSettings e'
       = EffectNoiseReduction.set_mDoProfile false settings_profile_8
    /\ EffectNoiseReduction.mStatistics e' = Some statistics
    /\ Statistics.mRate statistics = 44100
    /\ Statistics.mWindowSize statistics = 8%Z
    /\ Statistics.mTotalWindows statistics = 2%Z.
Proof.
  cbv zeta.
  destruct (Process_profile GetFFT_example 6 track_example
              {| EffectNoiseReduction.mSettings := settings_profile_8;
                 EffectNoiseReduction.mStatistics := None;
                 EffectNoiseReduction.mT0 := 0; EffectNoiseReduction.mT1 := 1 |}
              settings_profile_8_well_defined eq_refl eq_refl eq_refl)
    as (good & e' & Hrun & Hgood & Hsuccess & _).
  - repeat constructor.
  - assert (Hg : good = true).
    { apply Hgood. split.
      - unfold selection_nonempty, track_example, std_max, std_min.
        cbn [GetStartTime GetEndTime EffectNoiseReduction.mT0 EffectNoiseReduction.mT1].
        repeat match goal with |- context [decide ?P] => destruct (decide P) end; lra.
      - vm_compute. discriminate. }
    subst good. destruct (Hsuccess eq_refl) as (Hs & statistics & Hst & Hrate & HW & Htotal).
    exists e', statistics.
    split; [exact Hrun|]. split; [exact Hs|]. split; [exact Hst|].
    split; [exact Hrate|]. split; [exact HW | exact Htotal].
Defined.

(** X10.  The second pass.  [Process] with [mDoProfile] clear and a
    profile at hand fails, changing nothing, when the window size of the
    profile is not that of the settings, or when the rate of the track
    is not that of the profile.  Otherwise it succeeds (other window
    types than those of the profile are no obstacle), leaves the effect
    as it is, and the output track that replaces the selection holds the
    [N] samples selected and less than one step more; an empty selection
    leaves the track alone. *)
Theorem Process_reduce (GetFFT : Z -> HFFT) (fuel : nat) (track : WaveTrack)
    (e : EffectNoiseReduction.t) (statistics : Statistics.t) :
  let s := EffectNoiseReduction.mSettings e in
  let blocks :=
    selected_blocks track (EffectNoiseReduction.mT0 e) (EffectNoiseReduction.mT1 e) in
  let N := Z.of_nat (total_length blocks) in
  let W := Settings.WindowSize s in
  let H := (W / Settings.StepsPerWindow s)%Z in
  let w := Worker.new GetFFT s (Statistics.mRate statistics) in
  Settings.well_defined s (Statistics.mRate statistics) -> Settings.Validate s = true ->
  (W < 2 ^ 31)%Z -> Settings.mDoProfile s = false ->
  EffectNoiseReduction.mStatistics e = Some statistics ->
  (Worker.mHistoryLen w < 2 ^ 31)%Z ->
  Forall (fun block => length block <= fuel)%nat blocks ->
  (Z.to_nat H <= fuel)%nat ->
  (Z.to_nat (Worker.mHistoryLen w + Settings.StepsPerWindow s) <= fuel)%nat ->
  (Statistics.mWindowSize statistics <> W \/ GetRate track <> Statistics.mRate statistics ->
   EffectNoiseReduction.Process GetFFT fuel track e = Some (false, e, []))
  /\ (Statistics.mWindowSize statistics = W ->
      GetRate track = Statistics.mRate statistics ->
      exists outputTrack,
        EffectNoiseReduction.Process GetFFT fuel track e = Some (true, e, outputTrack)
        /\ (selection_nonempty track (EffectNoiseReduction.mT0 e)
              (EffectNoiseReduction.mT1 e) ->
            Z.of_nat (length outputTrack) = ((N + H - 1) / H * H)%Z
            /\ (N <= Z.of_nat (length outputTrack) < N + H)%Z)
        /\ (~ selection_nonempty track (EffectNoiseReduction.mT0 e)
                (EffectNoiseReduction.mT1 e) ->
            outputTrack = [])).
Proof.
  intros s blocks N W H w Hwd Hv Hsmall Hp Hstat HL31 Hfuel HfuelH HfuelL.
  assert (Hsizes : sizes_ok w) by (apply sizes_ok_new; assumption).
  assert (He : e = {| EffectNoiseReduction.mSettings := s;
                      EffectNoiseReduction.mStatistics := Some statistics;
                      EffectNoiseReduction.mT0 := EffectNoiseReduction.mT0 e;
                      EffectNoiseReduction.mT1 := EffectNoiseReduction.mT1 e |}).
  { subst s. destruct e. cbn in *. subst. reflexivity. }
  unfold EffectNoiseReduction.Process. cbv zeta. fold s. rewrite Hp, Hstat.
  cbn [negb andb]. fold W w.
  unfold Worker.Process. cbv zeta.
  change (Worker.mSampleRate w) with (Statistics.mRate statistics).
  change (Worker.mDoProfile w) with (Settings.mDoProfile s). rewrite Hp. cbn [andb].
  split.
  - intros [Hsize | Hrate].
    + destruct (Z.eqb_spec (Statistics.mWindowSize statistics) W); [contradiction|].
      reflexivity.
    + destruct (Z.eqb_spec (Statistics.mWindowSize statistics) W); [|reflexivity].
      cbn [negb].
      destruct (decide (GetRate track <> Statistics.mRate statistics));
        [|contradiction].
      rewrite <- He. reflexivity.
  - intros Hsize Hrate. rewrite Hsize, Z.eqb_refl. cbn [negb].
    destruct (decide (GetRate track <> Statistics.mRate statistics));
      [contradiction|].
    destruct (decide (std_min (GetEndTime track) (EffectNoiseReduction.mT1 e)
                      > std_max (GetStartTime track) (EffectNoiseReduction.mT0 e)))
      as [Hsel | Hsel].
    + destruct (ProcessOne_reduce_run w fuel statistics
                  (Worker.new_state s (Statistics.mRate statistics)) blocks Hsizes Hp)
        as (st' & out & Hrun & _ & Hlen & Hbound); try assumption.
      * split; [apply HistoryLen_pos, Hwd | exact HL31].
      * cbn [Worker.new_state Worker.mOutOverlapBuffer]. apply length_replicate.
      * pose proof Hrun as Hrun'. unfold blocks, selected_blocks in Hrun'.
        cbv zeta in Hrun'. rewrite Hrun'. clear Hrun'.
        exists out. rewrite <- He. split; [reflexivity|].
        split; [intros _; split; assumption | intros Hne; contradiction].
    + exists []. rewrite <- He. split; [reflexivity|].
      split; [intros Hne; contradiction | reflexivity].
Qed.

Lemma Process_reduce_witness :
  let track :=
    {| GetRate := 44100; GetStartTime := 0; GetEndTime := 1;
       TimeToLongSamples := fun _ => 0%Z;
       GetBlocks := fun _ _ => [[0; 0; 0]; [0; 0]] |} in
  let e :=
    {| EffectNoiseReduction.mSettings := settings_reduce;
       EffectNoiseReduction.mStatistics := Some (Statistics.new 1025 44100 WT_HANN_HANN);
       EffectNoiseReduction.mT0 := 0; EffectNoiseReduction.mT1 := 1 |} in
  exists outputTrack,
    EffectNoiseReduction.Process GetFFT_example 512 track e = Some (true, e, outputTrack).
Proof.
  cbv zeta.
  destruct (Process_reduce GetFFT_example 512
              {| GetRate := 44100; GetStartTime := 0; GetEndTime := 1;
                 TimeToLongSamples := fun _ => 0%Z;
                 GetBlocks := fun _ _ => [[0; 0; 0]; [0; 0]] |}
              {| EffectNoiseReduction.mSettings := settings_reduce;
                 EffectNoiseReduction.mStatistics :=
                   Some (Statistics.new 1025 44100 WT_HANN_HANN);
                 EffectNoiseReduction.mT0 := 0; EffectNoiseReduction.mT1 := 1 |}
              (Statistics.new 1025 44100 WT_HANN_HANN)
              settings_reduce_well_defined eq_refl eq_refl eq_refl eq_refl)
    as [_ Hgood].
  - cbn [Statistics.new Statistics.mRate EffectNoiseReduction.mSettings].
    rewrite settings_reduce_HistoryLen. reflexivity.
  - repeat constructor.
  - vm_compute. lia.
  - cbn [Statistics.new Statistics.mRate EffectNoiseReduction.mSettings].
    rewrite settings_reduce_HistoryLen. vm_compute. lia.
  - destruct (Hgood eq_refl eq_refl) as (out & Hrun & _). exists out. exact Hrun.
Defined.

(** ** The blocks of a track *)

Lemma ProcessSamples_body_halves (w : Worker.t) (statistics : Statistics.t)
    (st : Worker.state) (outputTrack buffer : list R) :
  Worker.ProcessSamples_body w (statistics, st, outputTrack, buffer)
  = ProcessSamples_window w
      (statistics, ProcessSamples_copy w st buffer, outputTrack,
       drop (ProcessSamples_avail w st buffer) buffer).
Proof. reflexivity. Qed.

Lemma ProcessSamples_avail_range (w : Worker.t) (st : Worker.state) (buffer : list R) :
  (Worker.mWindowSize w < 2 ^ 31)%Z ->
  (0 <= Worker.mInWavePos st < Worker.mWindowSize w)%Z ->
  ProcessSamples_avail w st buffer
  = Nat.min (length buffer) (Z.to_nat (Worker.mWindowSize w - Worker.mInWavePos st)).
Proof.
  intros HW Hpos. unfold ProcessSamples_avail.
  change (2 ^ 31)%Z with 2147483648%Z in HW.
  rewrite to_size_t_small by (change (2 ^ 64)%Z with 18446744073709551616%Z; lia).
  lia.
Qed.

Lemma ProcessSamples_window_buffer (w : Worker.t) (statistics : Statistics.t)
    (st : Worker.state) (outputTrack buffer : list R) :
  ProcessSamples_window w (statistics, st, outputTrack, buffer)
  = set_buffer buffer (ProcessSamples_window w (statistics, st, outputTrack, [])).
Proof.
  unfold ProcessSamples_window. cbv zeta.
  destruct (_ =? _)%Z; [|reflexivity].
  destruct (if Worker.mDoProfile w then _ else _) as [statistics' [st3 outputTrack']].
  reflexivity.
Qed.

Lemma ReduceNoise_add_samples (w : Worker.t) (statistics : Statistics.t)
    (st : Worker.state) (outputTrack : list R) (d : Z) :
  Worker.ReduceNoise w statistics (Worker.add_samples d st) outputTrack
  = (Worker.add_samples d (fst (Worker.ReduceNoise w statistics st outputTrack)),
     snd (Worker.ReduceNoise w statistics st outputTrack)).
Proof.
  unfold Worker.ReduceNoise. cbv zeta.
  cbn [Worker.add_samples Worker.set_mQueue Worker.mQueue Worker.mOutStepCount].
  destruct (_ >=? _)%Z; [|reflexivity].
  unfold Worker.ReduceNoise_output. cbv zeta.
  cbn [Worker.add_samples Worker.set_mQueue Worker.mQueue Worker.mOutStepCount
       Worker.mFreqSmoothingScratch Worker.mFFTBuffer Worker.mOutOverlapBuffer
       Worker.mInWaveBuffer Worker.mInSampleCount Worker.mInWavePos].
  destruct (if (Worker.mNoiseReductionChoice w =? NRC_ISOLATE_NOISE)%Z then _ else _)
    as [scratch gains].
  reflexivity.
Qed.

Lemma ProcessSamples_body_add_samples (w : Worker.t) (d : Z) (c : Worker.config) :
  Worker.ProcessSamples_body w (add_samples_config d c)
  = add_samples_config d (Worker.ProcessSamples_body w c).
Proof.
  destruct c as [[[statistics st] outputTrack] buffer].
  unfold add_samples_config at 1. rewrite !ProcessSamples_body_halves.
  change (ProcessSamples_avail w (Worker.add_samples d st) buffer)
    with (ProcessSamples_avail w st buffer).
  change (ProcessSamples_copy w (Worker.add_samples d st) buffer)
    with (Worker.add_samples d (ProcessSamples_copy w st buffer)).
  generalize (ProcessSamples_copy w st buffer). intros st1.
  generalize (drop (ProcessSamples_avail w st buffer) buffer). intros rest.
  unfold ProcessSamples_window. cbv zeta.
  change (Worker.mInWavePos (Worker.add_samples d st1)) with (Worker.mInWavePos st1).
  destruct (_ =? _)%Z; [|reflexivity].
  change (Worker.FillFirstHistoryWindow w (Worker.add_samples d st1))
    with (Worker.add_samples d (Worker.FillFirstHistoryWindow w st1)).
  generalize (Worker.FillFirstHistoryWindow w st1). intros st2.
  destruct (Worker.mDoProfile w).
  - reflexivity.
  - rewrite ReduceNoise_add_samples.
    destruct (Worker.ReduceNoise w statistics st2 outputTrack) as [st3 out3].
    reflexivity.
Qed.

Lemma feed_add_samples (w : Worker.t) (d : Z) (fuel : nat) :
  forall c, feed w fuel (add_samples_config d c) = add_samples_config d (feed w fuel c).
Proof.
  induction fuel as [|fuel IH]; intros c.
  - destruct c as [[[statistics st] outputTrack] buffer]. destruct buffer; reflexivity.
  - destruct c as [[[statistics st] outputTrack] [|x buffer]]; [reflexivity|].
    cbn [feed snd add_samples_config].
    change (statistics, Worker.add_samples d st, outputTrack, x :: buffer)
      with (add_samples_config d (statistics, st, outputTrack, x :: buffer)).
    rewrite ProcessSamples_body_add_samples. apply IH.
Qed.

Lemma ProcessSamples_window_wave (w : Worker.t) (statistics : Statistics.t)
    (st1 : Worker.state) (outputTrack buffer : list R) :
  (1 <= Worker.mStepSize w <= Worker.mWindowSize w)%Z ->
  (Worker.mWindowSize w < 2 ^ 31)%Z ->
  (0 <= Worker.mInWavePos st1 <= Worker.mWindowSize w)%Z ->
  length (Worker.mInWaveBuffer st1) = Z.to_nat (Worker.mWindowSize w) ->
  wave_inv w (ProcessSamples_window w (statistics, st1, outputTrack, buffer)).
Proof.
  intros HH HW Hpos Hlen. unfold ProcessSamples_window, wave_inv. cbv zeta.
  change (2 ^ 31)%Z with 2147483648%Z in HW.
  rewrite to_int_small by (change (2 ^ 31)%Z with 2147483648%Z; lia).
  destruct (Z.eqb_spec (Worker.mInWavePos st1) (Worker.mWindowSize w)) as [Heq | Hne].
  - set (st2 := Worker.FillFirstHistoryWindow w st1).
    assert (Hst2 : Worker.mInWavePos st2 = Worker.mInWavePos st1
                   /\ Worker.mInWaveBuffer st2 = Worker.mInWaveBuffer st1)
      by (split; reflexivity).
    destruct Hst2 as [Hp2 Hw2].
    destruct (Worker.mDoProfile w).
    + cbn [fst snd Worker.RotateHistoryWindows Worker.set_mQueue Worker.mInWavePos
           Worker.mInWaveBuffer].
      rewrite Hp2, Hw2, length_app, length_take, !length_drop. lia.
    + pose proof (ReduceNoise_counters w statistics st2 outputTrack)
        as (Hp3 & _ & _ & Hw3).
      destruct (Worker.ReduceNoise w statistics st2 outputTrack) as [st3 out3].
      cbn [fst snd Worker.RotateHistoryWindows Worker.set_mQueue Worker.mInWavePos
           Worker.mInWaveBuffer] in *.
      rewrite Hp3, Hw3, Hp2, Hw2, length_app, length_take, !length_drop. lia.
  - cbn [fst snd]. split; [lia | exact Hlen].
Qed.

Lemma wave_inv_body (w : Worker.t) (c : Worker.config) :
  sizes_ok w -> wave_inv w c -> (0 < length (snd c))%nat ->
  wave_inv w (Worker.ProcessSamples_body w c)
  /\ (length (snd (Worker.ProcessSamples_body w c)) < length (snd c))%nat.
Proof.
  intros [Hwin Hstep Hsteps Hsmall _] [Hpos Hlen] Hbuf.
  destruct c as [[[statistics st] outputTrack] buffer]. cbn [fst snd] in *.
  assert (HHW : (1 <= Worker.mStepSize w <= Worker.mWindowSize w)%Z) by nia.
  rewrite ProcessSamples_body_halves.
  pose proof (ProcessSamples_avail_range w st buffer Hsmall Hpos) as Havail.
  split.
  - apply ProcessSamples_window_wave; try assumption.
    + cbn [ProcessSamples_copy Worker.mInWavePos]. lia.
    + cbn [ProcessSamples_copy Worker.mInWaveBuffer].
      rewrite !length_app, !length_take, length_drop. lia.
  - rewrite ProcessSamples_window_buffer.
    destruct (ProcessSamples_window w _) as [[[s' st'] o'] b'].
    cbn [set_buffer snd]. rewrite length_drop. lia.
Qed.

(** With enough turns for the samples of the buffer, more turns change
    nothing. *)
Lemma feed_fuel (w : Worker.t) (fuel : nat) :
  sizes_ok w ->
  forall fuel' c, wave_inv w c ->
  (length (snd c) <= fuel)%nat -> (length (snd c) <= fuel')%nat ->
  feed w fuel c = feed w fuel' c.
Proof.
  intros Hsizes. induction fuel as [|fuel IH]; intros fuel' c Hinv Hlen Hlen'.
  - destruct c as [[[statistics st] outputTrack] [|x buffer]];
      [destruct fuel'; reflexivity | simpl in Hlen; lia].
  - destruct c as [[[statistics st] outputTrack] [|x buffer]];
      [destruct fuel'; reflexivity|].
    destruct fuel' as [|fuel']; [simpl in Hlen'; lia|].
    cbn [feed snd].
    destruct (wave_inv_body w (statistics, st, outputTrack, x :: buffer) Hsizes Hinv)
      as [Hinv' Hless]; [simpl; lia|].
    cbn [snd length] in Hless, Hlen, Hlen'.
    apply IH; [exact Hinv' | lia | lia].
Qed.

Lemma feed_empties (w : Worker.t) (fuel : nat) :
  sizes_ok w ->
  forall c, wave_inv w c -> (length (snd c) <= fuel)%nat ->
  wave_inv w (feed w fuel c) /\ snd (feed w fuel c) = [].
Proof.
  intros Hsizes. induction fuel as [|fuel IH]; intros c Hinv Hlen.
  - destruct c as [[[statistics st] outputTrack] [|x buffer]];
      [split; [exact Hinv | reflexivity] | simpl in Hlen; lia].
  - destruct c as [[[statistics st] outputTrack] [|x buffer]];
      [split; [exact Hinv | reflexivity]|].
    cbn [feed snd].
    destruct (wave_inv_body w (statistics, st, outputTrack, x :: buffer) Hsizes Hinv)
      as [Hinv' Hless]; [simpl; lia|].
    cbn [snd length] in Hless, Hlen. apply IH; [exact Hinv' | lia].
Qed.

(** While the worker is being fed, the loop of [ProcessSamples] takes in
    every sample of the buffer. *)
Lemma feeding_body (w : Worker.t) (c : Worker.config) :
  sizes_ok w -> wave_inv w c -> feeding w c -> (0 < length (snd c))%nat ->
  feeding w (Worker.ProcessSamples_body w c).
Proof.
  intros [Hwin Hstep Hsteps Hsmall _] [Hpos _] Hfeed Hbuf.
  destruct c as [[[statistics st] outputTrack] buffer]. cbn [fst snd] in *.
  unfold feeding in *. cbn [fst snd] in *.
  assert (HHW : (1 <= Worker.mStepSize w <= Worker.mWindowSize w)%Z) by nia.
  assert (HS : (1 <= Worker.mStepsPerWindow w < 2 ^ 31)%Z).
  { change (2 ^ 31)%Z with 2147483648%Z in *. nia. }
  pose proof (ProcessSamples_body_spec w statistics st outputTrack buffer
                HHW Hsmall HS Hpos) as Hspec.
  cbv zeta in Hspec.
  destruct (Worker.ProcessSamples_body w (statistics, st, outputTrack, buffer))
    as [[[statistics' st'] outputTrack'] buffer'].
  cbn [fst snd] in *.
  set (avail := Z.min (Z.of_nat (length buffer))
                      (Worker.mWindowSize w - Worker.mInWavePos st)) in *.
  assert (Havail : (1 <= avail <= Z.of_nat (length buffer))%Z) by (subst avail; lia).
  destruct Hspec as (Hbuf' & HM & Hcase).
  assert (Hlen' : Z.of_nat (length buffer') = (Z.of_nat (length buffer) - avail)%Z)
    by (rewrite Hbuf', length_drop; lia).
  rewrite HM, Hlen'.
  destruct (decide _) as [Hfull | Hpart].
  - destruct Hcase as (Hpos' & Hstep' & _). rewrite Hpos', Hstep'. lia.
  - destruct Hcase as (Hpos' & Hstep' & _). rewrite Hpos', Hstep'. lia.
Qed.

Lemma ProcessSamples_feed (w : Worker.t) (fuel : nat) :
  sizes_ok w ->
  forall c, wave_inv w c -> feeding w c -> (length (snd c) <= fuel)%nat ->
  Worker.ProcessSamples w fuel c = Some (feed w fuel c).
Proof.
  intros Hsizes. induction fuel as [|fuel IH]; intros c Hinv Hfeed Hlen.
  - destruct c as [[[statistics st] outputTrack] [|x buffer]];
      [|simpl in Hlen; lia].
    cbn [Worker.ProcessSamples feed snd]. unfold Worker.ProcessSamples_test.
    rewrite bool_decide_eq_false_2 by (simpl; lia). reflexivity.
  - destruct c as [[[statistics st] outputTrack] [|x buffer]].
    + cbn [Worker.ProcessSamples feed snd]. unfold Worker.ProcessSamples_test.
      rewrite bool_decide_eq_false_2 by (simpl; lia). reflexivity.
    + cbn [Worker.ProcessSamples feed snd].
      assert (Htest : Worker.ProcessSamples_test w (statistics, st, outputTrack, x :: buffer)
                      = true).
      { unfold Worker.ProcessSamples_test.
        rewrite bool_decide_eq_true_2 by (simpl; lia). cbn [andb].
        apply Z.ltb_lt. unfold feeding in Hfeed. cbn [fst snd length] in Hfeed. lia. }
      rewrite Htest.
      destruct (wave_inv_body w (statistics, st, outputTrack, x :: buffer) Hsizes Hinv)
        as [Hinv' Hless]; [simpl; lia|].
      cbn [snd length] in Hless, Hlen.
      apply IH; [exact Hinv' | | lia].
      apply feeding_body; try assumption. simpl. lia.
Qed.

Lemma set_buffer_window (w : Worker.t) (statistics : Statistics.t) (st : Worker.state)
    (outputTrack buffer buffer' : list R) :
  set_buffer buffer' (ProcessSamples_window w (statistics, st, outputTrack, buffer))
  = ProcessSamples_window w (statistics, st, outputTrack, buffer').
Proof.
  rewrite (ProcessSamples_window_buffer w statistics st outputTrack buffer),
    (ProcessSamples_window_buffer w statistics st outputTrack buffer').
  destruct (ProcessSamples_window w _) as [[[s' st'] o'] b']. reflexivity.
Qed.

Lemma feed_set_buffer_nil (w : Worker.t) (fuel : nat) (c : Worker.config) :
  snd c = [] -> feed w fuel c = c.
Proof.
  destruct c as [[[statistics st] outputTrack] buffer]. cbn [snd]. intros ->.
  destruct fuel; reflexivity.
Qed.

Lemma set_buffer_snd (buffer : list R) (c : Worker.config) :
  snd (set_buffer buffer c) = buffer.
Proof. destruct c as [[[statistics st] outputTrack] b]. reflexivity. Qed.

(** Writing two runs of samples one after the other into a buffer is writing
    their concatenation. *)
Lemma splice_twice (wave c1 c2 : list R) (pos a2 : nat) :
  (pos + length c1 + a2 <= length wave)%nat ->
  take (pos + length c1) (take pos wave ++ c1 ++ drop (pos + length c1) wave)
    ++ take a2 c2
    ++ drop (pos + length c1 + a2)
         (take pos wave ++ c1 ++ drop (pos + length c1) wave)
  = take pos wave ++ take (length c1 + a2) (c1 ++ c2)
      ++ drop (pos + (length c1 + a2)) wave.
Proof.
  intros Hle.
  rewrite (app_assoc (take pos wave) c1).
  rewrite (take_app_length' (take pos wave ++ c1))
    by (rewrite length_app, length_take; lia).
  rewrite (drop_app_add' (take pos wave ++ c1))
    by (rewrite length_app, length_take; lia).
  rewrite drop_drop, (take_app_add' c1) by reflexivity.
  rewrite <- !app_assoc. do 4 f_equal. lia.
Qed.

(** The first turn of the loop can be taken apart from the rest. *)
Lemma feed_step (w : Worker.t) (fuel : nat) :
  sizes_ok w ->
  forall c, wave_inv w c -> (0 < length (snd c))%nat ->
  (length (snd c) <= fuel)%nat ->
  feed w fuel c = feed w fuel (Worker.ProcessSamples_body w c).
Proof.
  intros Hsizes c Hinv Hc Hfuel.
  destruct (wave_inv_body w c Hsizes Hinv Hc) as [Hinv' Hless].
  destruct fuel as [|fuel]; [lia|].
  transitivity (feed w fuel (Worker.ProcessSamples_body w c)).
  - destruct c as [[[statistics st] outputTrack] [|y rest]];
      [simpl in Hc; lia | reflexivity].
  - apply (feed_fuel w _ Hsizes); [exact Hinv' | lia | lia].
Qed.

(** Two blocks in a row are taken in like the one block they make. *)
Lemma feed_app (w : Worker.t) :
  sizes_ok w ->
  forall n b1, (length b1 <= n)%nat ->
  forall statistics st outputTrack b2,
  wave_inv w (statistics, st, outputTrack, b1) ->
  feed w (length (b1 ++ b2)) (statistics, st, outputTrack, b1 ++ b2)
  = feed w (length b2)
      (set_buffer b2 (feed w (length b1) (statistics, st, outputTrack, b1))).
Proof.
  intros Hsizes. pose proof Hsizes as [Hwin Hstep Hsteps Hsmall _].
  assert (HHW : (1 <= Worker.mStepSize w <= Worker.mWindowSize w)%Z) by nia.
  induction n as [|n IH]; intros b1 Hn statistics st outputTrack b2 Hinv.
  - destruct b1; [reflexivity | simpl in Hn; lia].
  - destruct b1 as [|x b1]; [reflexivity|].
    pose proof Hinv as [Hpos Hlen]. cbn [fst snd] in Hpos, Hlen.
    set (c1 := x :: b1) in *.
    assert (Hc1 : (0 < length c1)%nat) by (subst c1; simpl; lia).
    assert (Hc12 : (0 < length (c1 ++ b2))%nat) by (rewrite length_app; lia).
    pose proof (ProcessSamples_avail_range w st c1 Hsmall Hpos) as Ha1.
    pose proof (ProcessSamples_avail_range w st (c1 ++ b2) Hsmall Hpos) as Ha12.
    rewrite length_app in Ha12.
    assert (Hinv12 : wave_inv w (statistics, st, outputTrack, c1 ++ b2)) by exact Hinv.
    destruct (wave_inv_body w _ Hsizes Hinv Hc1) as [Hinv1 Hless1].
    destruct (wave_inv_body w _ Hsizes Hinv12 Hc12) as [Hinv12' Hless12].
    cbn [snd] in Hless1, Hless12.
    (* one turn on each side *)
    rewrite (feed_step w (length (c1 ++ b2)) Hsizes _ Hinv12 Hc12) by reflexivity.
    rewrite (feed_step w (length c1) Hsizes _ Hinv Hc1) by reflexivity.
    rewrite !ProcessSamples_body_halves in *.
    destruct (decide (Z.to_nat (Worker.mWindowSize w - Worker.mInWavePos st)
                      <= length c1)%nat) as [Hshort | Hlong].
    + (* the first block fills the window *)
      assert (Haa : ProcessSamples_avail w st (c1 ++ b2) = ProcessSamples_avail w st c1)
        by lia.
      assert (Hcopy : ProcessSamples_copy w st (c1 ++ b2) = ProcessSamples_copy w st c1).
      { unfold ProcessSamples_copy. rewrite Haa.
        rewrite (take_app_le c1 b2) by lia. reflexivity. }
      rewrite Hcopy, Haa in *.
      set (a := ProcessSamples_avail w st c1) in *.
      rewrite (drop_app_le c1 b2) by lia.
      rewrite (ProcessSamples_window_buffer w _ _ _ (drop a c1 ++ b2)).
      rewrite (ProcessSamples_window_buffer w _ _ _ (drop a c1)) in Hinv1 |- *.
      destruct (ProcessSamples_window w
                  (statistics, ProcessSamples_copy w st c1, outputTrack, []))
        as [[[s' st'] o'] b'].
      cbn [set_buffer] in *.
      assert (Hd : (length (drop a c1) <= n)%nat).
      { rewrite length_drop. subst c1. simpl length in *. lia. }
      rewrite (feed_fuel w _ Hsizes (length (drop a c1 ++ b2)));
        [| exact Hinv1 | cbn [snd]; rewrite !length_app, length_drop; lia
         | cbn [snd]; lia].
      rewrite (IH (drop a c1) Hd s' st' o' b2 Hinv1).
      f_equal. f_equal.
      apply (feed_fuel w _ Hsizes);
        [exact Hinv1 | cbn [snd]; lia | cbn [snd]; rewrite length_drop; lia].
    + (* the first block leaves the window open *)
      assert (Ha1' : ProcessSamples_avail w st c1 = length c1) by lia.
      rewrite Ha1' in *. rewrite drop_all in *.
      assert (Hopen : ProcessSamples_window w
                        (statistics, ProcessSamples_copy w st c1, outputTrack, [])
                      = (statistics, ProcessSamples_copy w st c1, outputTrack, [])).
      { unfold ProcessSamples_window. cbv zeta.
        change (2 ^ 31)%Z with 2147483648%Z in Hsmall.
        rewrite to_int_small by (change (2 ^ 31)%Z with 2147483648%Z; lia).
        cbn [ProcessSamples_copy Worker.mInWavePos]. rewrite Ha1'.
        destruct (Z.eqb_spec (Worker.mInWavePos st + Z.of_nat (length c1))
                    (Worker.mWindowSize w)); [lia | reflexivity]. }
      rewrite Hopen in *.
      rewrite (feed_set_buffer_nil w (length c1)) by reflexivity.
      cbn [set_buffer].
      destruct b2 as [|y b2].
      * rewrite app_nil_r in *. rewrite Ha1', drop_all, Hopen.
        rewrite (feed_set_buffer_nil w (length c1)) by reflexivity. reflexivity.
      * set (c2 := y :: b2) in *.
        assert (Hc2 : (0 < length c2)%nat) by (subst c2; simpl; lia).
        set (st1 := ProcessSamples_copy w st c1) in *.
        assert (Hpos1 : (0 <= Worker.mInWavePos st1 < Worker.mWindowSize w)%Z)
          by (subst st1; cbn [ProcessSamples_copy Worker.mInWavePos]; lia).
        pose proof (ProcessSamples_avail_range w st1 c2 Hsmall Hpos1) as Ha2.
        assert (Hp1 : Worker.mInWavePos st1
                      = (Worker.mInWavePos st + Z.of_nat (length c1))%Z)
          by (subst st1; cbn [ProcessSamples_copy Worker.mInWavePos]; lia).
        rewrite Hp1 in Ha2.
        set (a := ProcessSamples_avail w st (c1 ++ c2)) in *.
        set (a2 := ProcessSamples_avail w st1 c2) in *.
        assert (Haa : a = (length c1 + a2)%nat) by lia.
        assert (Hcopy : ProcessSamples_copy w st1 c2 = ProcessSamples_copy w st (c1 ++ c2)).
        { unfold ProcessSamples_copy. fold a a2. rewrite Hp1.
          subst st1. cbn [ProcessSamples_copy Worker.mInWaveBuffer Worker.mFFTBuffer
                          Worker.mOutOverlapBuffer Worker.mFreqSmoothingScratch
                          Worker.mInSampleCount Worker.mOutStepCount Worker.mInWavePos
                          Worker.mQueue].
          rewrite Ha1'. f_equal; [|lia].
          set (pos := Z.to_nat (Worker.mInWavePos st)) in *.
          set (wave := Worker.mInWaveBuffer st) in *.
          replace (Z.to_nat (Worker.mInWavePos st + Z.of_nat (length c1)))
            with (pos + length c1)%nat by lia.
          rewrite (take_ge c1) by lia.
          rewrite Haa. apply splice_twice. lia. }
        assert (Hdrop : drop a (c1 ++ c2) = drop a2 c2).
        { rewrite Haa. rewrite drop_app_ge by lia. f_equal. lia. }
        rewrite Hdrop.
        assert (Hinv2 : wave_inv w (statistics, st1, outputTrack, c2)).
        { split; cbn [fst snd]; [exact Hpos1|].
          subst st1. cbn [ProcessSamples_copy Worker.mInWaveBuffer].
          rewrite !length_app, !length_take, length_drop. lia. }
        rewrite (feed_step w (length c2) Hsizes _ Hinv2 Hc2) by reflexivity.
        rewrite ProcessSamples_body_halves. fold a2. rewrite Hcopy.
        rewrite Hdrop in Hinv12'.
        apply (feed_fuel w _ Hsizes); [exact Hinv12' | |].
        -- rewrite ProcessSamples_window_buffer, set_buffer_snd, length_app, length_drop.
           lia.
        -- rewrite ProcessSamples_window_buffer, set_buffer_snd, length_drop. lia.
Qed.

Lemma feed_feeding (w : Worker.t) (fuel : nat) :
  sizes_ok w ->
  forall c, wave_inv w c -> feeding w c -> feeding w (feed w fuel c).
Proof.
  intros Hsizes. induction fuel as [|fuel IH]; intros c Hinv Hfeed.
  - destruct c as [[[statistics st] outputTrack] [|x buffer]]; exact Hfeed.
  - destruct c as [[[statistics st] outputTrack] [|x buffer]]; [exact Hfeed|].
    cbn [feed snd].
    destruct (wave_inv_body w (statistics, st, outputTrack, x :: buffer) Hsizes Hinv)
      as [Hinv' _]; [simpl; lia|].
    apply IH; [exact Hinv'|].
    apply feeding_body; try assumption. simpl. lia.
Qed.

Lemma add_samples_add (d1 d2 : Z) (st : Worker.state) :
  Worker.add_samples (d1 + d2) st = Worker.add_samples d2 (Worker.add_samples d1 st).
Proof.
  unfold Worker.add_samples. cbn. f_equal. lia.
Qed.

Lemma add_samples_0 (st : Worker.state) : Worker.add_samples 0 st = st.
Proof.
  destruct st. unfold Worker.add_samples. cbn. f_equal. lia.
Qed.

(** Between two blocks: the worker is fed and has taken in every sample
    handed over so far. *)
Lemma ProcessOne_block_feed (w : Worker.t) (fuel : nat) (statistics : Statistics.t)
    (st : Worker.state) (outputTrack block : list R) :
  sizes_ok w ->
  wave_inv w (statistics, st, outputTrack, []) ->
  feeding w (statistics, st, outputTrack, []) ->
  (length block <= fuel)%nat ->
  let c := (statistics, Worker.add_samples (Z.of_nat (length block)) st, outputTrack, block) in
  Worker.ProcessOne_block w fuel (Some (statistics, st, outputTrack)) block
  = Some (fst (feed w fuel c))
  /\ feed w fuel c = (fst (feed w fuel c), [])
  /\ wave_inv w (feed w fuel c) /\ feeding w (feed w fuel c).
Proof.
  intros Hsizes Hinv Hfeed Hfuel c.
  assert (Hinvc : wave_inv w c) by exact Hinv.
  assert (Hfeedc : feeding w c).
  { unfold feeding in *. subst c. cbn [fst snd Worker.add_samples Worker.mInSampleCount
      Worker.mOutStepCount Worker.mInWavePos length] in *. lia. }
  destruct (feed_empties w fuel Hsizes c Hinvc Hfuel) as [Hinv' Hnil].
  pose proof (feed_feeding w fuel Hsizes c Hinvc Hfeedc) as Hfeed'.
  unfold Worker.ProcessOne_block. fold c.
  rewrite (ProcessSamples_feed w fuel Hsizes c Hinvc Hfeedc Hfuel).
  destruct (feed w fuel c) as [[[s' st'] o'] b'].
  cbn [fst snd] in *. subst b'.
  split; [reflexivity | split; [reflexivity | split; assumption]].
Qed.

Lemma ProcessOne_block_app (w : Worker.t) (fuel : nat) (statistics : Statistics.t)
    (st : Worker.state) (outputTrack b1 b2 : list R) :
  sizes_ok w ->
  wave_inv w (statistics, st, outputTrack, []) ->
  feeding w (statistics, st, outputTrack, []) ->
  (length (b1 ++ b2) <= fuel)%nat ->
  Worker.ProcessOne_block w fuel
    (Worker.ProcessOne_block w fuel (Some (statistics, st, outputTrack)) b1) b2
  = Worker.ProcessOne_block w fuel (Some (statistics, st, outputTrack)) (b1 ++ b2).
Proof.
  intros Hsizes Hinv Hfeed Hfuel. pose proof Hfuel as Hfuel'.
  rewrite length_app in Hfuel'.
  destruct (ProcessOne_block_feed w fuel statistics st outputTrack b1 Hsizes Hinv Hfeed)
    as (Hb1 & Hnil1 & Hinv1 & Hfeed1); [lia|].
  destruct (ProcessOne_block_feed w fuel statistics st outputTrack (b1 ++ b2)
              Hsizes Hinv Hfeed Hfuel) as (Hb12 & _).
  rewrite Hb1, Hb12. clear Hb1 Hb12.
  set (c1 := (statistics, Worker.add_samples (Z.of_nat (length b1)) st, outputTrack, b1))
    in *.
  assert (Hinvc1 : wave_inv w c1) by exact Hinv.
  rewrite Hnil1 in Hinv1, Hfeed1.
  destruct (fst (feed w fuel c1)) as [[s1 st1] o1] eqn:Hc1.
  destruct (ProcessOne_block_feed w fuel s1 st1 o1 b2 Hsizes Hinv1 Hfeed1)
    as (Hb2 & _); [lia|].
  rewrite Hb2. f_equal. f_equal.
  (* the one block, turned into the two *)
  rewrite (feed_fuel w fuel Hsizes (length (b1 ++ b2))
             (statistics, Worker.add_samples (Z.of_nat (length (b1 ++ b2))) st,
              outputTrack, b1 ++ b2)); [| exact Hinv | exact Hfuel | cbn [snd]; lia].
  rewrite (feed_app w Hsizes (length b1) b1 (Nat.le_refl _)) by exact Hinv.
  rewrite length_app, Nat2Z.inj_add, add_samples_add.
  change (statistics,
          Worker.add_samples (Z.of_nat (length b2))
            (Worker.add_samples (Z.of_nat (length b1)) st), outputTrack, b1)
    with (add_samples_config (Z.of_nat (length b2)) c1).
  rewrite feed_add_samples.
  rewrite (feed_fuel w (length b1) Hsizes fuel c1 Hinvc1)
    by (subst c1; cbn [snd]; lia).
  rewrite Hnil1. cbn [add_samples_config set_buffer].
  apply (feed_fuel w _ Hsizes); [exact Hinv1 | cbn [snd]; lia | cbn [snd]; lia].
Qed.

Lemma ProcessOne_blocks_concat (w : Worker.t) (fuel : nat) :
  sizes_ok w ->
  forall blocks statistics st outputTrack,
  wave_inv w (statistics, st, outputTrack, []) ->
  feeding w (statistics, st, outputTrack, []) ->
  (total_length blocks <= fuel)%nat ->
  foldl (Worker.ProcessOne_block w fuel) (Some (statistics, st, outputTrack)) blocks
  = Worker.ProcessOne_block w fuel (Some (statistics, st, outputTrack)) (concat blocks).
Proof.
  intros Hsizes. induction blocks as [|block blocks IH];
    intros statistics st outputTrack Hinv Hfeed Hfuel.
  - cbn [foldl concat]. unfold Worker.ProcessOne_block.
    destruct fuel; cbn [Worker.ProcessSamples]; unfold Worker.ProcessSamples_test;
      rewrite bool_decide_eq_false_2 by (simpl; lia); cbn [andb length Z.of_nat];
      rewrite add_samples_0; reflexivity.
  - unfold total_length in Hfuel, IH. cbn [concat] in Hfuel. cbn [foldl concat].
    rewrite length_app in Hfuel.
    rewrite <- ProcessOne_block_app by (try assumption; rewrite length_app; lia).
    destruct (ProcessOne_block_feed w fuel statistics st outputTrack block
                Hsizes Hinv Hfeed) as (Hb & Hnil & Hinv' & Hfeed'); [lia|].
    rewrite Hb. rewrite Hnil in Hinv', Hfeed'.
    destruct (fst (feed w fuel _)) as [[s1 st1] o1].
    apply IH; [exact Hinv' | exact Hfeed' | lia].
Qed.

Lemma StartNewTrack_fed (w : Worker.t) (statistics : Statistics.t) (st : Worker.state) :
  sizes_ok w -> (1 <= Worker.mHistoryLen w < 2 ^ 31)%Z ->
  length (Worker.mInWaveBuffer st) = Z.to_nat (Worker.mWindowSize w) ->
  wave_inv w (statistics, Worker.StartNewTrack w st, [], [])
  /\ feeding w (statistics, Worker.StartNewTrack w st, [], []).
Proof.
  intros [Hwin Hstep Hsteps Hsmall _] HL Hwave.
  change (2 ^ 31)%Z with 2147483648%Z in *.
  assert (HHW : (Worker.mStepSize w <= Worker.mWindowSize w)%Z) by nia.
  assert (HS : (Worker.mStepsPerWindow w <= Worker.mWindowSize w)%Z) by nia.
  unfold wave_inv, feeding.
  cbn [fst snd Worker.StartNewTrack Worker.mInWavePos Worker.mOutStepCount
       Worker.mInSampleCount Worker.mInWaveBuffer length].
  rewrite to_size_t_small by (change (2 ^ 64)%Z with 18446744073709551616%Z; lia).
  rewrite !to_unsigned_small by (change (2 ^ 32)%Z with 4294967296%Z; lia).
  rewrite !to_int_small by (change (2 ^ 31)%Z with 2147483648%Z; lia).
  rewrite length_fill.
  destruct (Worker.mDoProfile w); (split; [split; [lia | exact Hwave] | simpl; nia]).
Qed.

(** X11.  How the host cuts a track into blocks makes no difference:
    [ProcessOne] leaves the same statistics, the same worker and the same
    output track for the blocks of a track as for all their samples
    handed over in one block. *)
Theorem ProcessOne_blocks (GetFFT : Z -> HFFT) (s : Settings.t) (rate : R)
    (fuel : nat) (statistics : Statistics.t) (st : Worker.state)
    (blocks : list (list R)) :
  Settings.well_defined s rate -> Settings.Validate s = true ->
  (Settings.WindowSize s < 2 ^ 31)%Z ->
  let w := Worker.new GetFFT s rate in
  (Worker.mHistoryLen w < 2 ^ 31)%Z ->
  length (Worker.mInWaveBuffer st) = Z.to_nat (Worker.mWindowSize w) ->
  (total_length blocks <= fuel)%nat ->
  Worker.ProcessOne w fuel statistics st blocks
  = Worker.ProcessOne w fuel statistics st [concat blocks].
Proof.
  intros Hwd Hv Hsmall w HL31 Hwave Hfuel.
  assert (Hsizes : sizes_ok w) by (apply sizes_ok_new; assumption).
  assert (HL : (1 <= Worker.mHistoryLen w < 2 ^ 31)%Z)
    by (split; [apply HistoryLen_pos, Hwd | exact HL31]).
  destruct (StartNewTrack_fed w statistics st Hsizes HL Hwave) as [Hinv Hfeed].
  unfold Worker.ProcessOne.
  rewrite (ProcessOne_blocks_concat w fuel Hsizes blocks _ _ _ Hinv Hfeed Hfuel).
  reflexivity.
Qed.

Lemma ProcessOne_blocks_witness :
  let w := Worker.new GetFFT_example settings_reduce 44100 in
  let statistics := Statistics.new (Worker.mSpectrumSize w) 44100 WT_HANN_HANN in
  Worker.ProcessOne w 512 statistics (Worker.new_state settings_reduce 44100)
    [[1; 2; 3]; [4; 5]]
  = Worker.ProcessOne w 512 statistics (Worker.new_state settings_reduce 44100)
      [[1; 2; 3; 4; 5]].
Proof.
  cbv zeta.
  apply (ProcessOne_blocks GetFFT_example settings_reduce 44100 512
           (Statistics.new
              (Worker.mSpectrumSize (Worker.new GetFFT_example settings_reduce 44100))
              44100 WT_HANN_HANN)
           (Worker.new_state settings_reduce 44100) [[1; 2; 3]; [4; 5]]
           settings_reduce_well_defined eq_refl eq_refl).
  - rewrite settings_reduce_HistoryLen. reflexivity.
  - cbn [Worker.new_state Worker.mInWaveBuffer Worker.new Worker.mWindowSize].
    apply length_replicate.
  - vm_compute. lia.
Defined.
